(** * hivemind_exp.trainer.hivemind_grpo_trainer

    A shallow embedding of [HivemindGRPOTrainer] and of its nested
    [PublishingGRPOTrainer]: the publisher callback, the leaderboard
    aggregator, the bounded-retry stage runner, the stage sequence and the
    coordinator and follower loops.

    Python integers are [Z], loop counters over [range] are [nat], wall-clock
    readings, durations and rewards are rationals [Q] (the value of a
    finite Python float), dictionaries with string keys are
    [gmap string _] except where iteration order is observable, where they
    are association lists.  The sums that build the running reward total
    are floating-point sums: they go through the operations of [FloatOps],
    of which exact addition is one instance.  Effects (writes to the node,
    DHT stores, logging, sleeping, cleanup, persistence) are threaded
    through a small state-and-exception monad whose state holds the node,
    the object bound to the local name [trainer], and the chronological
    trace of effects.  Everything the module calls but does not define (the
    DHT, the TRL base trainer, the dataset provider, the clocks) enters as
    explicit input; whether one of the module's calls into them raises is
    decided by an [Environment]. *)

From Stdlib Require Import ZArith QArith Qminmax Lqa String List Sorted Permutation Lia.
From Stdlib Require OrderedTypeEx.
From stdpp Require Import gmap strings list sorting.

Local Open Scope Z_scope.

(** ** Module constants *)

Definition MAX_TRAIN_FAILS : nat := 5.
Definition CADENCE_OF_UPDATE_STEPS : Z := 4.

(** ** Exceptions

    Only subclasses of Python's [Exception] are represented: these are the
    ones every [except Exception] clause of the module can see. *)

Inductive exn : Type :=
| BlockingIOError
| EOFError
| DatasetGenerationError
| UnboundLocalError
| ZeroDivisionError
| OtherException (name : string).

Inductive outcome (A : Type) : Type :=
| Return (a : A)
| Raise (e : exn).
Arguments Return {A} a.
Arguments Raise {A} e.

(** The first [except] clause of [train_stage_and_save]. *)
Definition is_dht_ipc_error (e : exn) : bool :=
  match e with
  | BlockingIOError | EOFError => true
  | _ => false
  end.

(** The first [except] clause of [follower_train]. *)
Definition is_dataset_generation_error (e : exn) : bool :=
  match e with
  | DatasetGenerationError => true
  | _ => false
  end.

(** ** Data model *)

(** What [node.rewards] may hold when the attribute exists: a list or tuple
    of numbers, or anything else. *)
Inductive rewards_attr : Type :=
| RewardList (l : list Q)
| RewardNotIterable.

Record HivemindNode : Type := mkNode {
  key : string;
  is_coordinator : bool;
  round_num : Z;
  stage_num : Z;
  out_expiration : Q;
  outputs : option (gmap string string);   (* [None]: attribute absent *)
  rewards : option rewards_attr            (* [None]: attribute absent *)
}.

Record PublishingGRPOTrainer : Type := mkTrainer {
  stage_rewards : Q;
  global_step : Z                           (* [self.state.global_step] *)
}.

Inductive metric_value : Type :=
| MNum (q : Q)
| MInt (z : Z)
| MStr (s : string).

(** A dataset as the module looks at it: whether it has a [__len__]. *)
Record dataset : Type := mkDataset { ds_len : option Z }.

Record GRPOConfig : Type := mkConfig {
  output_dir : string;
  push_to_hub_token : option string;
  distributed_state : bool                  (* present and not [None] *)
}.

(** The stages are kept by name: what a stage's [datasets_fn] and reward
    functions do reaches the module through the environment records of the
    stage loop below. *)
Record StageData : Type := mkStageData {
  stages : list string;                     (* the ordered stage sequence *)
  max_rounds : Z;
  train_timeout : Q
}.

Inductive dht_key : Type :=
| ROUND_STAGE_NUMBER_KEY
| leaderboard_key (r s : Z)
| node_outputs_key (node_key : string) (r s : Z)
| rewards_key (r s : Z).

Inductive dht_value : Type :=
| VRoundStage (r s : Z)
| VLeaderboard (ranking : list (string * Q))
| VOutputs (timestamp : Q) (outs : gmap string string)
| VReward (total : Q).

Inductive level : Type := DEBUG | INFO | WARNING | ERROR.

(** ** Effects *)

Inductive event : Type :=
| EvSetRound (r : Z)                        (* [node.round_num = r] *)
| EvSetStage (s : Z)                        (* [node.stage_num = s] *)
| EvStore (k : dht_key) (subkey : option string) (v : dht_value)
          (expiration_time : Q)             (* [dht.store] *)
| EvPutStageOutputs (r s : Z) (q_hash : string) (v : dht_value)
| EvLog (lvl : level) (msg : string)
| EvCleanup                                 (* [self.cleanup()] *)
| EvSleep (secs : Q)                        (* [time.sleep] *)
| EvVisibleMaddrs
| EvNewTrainer
| EvTrain                                   (* one call of [trainer.train()] *)
| EvLogMetrics (m : gmap string metric_value)
| EvSaveMetrics (m : gmap string metric_value)
| EvSaveState
| EvUseCache
| EvSaveModel (dir : string)
| EvWaitForEveryone
| EvSaveTokenizer (dir : string)
| EvPushToHub
| EvGcCollect
| EvEncode (s : string)                     (* [s.encode()] *)
| EvSum (l : list Q)                        (* [sum(l)] *)
| EvGetDhtValue (k : dht_key).              (* [get_dht_value(dht, key=k)] *)

Record world : Type := mkWorld {
  w_node : HivemindNode;
  w_trainer : option PublishingGRPOTrainer; (* [None]: the name is unbound *)
  w_trace : list event
}.

Definition M (A : Type) : Type := world -> outcome A * world.

Definition ret {A} (a : A) : M A := fun w => (Return a, w).

Definition raise {A} (e : exn) : M A := fun w => (Raise e, w).

Definition bind {A B} (m : M A) (f : A -> M B) : M B :=
  fun w =>
    match m w with
    | (Return a, w') => f a w'
    | (Raise e, w') => (Raise e, w')
    end.

(** [try: m  except Exception as e: h e].  An exception raised by the
    handler itself is not caught here. *)
Definition try_except {A} (m : M A) (h : exn -> M A) : M A :=
  fun w =>
    match m w with
    | (Return a, w') => (Return a, w')
    | (Raise e, w') => h e w'
    end.

Declare Scope py_scope.
Delimit Scope py_scope with py.
Notation "x <- m ;; k" := (bind m (fun x => k))
  (at level 100, m at next level, right associativity) : py_scope.
Notation "m ;;; k" := (bind m (fun _ => k))
  (at level 100, right associativity) : py_scope.
Local Open Scope py_scope.

Definition lift {A} (o : outcome A) : M A :=
  match o with
  | Return a => ret a
  | Raise e => raise e
  end.

Definition emit (e : event) : M unit :=
  fun w => (Return tt, mkWorld (w_node w) (w_trainer w) (w_trace w ++ [e])).

Definition log (lvl : level) (msg : string) : M unit := emit (EvLog lvl msg).

(** The calls the module makes into the DHT, the node, the TRL trainer and
    the libraries around them may raise.  Whether one does is decided by the
    outside world from what has happened so far: [fails h e] is the
    exception that call [e] raises after the effects [h], if it raises.  The
    trace records the calls that returned. *)
Class Environment : Type := {
  fails : list event -> event -> option exn
}.

(** The outside world in which no such call raises. *)
Definition no_failures : Environment := {| fails := fun _ _ => None |}.

Definition call {E : Environment} (e : event) : M unit :=
  fun w =>
    match fails (w_trace w) e with
    | None => emit e w
    | Some x => (Raise x, w)
    end.

(** A call without an effect of its own, such as [question.encode()] (which
    raises if the stored question is not a string the codec accepts),
    [sum(node.rewards)] (which raises if an element cannot be added) or a
    read of the DHT: it may raise, and leaves no record when it returns. *)
Definition check {E : Environment} (e : event) : M unit :=
  fun w =>
    match fails (w_trace w) e with
    | None => (Return tt, w)
    | Some x => (Raise x, w)
    end.

Definition get_node : M HivemindNode := fun w => (Return (w_node w), w).

Definition put_node (nd : HivemindNode) : M unit :=
  fun w => (Return tt, mkWorld nd (w_trainer w) (w_trace w)).

Definition bind_trainer (t : option PublishingGRPOTrainer) : M unit :=
  fun w => (Return tt, mkWorld (w_node w) t (w_trace w)).

(** Reading the name [trainer] (or [self] inside the trainer's methods). *)
Definition the_trainer : M PublishingGRPOTrainer :=
  fun w =>
    match w_trainer w with
    | Some t => (Return t, w)
    | None => (Raise UnboundLocalError, w)
    end.

Definition set_round_num (r : Z) : M unit :=
  nd <- get_node ;;
  put_node (mkNode (key nd) (is_coordinator nd) r (stage_num nd)
                   (out_expiration nd) (outputs nd) (rewards nd)) ;;;
  emit (EvSetRound r).

Definition set_stage_num (s : Z) : M unit :=
  nd <- get_node ;;
  put_node (mkNode (key nd) (is_coordinator nd) (round_num nd) s
                   (out_expiration nd) (outputs nd) (rewards nd)) ;;;
  emit (EvSetStage s).

(** ** Leaderboard aggregator *)

(** Python's comparison of the key tuples [(t[1], t[0])] of two items:
    rewards first, node keys on equal rewards.  Python orders strings by
    code point, which is the byte order of their UTF-8 encoding. *)
Definition key_compare (a b : string * Q) : comparison :=
  match (a.2 ?= b.2)%Q with
  | Eq => String.compare a.1 b.1
  | c => c
  end.

(** [sorted(items, key=lambda t: (t[1], t[0]), reverse=True)]: the stable
    descending sort, written as an insertion sort from the right. *)
Fixpoint insert_desc (x : string * Q) (l : list (string * Q)) : list (string * Q) :=
  match l with
  | [] => [x]
  | y :: l' =>
      match key_compare x y with
      | Lt => y :: insert_desc x l'
      | _ => x :: l
      end
  end.

Definition sorted_reverse (items : list (string * Q)) : list (string * Q) :=
  foldr insert_desc [] items.

(** Truthiness of an optional dictionary. *)
Definition truthy {A} (d : option (list A)) : option (list A) :=
  match d with
  | Some (x :: l) => Some (x :: l)
  | _ => None
  end.

(** [curr_rewards] is what [get_dht_value(dht, rewards_key(r, s))] returns,
    if it returns, and [dht_time] what [get_dht_time()] returns. *)
Definition publish_leaderboard {E : Environment}
    (curr_rewards : option (list (string * Q))) (dht_time : Q) : M unit :=
  nd <- get_node ;;
  let r := round_num nd in
  let s := stage_num nd in
  check (EvGetDhtValue (rewards_key r s)) ;;;
  match truthy curr_rewards with
  | Some items =>
      let leaderboard := sorted_reverse items in
      call (EvStore (leaderboard_key r s) None (VLeaderboard leaderboard)
                    (dht_time + out_expiration nd)%Q)
  | None => log INFO "Can't retrieve round rewards"
  end.

(** ** Small Python built-ins *)

Definition Qltb (a b : Q) : bool :=
  match (a ?= b)%Q with
  | Lt => true
  | _ => false
  end.

(** [min(a, b)]: the first argument unless the second is strictly smaller. *)
Definition py_min (a b : Q) : Q := if Qltb b a then b else a.

(** The running reward total is a Python float, and so are the rewards
    summed into it: [float_add a b] is the float [a + b], the exact sum
    rounded, and [float_sum l] is what the builtin [sum] returns for a list
    of floats (CPython adds from the left, since 3.12 with compensation). *)
Class FloatOps : Type := {
  float_add : Q -> Q -> Q;
  float_sum : list Q -> Q
}.

(** The arithmetic in which no sum is rounded: the floats' own as long as
    every sum is representable. *)
Definition exact_floats : FloatOps :=
  {| float_add := Qplus; float_sum := fun l => fold_left Qplus l 0%Q |}.

(** [sum(l)] *)
Definition py_sum {F : FloatOps} (l : list Q) : Q := float_sum l.

(** [l[start:]] for any integer [start]. *)
Definition slice_from {A} (l : list A) (start : Z) : list A :=
  if start <? 0
  then drop (Z.to_nat (Z.max 0 (Z.of_nat (length l) + start))) l
  else drop (Z.to_nat start) l.

Section Embedding.
Context {F : FloatOps} {E : Environment}.

(** [hashlib.md5(s.encode()).hexdigest()] *)
Variable md5_hexdigest : string -> string.
(** The two module constants, kept as parameters so that statements can
    range over them; the module fixes them to [CADENCE_OF_UPDATE_STEPS]
    and [MAX_TRAIN_FAILS]. *)
Variable cadence : Z.
Variable max_fails : nat.
(** [self.stage_data] and [self.config] *)
Variable stage_data : StageData.
Variable config : GRPOConfig.

(** *** PublishingGRPOTrainer *)

(** [PublishingGRPOTrainer.__init__]: [stage_rewards = 0.0]; the base
    class starts its step counter at 0. *)
Definition new_trainer : PublishingGRPOTrainer := mkTrainer 0%Q 0.

(** What one call of the training callback sees of the outside world. *)
Record step_input : Type := mkStep {
  si_outputs : option (gmap string string);  (* [node.outputs] after the reward functions *)
  si_rewards : option rewards_attr;          (* [node.rewards] after the reward functions *)
  si_loss : Q;
  si_time : Q;                               (* [time.time()] *)
  si_dht_time : Q;                           (* [get_dht_time()] *)
  si_curr_rewards : option (list (string * Q))
                                             (* the DHT's rewards entry for (round, stage) *)
}.

(** [super().compute_loss]: the reward functions save [node.outputs] and
    [node.rewards]; the loss is returned. *)
Definition super_compute_loss (inp : step_input) : M Q :=
  nd <- get_node ;;
  put_node (mkNode (key nd) (is_coordinator nd) (round_num nd) (stage_num nd)
                   (out_expiration nd) (si_outputs inp) (si_rewards inp)) ;;;
  ret (si_loss inp).

(** [hasattr(node, 'outputs') and node.outputs and "question" in node.outputs] *)
Definition question_of (outs : option (gmap string string))
    : option (gmap string string * string) :=
  match outs with
  | Some d =>
      if bool_decide (d = ∅) then None
      else match d !! "question"%string with
           | Some q => Some (d, q)
           | None => None
           end
  | None => None
  end.

Definition add_stage_rewards (x : Q) : M unit :=
  self <- the_trainer ;;
  bind_trainer (Some (mkTrainer (float_add (stage_rewards self) x) (global_step self))).

Definition skip_outputs_msg : string :=
  "node.outputs not available or 'question' key missing, skipping DHT publish for outputs.".
Definition skip_rewards_msg : string :=
  "node.rewards is not available or not iterable for calculating stage_rewards.".

(** The body of the cadence gate. *)
Definition publish (inp : step_input) : M unit :=
  nd <- get_node ;;
  match question_of (outputs nd) with
  | Some (outs, question) =>
      check (EvEncode question) ;;;
      let q_hash := md5_hexdigest question in
      let value := VOutputs (si_time inp) outs in
      call (EvStore (node_outputs_key (key nd) (round_num nd) (stage_num nd))
                    (Some q_hash) value (si_dht_time inp + out_expiration nd)%Q) ;;;
      call (EvPutStageOutputs (round_num nd) (stage_num nd) q_hash value) ;;;
      match rewards nd with
      | Some (RewardList l) => check (EvSum l) ;;; add_stage_rewards (py_sum l)
      | _ => log WARNING skip_rewards_msg
      end ;;;
      self <- the_trainer ;;
      call (EvStore (rewards_key (round_num nd) (stage_num nd)) (Some (key nd))
                    (VReward (stage_rewards self))
                    (si_dht_time inp + out_expiration nd)%Q)
  | None => log WARNING skip_outputs_msg
  end.

Definition compute_loss (inp : step_input) : M Q :=
  loss <- super_compute_loss inp ;;
  self <- the_trainer ;;
  (if cadence =? 0 then raise ZeroDivisionError
   else if global_step self mod cadence =? 0 then publish inp
   else ret tt) ;;;
  nd <- get_node ;;
  (if is_coordinator nd
   then publish_leaderboard (si_curr_rewards inp) (si_dht_time inp)
   else ret tt) ;;;
  ret loss.

(** *** The base trainer's loop

    [trainer.train()] belongs to the TRL base class.  What the module
    relies on: every call starts the step counter at 0 again, invokes
    [compute_loss] once per training step (no gradient accumulation) and
    advances the counter after it, and finally returns a result (possibly
    [None]) or raises.  A store failure inside the callback surfaces as the
    exception that ends the call. *)
Record train_script : Type := mkScript {
  ts_steps : list step_input;
  ts_ending : outcome (option (gmap string metric_value))
}.

Definition set_global_step (g : Z) : M unit :=
  self <- the_trainer ;;
  bind_trainer (Some (mkTrainer (stage_rewards self) g)).

Definition training_step (inp : step_input) : M unit :=
  compute_loss inp ;;;
  self <- the_trainer ;;
  set_global_step (global_step self + 1).

Fixpoint training_loop (steps : list step_input) : M unit :=
  match steps with
  | [] => ret tt
  | inp :: rest => training_step inp ;;; training_loop rest
  end.

Definition trainer_train (script : train_script)
    : M (option (gmap string metric_value)) :=
  emit EvTrain ;;;
  set_global_step 0 ;;;
  training_loop (ts_steps script) ;;;
  lift (ts_ending script).

(** *** HivemindGRPOTrainer: the stage runner *)

(** [cleanup]: garbage collection, device caches, [node.clear_stage_cache()]. *)
Definition cleanup : M unit := call EvCleanup.

Section StageRunner.
Variable attempts : nat -> train_script.

(** [for attempt in range(MAX_TRAIN_FAILS)], entered at [attempt] with
    [remaining] iterations to go; the result is [train_result]. *)
Fixpoint train_attempts (remaining attempt : nat)
    : M (option (gmap string metric_value)) :=
  match remaining with
  | O => ret None
  | S remaining' =>
      try_except (trainer_train (attempts attempt))
        (fun e =>
           (if is_dht_ipc_error e
            then log WARNING "DHT IPC error. Restarting training stage in 5s..."
            else log ERROR "Unexpected error during trainer.train()") ;;;
           cleanup ;;;
           emit (EvSleep 5) ;;;
           if (attempt =? max_fails - 1)%nat
           then log ERROR "Failed after MAX_TRAIN_FAILS attempts. Raising exception." ;;;
                raise e
           else train_attempts remaining' (S attempt))
  end.

Definition train_samples (train_dataset : dataset) : metric_value :=
  match ds_len train_dataset with
  | Some n => MInt n
  | None => MStr "unknown (IterableDataset)"
  end.

Definition train_stage_and_save (train_dataset : dataset) : M unit :=
  train_result <- train_attempts max_fails 0%nat ;;
  match train_result with
  | None =>
      log ERROR "train_result is None after training attempts, skipping metrics logging and saving."
  | Some metrics =>
      let metrics := <["train_samples"%string := train_samples train_dataset]> metrics in
      call (EvLogMetrics metrics) ;;;
      call (EvSaveMetrics metrics) ;;;
      call EvSaveState ;;;
      log INFO "Saving model" ;;;
      emit EvUseCache ;;;         (* [trainer.model.config.use_cache = True] *)
      call (EvSaveModel (output_dir config)) ;;;
      log INFO "Model saved" ;;;
      (if distributed_state config
       then call EvWaitForEveryone
       else log WARNING "distributed_state not found in config or is None. Skipping wait_for_everyone().") ;;;
      call (EvSaveTokenizer (output_dir config)) ;;;
      log INFO "Tokenizer saved"
  end.
End StageRunner.

(** *** HivemindGRPOTrainer: the stage sequence *)

(** The outside world during one iteration of the stage loop. *)
Record stage_env : Type := mkStageEnv {
  se_dht_time : Q;
  se_datasets : outcome (dataset * dataset);  (* [stage.datasets_fn(round_num, stage_num)] *)
  se_attempts : nat -> train_script           (* the successive [trainer.train()] calls *)
}.

(** The outside world during one call of [train_stages]. *)
Record call_env : Type := mkCallEnv {
  ce_stage : nat -> stage_env;                (* by loop index [i] *)
  ce_push : outcome unit                      (* [trainer.push_to_hub(...)] *)
}.

Definition create_publishing_trainer : M unit :=
  call EvNewTrainer ;;; bind_trainer (Some new_trainer).

Section TrainStages.
Variable env : call_env.
Variables (round_num_arg start_stage : Z) (is_coordinator_arg : bool).

Definition stage_body (i : nat) : M unit :=
  let stage_num := start_stage + Z.of_nat i in
  set_stage_num stage_num ;;;
  nd <- get_node ;;
  (if is_coordinator_arg
   then call (EvStore ROUND_STAGE_NUMBER_KEY None
                      (VRoundStage (round_num nd) stage_num)
                      (se_dht_time (ce_stage env i) + out_expiration nd)%Q)
   else ret tt) ;;;
  log INFO "Training round and stage" ;;;
  ds <- lift (se_datasets (ce_stage env i)) ;;
  log INFO "train_dataset inspected" ;;;
  create_publishing_trainer ;;;
  train_stage_and_save (se_attempts (ce_stage env i)) ds.1 ;;;
  log INFO "Finished training round and stage".

(** [for i, stage in enumerate(...)], entered at index [i]. *)
Fixpoint stage_loop (rest : list string) (i : nat) : M unit :=
  match rest with
  | [] => ret tt
  | _ :: rest' => stage_body i ;;; stage_loop rest' (S i)
  end.

Definition push_failed_msg : string :=
  "Failed to push model to the Hugging Face Hub.".

Definition train_stages : M unit :=
  bind_trainer None ;;;       (* a fresh frame: [trainer] is not bound yet *)
  set_round_num round_num_arg ;;;
  stage_loop (slice_from (stages stage_data) start_stage) 0%nat ;;;
  match push_to_hub_token config with
  | Some _ =>
      log INFO "Pushing model to Hugging Face Hub..." ;;;
      try_except
        (the_trainer ;;; emit EvPushToHub ;;; lift (ce_push env) ;;; emit (EvSleep 1))
        (fun _ => log INFO push_failed_msg)
  | None => ret tt
  end ;;;
  cleanup ;;;
  the_trainer ;;; bind_trainer None ;;;   (* [del trainer] *)
  emit EvGcCollect.
End TrainStages.

(** *** HivemindGRPOTrainer: the coordinator loop *)

Inductive loop_exit : Type :=
| Finished        (* [return] *)
| TimedOut        (* the loop test failed *)
| StillRunning.   (* the given observations are used up *)

Record coordinator_obs : Type := mkCoordinatorObs {
  co_now : Q;               (* [time.monotonic()] in the loop test *)
  co_call : call_env
}.

Fixpoint coordinator_loop (fuel : nat) (start_time : Q)
    (obs : nat -> coordinator_obs) (iter : nat) (round_num : Z) : M loop_exit :=
  if (round_num <? max_rounds stage_data)
     && Qltb (co_now (obs iter) - start_time) (train_timeout stage_data)
  then
    match fuel with
    | O => ret StillRunning
    | S fuel' =>
        log INFO "Starting new round" ;;;
        call EvVisibleMaddrs ;;;
        train_stages (co_call (obs iter)) round_num 0 true ;;;
        let round_num := round_num + 1 in
        if round_num =? max_rounds stage_data
        then log INFO "Coordinator reached max_rounds. Training finished." ;;;
             ret Finished
        else coordinator_loop fuel' start_time obs (S iter) round_num
    end
  else
    log INFO "Training timed out for coordinator!" ;;; ret TimedOut.

(** At most [max_rounds] iterations can run, which is the fuel given. *)
Definition coordinator_train (start_time : Q) (obs : nat -> coordinator_obs)
    : M loop_exit :=
  coordinator_loop (Z.to_nat (max_rounds stage_data)) start_time obs 0%nat 0.

(** *** HivemindGRPOTrainer: the follower loop *)

Record follower_obs : Type := mkFollowerObs {
  fo_now_guard : Q;                           (* [time.monotonic()] in the loop test *)
  fo_now : Q;                                 (* [curr_time] *)
  fo_fetched : outcome (option Z * option Z); (* [self.get_round_and_stage()] *)
  fo_first : call_env;                        (* during the first [train_stages] call *)
  fo_restart : call_env                       (* during the restart from stage 0 *)
}.

Record follower_state : Type := mkFollowerState {
  done_rounds : gset Z;
  fetch_log_time : Q;
  check_backoff : Q
}.

Inductive iteration_exit : Type :=
| Continue (st : follower_state)
| Exit.

Inductive follower_exit : Type :=
| FollowerFinished
| FollowerTimedOut
| FollowerPolling (st : follower_state).  (* the given observations are used up *)

Section Follower.
Variables (check_interval log_timeout max_check_interval : Q).

(** Both "could not fetch" paths: log at most once per [log_timeout],
    sleep [check_interval], [continue]. *)
Definition could_not_fetch (curr_time : Q) (st : follower_state)
    : M iteration_exit :=
  st' <- (if Qltb log_timeout (curr_time - fetch_log_time st)
          then log DEBUG "Could not fetch round and stage." ;;;
               ret (mkFollowerState (done_rounds st) curr_time (check_backoff st))
          else ret st) ;;
  emit (EvSleep check_interval) ;;;
  ret (Continue st').

(** The [round_num not in done_rounds] branch. *)
Definition join_round (obs : follower_obs) (round_num stage : Z)
    (st : follower_state) : M follower_state :=
  log INFO "Joining round" ;;;
  try_except (train_stages (fo_first obs) round_num stage false)
    (fun e =>
       if is_dataset_generation_error e
       then log WARNING "DatasetGenerationError" ;;;
            if 0 <? stage
            then log INFO "Re-attempting training for round {round_num} starting at stage 0!" ;;;
                 train_stages (fo_restart obs) round_num 0 false
            else log ERROR "DatasetGenerationError at stage 0. Cannot recover this round. Skipping."
       else log ERROR "Unexpected error during train_stages") ;;;
  ret (mkFollowerState ({[round_num]} ∪ done_rounds st) (fetch_log_time st)
                       check_interval).

(** The [else] branch: the round is already done. *)
Definition already_done (curr_time : Q) (st : follower_state)
    : M follower_state :=
  st' <- (if Qltb log_timeout (curr_time - fetch_log_time st)
          then log INFO "Already finished round. Waiting for next round." ;;;
               ret (mkFollowerState (done_rounds st) curr_time (check_backoff st))
          else ret st) ;;
  emit (EvSleep (check_backoff st')) ;;;
  ret (mkFollowerState (done_rounds st') (fetch_log_time st')
                       (py_min (check_backoff st' * 2)%Q max_check_interval)).

(** One pass through the body of the [while] loop. *)
Definition follower_body (obs : follower_obs) (st : follower_state)
    : M iteration_exit :=
  let curr_time := fo_now obs in
  call EvVisibleMaddrs ;;;
  match fo_fetched obs with
  | Return (Some round_num, Some stage) =>
      st' <- (if bool_decide (round_num ∈ done_rounds st)
              then already_done curr_time st
              else join_round obs round_num stage st) ;;
      if max_rounds stage_data - 1 <=? round_num
      then log INFO "Follower has attempted/finished the final round. Exiting training process." ;;;
           ret Exit
      else ret (Continue st')
  | _ => could_not_fetch curr_time st
  end.

Fixpoint follower_loop (start_time : Q) (obss : list follower_obs)
    (st : follower_state) : M follower_exit :=
  match obss with
  | [] => ret (FollowerPolling st)
  | obs :: rest =>
      if Qltb (fo_now_guard obs - start_time) (train_timeout stage_data)
      then r <- follower_body obs st ;;
           match r with
           | Continue st' => follower_loop start_time rest st'
           | Exit => ret FollowerFinished
           end
      else log INFO "Training timed out for follower!" ;;; ret FollowerTimedOut
  end.

Definition follower_train (start_time : Q) (obss : list follower_obs)
    : M follower_exit :=
  follower_loop start_time obss
    (mkFollowerState ∅ start_time check_interval).
End Follower.

(** *** HivemindGRPOTrainer: entry points *)

(** [_train]: the loop of the node's role; [follower_train] is called with
    its default intervals. *)
Definition _train (start_time : Q) (coordinator_view : nat -> coordinator_obs)
    (follower_view : list follower_obs) : M unit :=
  nd <- get_node ;;
  if is_coordinator nd
  then coordinator_train start_time coordinator_view ;;; ret tt
  else follower_train 5 10 (60 * 5) start_time follower_view ;;; ret tt.

(** [train]: anything that escapes the loops is logged and raised again. *)
Definition train (start_time : Q) (coordinator_view : nat -> coordinator_obs)
    (follower_view : list follower_obs) : M unit :=
  try_except (_train start_time coordinator_view follower_view)
    (fun e => log ERROR "Encountered error during training!" ;;; raise e).
End Embedding.

(** ** Vocabulary of the statements *)

(** The statements below range over every [FloatOps] and every
    [Environment] where they bind one ([F], [E]).  Where a statement binds
    none, it is about [exact_floats] and [no_failures]: exact sums, and runs
    in which the module's calls into the DHT, the node and the trainer
    return (a failing [trainer.train()], [datasets_fn], pointer fetch or hub
    push is still part of such a run: these enter through the scripts and
    observations). *)
#[local] Existing Instance exact_floats.
#[local] Existing Instance no_failures.

(** [a] ranks strictly above [b]: higher reward, or equal reward and the
    greater node key. *)
Definition ranks_above (a b : string * Q) : Prop := key_compare a b = Gt.

(** [a] does not rank below [b]. *)
Definition not_below (a b : string * Q) : Prop := key_compare a b <> Lt.

(** A coordinator node, a world around it and a rewards dictionary used as
    concrete instances. *)
Definition demo_node : HivemindNode :=
  mkNode "node-a" true 0 0 (60 # 1) None None.

Definition demo_world : world := mkWorld demo_node (Some (mkTrainer 0%Q 0)) [].

Definition demo_rewards : list (string * Q) :=
  [("alice", 1 # 2); ("bob", 2 # 1); ("carol", 1 # 2)]%Q.

(** *** The publisher callback, step by step *)

Section PublisherView.
Context {F : FloatOps}.
Variable md5_hexdigest : string -> string.
Variable cadence : Z.

(** The cadence gate of [compute_loss]. *)
Definition fires (g : Z) : bool := g mod cadence =? 0.

(** The node once the reward functions have saved their results. *)
Definition rewarded (nd : HivemindNode) (inp : step_input) : HivemindNode :=
  mkNode (key nd) (is_coordinator nd) (round_num nd) (stage_num nd)
         (out_expiration nd) (si_outputs inp) (si_rewards inp).

(** [stage_rewards] when the gated block is left. *)
Definition total_after (tr : PublishingGRPOTrainer) (inp : step_input) : Q :=
  if fires (global_step tr) then
    match question_of (si_outputs inp), si_rewards inp with
    | Some _, Some (RewardList l) => float_add (stage_rewards tr) (py_sum l)
    | _, _ => stage_rewards tr
    end
  else stage_rewards tr.

(** The effects of the gated block. *)
Definition publisher_events (nd : HivemindNode) (tr : PublishingGRPOTrainer)
    (inp : step_input) : list event :=
  if fires (global_step tr) then
    match question_of (si_outputs inp) with
    | Some (outs, question) =>
        let value := VOutputs (si_time inp) outs in
        [EvStore (node_outputs_key (key nd) (round_num nd) (stage_num nd))
                 (Some (md5_hexdigest question)) value
                 (si_dht_time inp + out_expiration nd)%Q;
         EvPutStageOutputs (round_num nd) (stage_num nd)
                           (md5_hexdigest question) value]
        ++ match si_rewards inp with
           | Some (RewardList _) => []
           | _ => [EvLog WARNING skip_rewards_msg]
           end
        ++ [EvStore (rewards_key (round_num nd) (stage_num nd)) (Some (key nd))
                    (VReward (total_after tr inp))
                    (si_dht_time inp + out_expiration nd)%Q]
    | None => [EvLog WARNING skip_outputs_msg]
    end
  else [].

(** The world when the gated block is left. *)
Definition after_publisher (w : world) (tr : PublishingGRPOTrainer)
    (inp : step_input) : world :=
  mkWorld (rewarded (w_node w) inp)
          (Some (mkTrainer (total_after tr inp) (global_step tr)))
          (w_trace w ++ publisher_events (w_node w) tr inp).

(** The world when [compute_loss] returns. *)
Definition after_compute_loss (w : world) (tr : PublishingGRPOTrainer)
    (inp : step_input) : world :=
  if is_coordinator (w_node w)
  then (publish_leaderboard (si_curr_rewards inp) (si_dht_time inp)
                            (after_publisher w tr inp)).2
  else after_publisher w tr inp.
End PublisherView.

(** What this call of [m] appended to the trace. *)
Definition events_of {A} (m : M A) (w : world) : list event :=
  drop (length (w_trace w)) (w_trace (m w).2).

Definition is_outputs_store (e : event) : bool :=
  match e with
  | EvStore (node_outputs_key _ _ _) _ _ _ => true
  | _ => false
  end.

Definition is_rewards_store (e : event) : bool :=
  match e with
  | EvStore (rewards_key _ _) _ _ _ => true
  | _ => false
  end.

Definition is_leaderboard_store (e : event) : bool :=
  match e with
  | EvStore (leaderboard_key _ _) _ _ _ => true
  | _ => false
  end.

(** The effects of the aggregator call that ends [compute_loss]. *)
Definition leaderboard_events (nd : HivemindNode) (inp : step_input) : list event :=
  if is_coordinator nd then
    match truthy (si_curr_rewards inp) with
    | Some items =>
        [EvStore (leaderboard_key (round_num nd) (stage_num nd)) None
                 (VLeaderboard (sorted_reverse items))
                 (si_dht_time inp + out_expiration nd)%Q]
    | None => [EvLog INFO "Can't retrieve round rewards"]
    end
  else [].

Section TrainingRun.
Context {F : FloatOps}.
Variable md5_hexdigest : string -> string.
Variable cadence : Z.

(** Everything one training step appends to the trace. *)
Definition step_events (nd : HivemindNode) (tr : PublishingGRPOTrainer)
    (inp : step_input) : list event :=
  publisher_events md5_hexdigest cadence nd tr inp ++ leaderboard_events nd inp.

(** The trainer after one training step. *)
Definition next_trainer (tr : PublishingGRPOTrainer) (inp : step_input)
    : PublishingGRPOTrainer :=
  mkTrainer (total_after cadence tr inp) (global_step tr + 1).

(** Trainer, node and per-step effects of a run of training steps. *)
Fixpoint run_trainer (tr : PublishingGRPOTrainer) (steps : list step_input)
    : PublishingGRPOTrainer :=
  match steps with
  | [] => tr
  | inp :: rest => run_trainer (next_trainer tr inp) rest
  end.

Fixpoint run_node (nd : HivemindNode) (steps : list step_input) : HivemindNode :=
  match steps with
  | [] => nd
  | inp :: rest => run_node (rewarded nd inp) rest
  end.

Fixpoint run_events (nd : HivemindNode) (tr : PublishingGRPOTrainer)
    (steps : list step_input) : list (list event) :=
  match steps with
  | [] => []
  | inp :: rest =>
      step_events nd tr inp :: run_events (rewarded nd inp) (next_trainer tr inp) rest
  end.
End TrainingRun.

(** The publisher went through its gate: it either stored the outputs or
    warned that there are none to store. *)
Definition is_firing (e : event) : bool :=
  match e with
  | EvStore (node_outputs_key _ _ _) _ _ _ => true
  | EvLog WARNING msg => String.eqb msg skip_outputs_msg
  | _ => false
  end.

Definition firings (evs : list event) : nat := length (filter is_firing evs).

(** [node.rewards] is absent or not a list or tuple. *)
Definition rewards_missing (r : option rewards_attr) : Prop :=
  match r with
  | Some (RewardList _) => False
  | _ => True
  end.

(** The rewards a step presents, if it presents a list, do not sum to a
    negative number. *)
Definition nonneg_rewards {F : FloatOps} (inp : step_input) : Prop :=
  match si_rewards inp with
  | Some (RewardList l) => (0 <= py_sum l)%Q
  | _ => True
  end.

(** Steps used as concrete instances. *)
Definition demo_outputs : gmap string string :=
  {[ "question"%string := "What is 2+2?"%string ]}.

Definition demo_step (r : option rewards_attr) : step_input :=
  mkStep (Some demo_outputs) r 0%Q 0%Q 0%Q (Some demo_rewards).

(** A fresh trainer bound in a world around the demo node. *)
Definition fresh_world : world := mkWorld demo_node (Some new_trainer) [].

(** The same world a step later: the step counter stands at 1. *)
Definition later_world : world := mkWorld demo_node (Some (mkTrainer 0%Q 1)) [].

(** A stand-in for the digest function in concrete runs. *)
Definition demo_digest (s : string) : string := s.

(** A call of [trainer.train()] that runs [n] steps and returns no result. *)
Definition demo_script (n : nat) : train_script :=
  mkScript (replicate n (demo_step None)) (Return None).

(** *** Reading a trace *)

Definition is_write (e : event) : bool :=
  match e with
  | EvSetRound _ | EvSetStage _ => true
  | _ => false
  end.

Definition is_train (e : event) : bool :=
  match e with
  | EvTrain => true
  | _ => false
  end.

Definition is_cleanup (e : event) : bool :=
  match e with
  | EvCleanup => true
  | _ => false
  end.

(** The events of the training callback. *)
Definition is_step_event (e : event) : bool :=
  match e with
  | EvStore _ _ _ _ | EvPutStageOutputs _ _ _ _ | EvLog _ _ => true
  | _ => false
  end.

(** The values written to [node.round_num], in order. *)
Definition round_writes (evs : list event) : list Z :=
  omap (fun e => match e with EvSetRound r => Some r | _ => None end) evs.

(** The values written to [node.stage_num], in order. *)
Definition stage_writes (evs : list event) : list Z :=
  omap (fun e => match e with EvSetStage s => Some s | _ => None end) evs.

(** The metrics records persisted, in order. *)
Definition saved_metrics (evs : list event) : list (gmap string metric_value) :=
  omap (fun e => match e with EvSaveMetrics m => Some m | _ => None end) evs.


Definition count (p : event -> bool) (evs : list event) : nat :=
  length (filter p evs).

(** The call of [trainer.train()] described by the script ends in an
    exception. *)
Definition failed (script : train_script) : bool :=
  match ts_ending script with
  | Raise _ => true
  | Return _ => false
  end.

(** Whatever [m] appends to the trace satisfies [Q]. *)
Definition appends {A} (Q : list event -> Prop) (m : M A) : Prop :=
  forall w, exists evs, w_trace (m w).2 = w_trace w ++ evs /\ Q evs.

(** [m] leaves [node.round_num] and [node.stage_num] as they are. *)
Definition steady {A} (m : M A) : Prop :=
  forall w,
    round_num (w_node (m w).2) = round_num (w_node w)
    /\ stage_num (w_node (m w).2) = stage_num (w_node w).

(** [m] writes neither [round_num] nor [stage_num]: no write is recorded
    and the two fields keep their values. *)
Definition quiet {A} (m : M A) : Prop :=
  appends (Forall (fun e => is_write e = false)) m /\ steady m.

(** The writes to [round_num] and [stage_num], in order. *)
Definition writes (evs : list event) : list event := filter is_write evs.

(** [k] consecutive writes to [stage_num], from [start_stage + i] upwards. *)
Definition stage_run (start_stage : Z) (i k : nat) : list event :=
  (fun j : nat => EvSetStage (start_stage + Z.of_nat (i + j))) <$> seq 0 k.

(** What the hub-push block of [train_stages] logs when [trainer] is unbound. *)
Definition push_unbound_events (config : GRPOConfig) : list event :=
  match push_to_hub_token config with
  | Some _ => [EvLog INFO "Pushing model to Hugging Face Hub...";
               EvLog INFO push_failed_msg]
  | None => []
  end.

(** [node.round_num = r] *)
Definition with_round (nd : HivemindNode) (r : Z) : HivemindNode :=
  mkNode (key nd) (is_coordinator nd) r (stage_num nd) (out_expiration nd)
         (outputs nd) (rewards nd).

(** [n] consecutive round numbers from [round] upwards. *)
Definition round_run (round : Z) (n : nat) : list Z :=
  (fun j : nat => round + Z.of_nat j) <$> seq 0 n.

(** A two-stage, two-round configuration in which every dataset is built
    and every training call returns at once. *)
Definition demo_stage_data : StageData :=
  mkStageData ["stage 0"; "stage 1"]%string 2 (3600 # 1).

Definition demo_config : GRPOConfig := mkConfig "out" None false.

Definition demo_stage_env : stage_env :=
  mkStageEnv 0%Q (Return (mkDataset (Some 8), mkDataset (Some 2)))
             (fun _ => mkScript [] (Return (Some ∅))).

Definition demo_call_env : call_env :=
  mkCallEnv (fun _ => demo_stage_env) (Return tt).

Definition demo_coordinator_obs (_ : nat) : coordinator_obs :=
  mkCoordinatorObs 0%Q demo_call_env.

(** The first attempt, among [remaining] attempts from [attempt] on, that
    does not fail. *)
Fixpoint first_success (attempts : nat -> train_script) (remaining attempt : nat)
    : option nat :=
  match remaining with
  | O => None
  | S remaining' =>
      if failed (attempts attempt)
      then first_success attempts remaining' (S attempt)
      else Some attempt
  end.

(** What the exception handler of the retry loop logs before cleaning up. *)
Definition retry_log (e : exn) : event :=
  if is_dht_ipc_error e
  then EvLog WARNING "DHT IPC error. Restarting training stage in 5s..."
  else EvLog ERROR "Unexpected error during trainer.train()".

(** Three attempts: two transient store errors, then success. *)
Definition demo_metrics : gmap string metric_value :=
  {[ "train_loss"%string := MNum (1 # 4) ]}.

Definition demo_attempts (attempt : nat) : train_script :=
  match attempt with
  | 0%nat => mkScript [demo_step None] (Raise BlockingIOError)
  | 1%nat => mkScript [] (Raise EOFError)
  | _ => mkScript [demo_step None] (Return (Some demo_metrics))
  end.

(** *** Follower instances and vocabulary *)


Section FollowerView.
Variable stage_data : StageData.
Variable log_timeout : Q.



End FollowerView.

(** Three stages, ten rounds. *)
Definition three_stage_data : StageData :=
  mkStageData ["stage 0"; "stage 1"; "stage 2"]%string 10 (3600 # 1).

(** Every dataset construction fails with a dataset-generation error. *)
Definition failing_datasets : call_env :=
  mkCallEnv (fun _ => mkStageEnv 0%Q (Raise DatasetGenerationError)
                                 (fun _ => mkScript [] (Return None)))
            (Return tt).

Definition follower_world : world :=
  mkWorld (mkNode "node-b" false 0 0 (60 # 1) None None) None [].

(** The pointer shows round 0, stage 2; dataset construction fails on the
    first call and on the restart. *)
Definition dge_obs : follower_obs :=
  mkFollowerObs 1%Q 1%Q (Return (Some 0, Some 2)) failing_datasets failing_datasets.

(** Later the pointer shows round 1, stage 0, and everything would work. *)
Definition next_round_obs : follower_obs :=
  mkFollowerObs 2%Q 2%Q (Return (Some 1, Some 0)) demo_call_env demo_call_env.

(** The pointer shows round 0 again, which is done. *)
Definition seen_obs : follower_obs :=
  mkFollowerObs 3%Q 3%Q (Return (Some 0, Some 0)) demo_call_env demo_call_env.


(** The pointer shows round 0, stage 2; dataset construction fails on the
    first call and works on the restart. *)
Definition restart_obs : follower_obs :=
  mkFollowerObs 1%Q 1%Q (Return (Some 0, Some 2)) failing_datasets demo_call_env.

(** ** More of the module *)

(** *** HivemindGRPOTrainer.wait_for *)

(** What one pass of the polling loop sees: the clock in the loop test and
    what [result_fn()] does. *)
Record wait_obs (A : Type) : Type := mkWaitObs {
  wo_now : Q;
  wo_result : outcome (option A)
}.
Arguments mkWaitObs {A} wo_now wo_result.
Arguments wo_now {A} w.
Arguments wo_result {A} w.

Inductive wait_exit (A : Type) : Type :=
| WaitReturned (result : option A)
| WaitPending.                         (* the given observations are used up *)
Arguments WaitReturned {A} result.
Arguments WaitPending {A}.

(** [return result]: the local name may never have been bound. *)
Definition return_result {A} (result : option (option A)) : M (wait_exit A) :=
  match result with
  | Some r => ret (WaitReturned r)
  | None => raise UnboundLocalError
  end.

(** The [while] loop; [result] is the local variable ([None]: unbound). *)
Fixpoint wait_loop {A} (interval timeout start_time : Q)
    (obss : list (wait_obs A)) (result : option (option A)) : M (wait_exit A) :=
  match obss with
  | [] => ret WaitPending
  | obs :: rest =>
      if Qltb (wo_now obs - start_time) timeout
      then r <- lift (wo_result obs) ;;
           match r with
           | None => emit (EvSleep interval) ;;;
                     wait_loop interval timeout start_time rest (Some None)
           | Some v => return_result (Some (Some v))     (* [break] *)
           end
      else return_result result
  end.

Definition wait_for {A} (interval timeout start_time : Q)
    (obss : list (wait_obs A)) : M (wait_exit A) :=
  wait_loop interval timeout start_time obss None.


(** *** Invariants of a computation *)

(** From a world that satisfies [I], [m] ends in a world that satisfies [I]
    and appends to the trace only events that satisfy [P]. *)
Definition keeps (I : world -> Prop) (P : event -> Prop) {A} (m : M A) : Prop :=
  forall w, I w ->
    I (m w).2
    /\ exists evs, w_trace (m w).2 = w_trace w ++ evs /\ Forall P evs.

(** The events every part of the module may emit whatever its role: logs,
    sleeps, cleanup, training calls and the publisher's stores. *)
Definition is_routine (e : event) : bool :=
  match e with
  | EvLog _ _ | EvCleanup | EvSleep _
  | EvVisibleMaddrs | EvNewTrainer | EvTrain | EvGcCollect
  | EvPutStageOutputs _ _ _ _
  | EvStore (node_outputs_key _ _ _) _ _ _
  | EvStore (rewards_key _ _) _ _ _ => true
  | _ => false
  end.

(** Persistence of a stage's results. *)
Definition is_persistence (e : event) : bool :=
  match e with
  | EvLogMetrics _ | EvSaveMetrics _ | EvSaveState | EvUseCache
  | EvSaveModel _ | EvWaitForEveryone | EvSaveTokenizer _ => true
  | _ => false
  end.

Definition is_pointer_store (e : event) : bool :=
  match e with
  | EvStore ROUND_STAGE_NUMBER_KEY _ _ _ => true
  | _ => false
  end.

Definition is_push (e : event) : bool :=
  match e with
  | EvPushToHub => true
  | _ => false
  end.

(** *** How a call ends, from what the outside world does *)

(** An outcome without its value. *)
Definition void {A} (o : outcome A) : outcome unit :=
  match o with
  | Return _ => Return tt
  | Raise e => Raise e
  end.

Section Outcomes.
Variable max_fails : nat.
Variable stage_data : StageData.

(** The retry loop: the first call of [trainer.train()] that returns ends
    it; the exception of attempt [max_fails - 1] is raised again. *)
Fixpoint attempts_outcome (attempts : nat -> train_script) (remaining attempt : nat)
    : outcome unit :=
  match remaining with
  | O => Return tt
  | S remaining' =>
      match ts_ending (attempts attempt) with
      | Return _ => Return tt
      | Raise e =>
          if (attempt =? max_fails - 1)%nat then Raise e
          else attempts_outcome attempts remaining' (S attempt)
      end
  end.

(** One stage: its datasets are built, then it is trained. *)
Definition stage_outcome (se : stage_env) : outcome unit :=
  match se_datasets se with
  | Raise e => Raise e
  | Return _ => attempts_outcome (se_attempts se) max_fails 0
  end.

(** The stages from loop index [i] on, up to the first that raises. *)
Fixpoint stages_outcome (env : call_env) (rest : list string) (i : nat) : outcome unit :=
  match rest with
  | [] => Return tt
  | _ :: rest' =>
      match stage_outcome (ce_stage env i) with
      | Return _ => stages_outcome env rest' (S i)
      | Raise e => Raise e
      end
  end.

(** A call of [train_stages]: with no stage to run, [del trainer] finds the
    name unbound. *)
Definition train_stages_outcome (env : call_env) (start_stage : Z) : outcome unit :=
  match slice_from (stages stage_data) start_stage with
  | [] => Raise UnboundLocalError
  | rest => stages_outcome env rest 0
  end.
End Outcomes.

(** Iteration [i] of the coordinator loop starts before the time-out and
    all the stages of its round succeed. *)
Definition round_succeeds (max_fails : nat) (stage_data : StageData) (start_time : Q)
    (obs : nat -> coordinator_obs) (i : nat) : Prop :=
  Qltb (co_now (obs i) - start_time) (train_timeout stage_data) = true
  /\ train_stages_outcome max_fails stage_data (co_call (obs i)) 0 = Return tt.

(** Coordinator observations in which the second round cannot build its
    datasets, and in which the clock has passed the time-out when the
    second round is due. *)
Definition failing_round_obs (i : nat) : coordinator_obs :=
  mkCoordinatorObs 0%Q (if (i =? 1)%nat then failing_datasets else demo_call_env).

Definition late_round_obs (i : nat) : coordinator_obs :=
  mkCoordinatorObs (if (i =? 1)%nat then 4000 else 0)%Q demo_call_env.

(** Should the follower restart the round it joins on this observation,
    every stage of the restart succeeds. *)
Definition restart_cannot_fail (max_fails : nat) (stage_data : StageData)
    (obs : follower_obs) : Prop :=
  forall r s, fo_fetched obs = Return (Some r, Some s) -> 0 < s ->
    train_stages_outcome max_fails stage_data (fo_restart obs) 0 = Return tt.





(** The pointer shows the last of [three_stage_data]'s ten rounds. *)
Definition final_round_obs : follower_obs :=
  mkFollowerObs 4%Q 4%Q (Return (Some 9, Some 0)) failing_datasets demo_call_env.


(** *** The published pointer *)

(** What the stage loop does with a stage once its number is written and
    published. *)
Definition stage_rest {F : FloatOps} {E : Environment}
    (md5_hexdigest : string -> string) (cadence : Z) (max_fails : nat)
    (config : GRPOConfig) (env : call_env) (i : nat) : M unit :=
  log INFO "Training round and stage" ;;;
  ds <- lift (se_datasets (ce_stage env i)) ;;
  log INFO "train_dataset inspected" ;;;
  create_publishing_trainer ;;;
  train_stage_and_save md5_hexdigest cadence max_fails config
                       (se_attempts (ce_stage env i)) ds.1 ;;;
  log INFO "Finished training round and stage".

(** The pointer stores of [k] consecutive stages from loop index [i] on,
    made from node [nd]. *)
Definition pointer_stores (env : call_env) (nd : HivemindNode) (start_stage : Z)
    (i k : nat) : list event :=
  (fun j : nat =>
     EvStore ROUND_STAGE_NUMBER_KEY None
             (VRoundStage (round_num nd) (start_stage + Z.of_nat (i + j)))
             (se_dht_time (ce_stage env (i + j)) + out_expiration nd)%Q) <$> seq 0 k.


(** *** What the publisher has published *)

(** The outputs stored in the DHT: round, stage, subkey and value, in order. *)
Definition stored_outputs (evs : list event)
    : list (Z * Z * option string * dht_value) :=
  omap (fun e => match e with
                 | EvStore (node_outputs_key _ r s) subkey v _ => Some (r, s, subkey, v)
                 | _ => None
                 end) evs.

(** The outputs put in the node's own cache, in order. *)
Definition cached_outputs (evs : list event)
    : list (Z * Z * option string * dht_value) :=
  omap (fun e => match e with
                 | EvPutStageOutputs r s q_hash v => Some (r, s, Some q_hash, v)
                 | _ => None
                 end) evs.

(** The running totals stored under the rewards key, in order. *)
Definition reward_values (evs : list event) : list Q :=
  omap (fun e => match e with
                 | EvStore (rewards_key _ _) _ (VReward total) _ => Some total
                 | _ => None
                 end) evs.


(** *** The publisher and the outside world *)

(** The world in which the cadence gate is tested: the reward functions
    have saved their results in the node. *)
Definition at_gate (w : world) (inp : step_input) : world :=
  mkWorld (rewarded (w_node w) inp) (w_trainer w) (w_trace w).

(** An outside world in which every store to the DHT raises. *)
Definition dht_down : Environment :=
  {| fails := fun _ e => match e with
                         | EvStore _ _ _ _ => Some BlockingIOError
                         | _ => None
                         end |}.


(** *** Runs in which every call returns *)

(** Whenever [m] returns, [m0] returns the same value in the same world. *)
Definition returns_as {A} (m m0 : M A) : Prop :=
  forall w a w', m w = (Return a, w') -> m0 w = (Return a, w').

(** * Properties *)

(** ** The leaderboard order *)

Lemma key_compare_antisym a b : key_compare a b = CompOpp (key_compare b a).
Proof.
  unfold key_compare. rewrite <- (Qcompare_antisym b.2 a.2).
  destruct (b.2 ?= a.2)%Q; simpl; auto using String.compare_antisym.
Qed.

Lemma key_compare_Eq a b :
  key_compare a b = Eq -> a.1 = b.1 /\ (a.2 == b.2)%Q.
Proof.
  unfold key_compare. destruct (a.2 ?= b.2)%Q eqn:E; try discriminate.
  intros H. split; [now apply String.compare_eq_iff | now apply Qeq_alt].
Qed.

Lemma string_compare_Lt_trans a b c :
  String.compare a b = Lt -> String.compare b c = Lt -> String.compare a c = Lt.
Proof.
  intros H1 H2. apply OrderedTypeEx.String_as_OT.cmp_lt.
  apply OrderedTypeEx.String_as_OT.cmp_lt in H1, H2.
  eapply OrderedTypeEx.String_as_OT.lt_trans; eauto.
Qed.

Lemma key_compare_Lt_trans a b c :
  key_compare a b = Lt -> key_compare b c = Lt -> key_compare a c = Lt.
Proof.
  unfold key_compare.
  destruct (Qcompare_spec a.2 b.2) as [E1|L1|G1];
    destruct (Qcompare_spec b.2 c.2) as [E2|L2|G2]; try discriminate; intros H1 H2.
  - assert (Hac : (a.2 ?= c.2)%Q = Eq) by (apply Qeq_alt; now rewrite E1).
    rewrite Hac. eauto using string_compare_Lt_trans.
  - assert (Hac : (a.2 ?= c.2)%Q = Lt) by (apply Qlt_alt; now rewrite E1).
    now rewrite Hac.
  - assert (Hac : (a.2 ?= c.2)%Q = Lt) by (apply Qlt_alt; now rewrite <- E2).
    now rewrite Hac.
  - assert (Hac : (a.2 ?= c.2)%Q = Lt) by (apply Qlt_alt; eapply Qlt_trans; eauto).
    now rewrite Hac.
Qed.

Lemma key_compare_refl a : key_compare a a = Eq.
Proof.
  pose proof (key_compare_antisym a a) as H.
  destruct (key_compare a a); simpl in H; congruence.
Qed.

Lemma key_compare_Eq_Lt a b c :
  key_compare a b = Eq -> key_compare b c = Lt -> key_compare a c = Lt.
Proof.
  intros [Hk Hr]%key_compare_Eq. unfold key_compare.
  assert (Hq : (a.2 ?= c.2)%Q = (b.2 ?= c.2)%Q) by now rewrite Hr.
  now rewrite Hq, Hk.
Qed.

Lemma key_compare_Lt_Eq a b c :
  key_compare a b = Lt -> key_compare b c = Eq -> key_compare a c = Lt.
Proof.
  intros H [Hk Hr]%key_compare_Eq. revert H. unfold key_compare.
  assert (Hq : (a.2 ?= b.2)%Q = (a.2 ?= c.2)%Q) by now rewrite Hr.
  now rewrite Hq, Hk.
Qed.

#[local] Instance not_below_trans : Transitive not_below.
Proof.
  intros a b c Hab Hbc Hac. unfold not_below in *.
  rewrite key_compare_antisym in Hab. rewrite key_compare_antisym in Hbc.
  destruct (key_compare b a) eqn:Eba; simpl in Hab; try congruence;
    destruct (key_compare c b) eqn:Ecb; simpl in Hbc; try congruence.
  - pose proof (key_compare_Lt_Eq _ _ _ Hac Ecb) as H.
    rewrite key_compare_antisym, Eba in H. discriminate.
  - pose proof (key_compare_Lt_Eq _ _ _ Ecb Eba) as H.
    rewrite key_compare_antisym, Hac in H. discriminate.
  - pose proof (key_compare_Eq_Lt _ _ _ Ecb Eba) as H.
    rewrite key_compare_antisym, Hac in H. discriminate.
  - pose proof (key_compare_Lt_trans _ _ _ Ecb Eba) as H.
    rewrite key_compare_antisym, Hac in H. discriminate.
Qed.

Lemma insert_desc_Permutation x l : insert_desc x l ≡ₚ x :: l.
Proof.
  induction l as [|y l IH]; simpl; [done|].
  destruct (key_compare x y); [done| |done].
  rewrite IH. apply Permutation_swap.
Qed.

Lemma sorted_reverse_Permutation l : sorted_reverse l ≡ₚ l.
Proof.
  induction l as [|x l IH]; simpl; [done|].
  fold (sorted_reverse l). now rewrite insert_desc_Permutation, IH.
Qed.

Lemma insert_desc_HdRel a x l :
  not_below a x -> HdRel not_below a l -> HdRel not_below a (insert_desc x l).
Proof.
  intros Hax Hal. destruct l as [|y l]; simpl; [by constructor|].
  inversion_clear Hal. destruct (key_compare x y); by constructor.
Qed.

Lemma insert_desc_Sorted x l :
  Sorted not_below l -> Sorted not_below (insert_desc x l).
Proof.
  induction 1 as [|y l Hl IH Hy]; simpl; [by repeat constructor|].
  destruct (key_compare x y) eqn:E.
  - constructor; [by constructor|]. constructor. unfold not_below. congruence.
  - constructor; [done|]. apply insert_desc_HdRel; [|done].
    unfold not_below. rewrite key_compare_antisym, E. discriminate.
  - constructor; [by constructor|]. constructor. unfold not_below. congruence.
Qed.

Lemma sorted_reverse_Sorted l : Sorted not_below (sorted_reverse l).
Proof.
  induction l as [|x l IH]; simpl; [constructor|].
  by apply insert_desc_Sorted.
Qed.

(** In a dictionary's items a key determines its item. *)
Lemma items_key_inj (l : list (string * Q)) a b :
  NoDup l.*1 -> a ∈ l -> b ∈ l -> a.1 = b.1 -> a = b.
Proof.
  induction l as [|x l IH]; simpl; intros Hnd Ha Hb Hk.
  - by apply elem_of_nil in Ha.
  - apply NoDup_cons in Hnd as [Hx Hnd].
    apply elem_of_cons in Ha as [->|Ha]; apply elem_of_cons in Hb as [->|Hb]; auto.
    + exfalso. apply Hx. rewrite Hk. apply list_elem_of_fmap. eauto.
    + exfalso. apply Hx. rewrite <- Hk. apply list_elem_of_fmap. eauto.
Qed.

Lemma not_below_antisym_items (l : list (string * Q)) a b :
  NoDup l.*1 -> a ∈ l -> b ∈ l -> not_below a b -> not_below b a -> a = b.
Proof.
  intros Hnd Ha Hb Hab Hba. unfold not_below in *.
  rewrite key_compare_antisym in Hba.
  destruct (key_compare a b) eqn:E; simpl in Hba; try congruence.
  apply key_compare_Eq in E as [Hk _]. eauto using items_key_inj.
Qed.

(** The ranking depends on the dictionary, not on the order in which its
    items are enumerated. *)
Lemma sorted_reverse_order_independent (l l' : list (string * Q)) :
  NoDup l.*1 -> l' ≡ₚ l -> sorted_reverse l' = sorted_reverse l.
Proof.
  intros Hnd Hp.
  apply (Sorted_unique_strong not_below); auto using sorted_reverse_Sorted.
  - intros a b Ha Hb. rewrite sorted_reverse_Permutation in Ha, Hb.
    rewrite Hp in Ha. eauto using not_below_antisym_items.
  - now rewrite !sorted_reverse_Permutation.
Qed.

Lemma StronglySorted_ranks_above (l : list (string * Q)) :
  NoDup l.*1 -> StronglySorted not_below l -> StronglySorted ranks_above l.
Proof.
  induction l as [|x l IH]; intros Hnd Hs; [constructor|].
  simpl in Hnd. apply NoDup_cons in Hnd as [Hx Hnd].
  apply StronglySorted_inv in Hs as [Hs Hall].
  constructor; [auto|].
  rewrite Forall_forall in Hall |- *. intros y Hy.
  specialize (Hall y Hy). unfold not_below, ranks_above in *.
  destruct (key_compare x y) eqn:E; try congruence.
  apply key_compare_Eq in E as [Hk _]. exfalso. apply Hx.
  rewrite Hk. apply list_elem_of_fmap. by exists y.
Qed.

Lemma publish_leaderboard_some (x : string * Q) (l : list (string * Q)) dht_time w :
  publish_leaderboard (Some (x :: l)) dht_time w
  = (Return tt,
     mkWorld (w_node w) (w_trainer w)
       (w_trace w ++
          [EvStore (leaderboard_key (round_num (w_node w)) (stage_num (w_node w))) None
                   (VLeaderboard (sorted_reverse (x :: l)))
                   (dht_time + out_expiration (w_node w))%Q])).
Proof. reflexivity. Qed.

Lemma publish_leaderboard_none (curr_rewards : option (list (string * Q))) dht_time w :
  curr_rewards = None \/ curr_rewards = Some [] ->
  publish_leaderboard curr_rewards dht_time w
  = (Return tt,
     mkWorld (w_node w) (w_trainer w)
       (w_trace w ++ [EvLog INFO "Can't retrieve round rewards"])).
Proof. intros [-> | ->]; reflexivity. Qed.

(** C7. For a non-empty dictionary [R] of rewards by node key, the
    aggregator stores under the leaderboard key of the node's round and
    stage the items of [R] sorted by reward descending, ties broken by node
    key descending.  The ranking is a rearrangement of the items of [R] in
    which every item ranks strictly above all the later ones (a total
    order: no two items tie), it is the same for every world and clock
    reading in which the aggregation is run again and for every order in
    which the dictionary enumerates its items, and ranking the ranking
    returns it unchanged.  If the dictionary is absent or empty, only an
    info line is logged and nothing is stored.  The store itself is taken
    to return. *)
Theorem C7_leaderboard_ranking (R : list (string * Q)) (dht_time : Q) (w : world) :
  R <> [] ->
  NoDup R.*1 ->
  let ranking := sorted_reverse R in
  (forall w' t',
      publish_leaderboard (Some R) t' w'
      = (Return tt,
         mkWorld (w_node w') (w_trainer w')
           (w_trace w' ++
              [EvStore (leaderboard_key (round_num (w_node w')) (stage_num (w_node w')))
                       None (VLeaderboard ranking)
                       (t' + out_expiration (w_node w'))%Q])))
  /\ ranking ≡ₚ R
  /\ StronglySorted ranks_above ranking
  /\ (forall R', R' ≡ₚ R -> sorted_reverse R' = ranking)
  /\ sorted_reverse ranking = ranking
  /\ (forall absent, absent = None \/ absent = Some [] ->
        publish_leaderboard absent dht_time w
        = (Return tt,
           mkWorld (w_node w) (w_trainer w)
             (w_trace w ++ [EvLog INFO "Can't retrieve round rewards"]))).
Proof.
  intros Hne Hnd ranking. subst ranking.
  repeat split.
  - intros w' t'. destruct R as [|x l]; [done|]. apply publish_leaderboard_some.
  - apply sorted_reverse_Permutation.
  - apply StronglySorted_ranks_above.
    + by rewrite sorted_reverse_Permutation.
    + apply Sorted_StronglySorted; [apply _|]. apply sorted_reverse_Sorted.
  - intros R' HR'. by apply sorted_reverse_order_independent.
  - apply sorted_reverse_order_independent; [done|].
    apply sorted_reverse_Permutation.
  - intros absent Habs. by apply publish_leaderboard_none.
Qed.

Lemma C7_leaderboard_ranking_witness :
  demo_rewards <> [] /\ NoDup demo_rewards.*1 /\
  sorted_reverse demo_rewards = [("bob", 2 # 1); ("carol", 1 # 2); ("alice", 1 # 2)]%Q /\
  StronglySorted ranks_above (sorted_reverse demo_rewards).
Proof.
  assert (H1 : demo_rewards <> []) by discriminate.
  assert (H2 : NoDup demo_rewards.*1) by (apply (bool_decide_unpack _); vm_compute; exact I).
  split; [exact H1|]. split; [exact H2|]. split; [reflexivity|].
  exact (proj1 (proj2 (proj2 (C7_leaderboard_ranking demo_rewards 0%Q demo_world H1 H2)))).
Defined.

(** ** Running the monad *)

Ltac monad_unfold :=
  unfold bind, ret, raise, try_except, lift, log, emit, get_node, put_node,
    bind_trainer, the_trainer in *.

Lemma bind_eq {A B} (m : M A) (f : A -> M B) (w : world) :
  bind m f w
  = match m w with
    | (Return a, w') => f a w'
    | (Raise e, w') => (Raise e, w')
    end.
Proof. reflexivity. Qed.

(** ** The publisher callback *)

Section PublisherFacts.
Context {F : FloatOps}.
Variable md5_hexdigest : string -> string.
Variable cadence : Z.

Lemma compute_loss_eq (inp : step_input) (w : world) (tr : PublishingGRPOTrainer) :
  cadence <> 0 ->
  w_trainer w = Some tr ->
  compute_loss md5_hexdigest cadence inp w
  = (Return (si_loss inp), after_compute_loss md5_hexdigest cadence w tr inp).
Proof.
  intros Hc Htr. destruct w as [nd otr tr0]. simpl in Htr. subst otr.
  destruct tr as [total g]. apply Z.eqb_neq in Hc.
  unfold compute_loss, after_compute_loss,
    after_publisher, publisher_events,
    total_after, fires, publish, publish_leaderboard,
    super_compute_loss, add_stage_rewards.
  unfold rewarded. monad_unfold. rewrite Hc. simpl.
  destruct (g mod cadence =? 0); simpl.
  - destruct (question_of (si_outputs inp)) as [[outs q]|]; simpl.
    + destruct (si_rewards inp) as [[l|]|]; simpl;
        destruct (is_coordinator nd); simpl;
        try destruct (truthy (si_curr_rewards inp)); simpl;
        repeat (rewrite <- app_assoc; simpl); reflexivity.
    + destruct (is_coordinator nd); simpl;
        try destruct (truthy (si_curr_rewards inp)); simpl;
        repeat (rewrite <- app_assoc; simpl); reflexivity.
  - destruct (is_coordinator nd); simpl;
      try destruct (truthy (si_curr_rewards inp)); simpl;
      rewrite ?app_nil_r; reflexivity.
Qed.
End PublisherFacts.

Section TrainingRunFacts.
Context {F : FloatOps}.
Variable md5_hexdigest : string -> string.
Variable cadence : Z.
Hypothesis cadence_nonzero : cadence <> 0.

Lemma after_compute_loss_eq (w : world) (tr : PublishingGRPOTrainer) (inp : step_input) :
  after_compute_loss md5_hexdigest cadence w tr inp
  = mkWorld (rewarded (w_node w) inp)
            (Some (mkTrainer (total_after cadence tr inp) (global_step tr)))
            (w_trace w ++ step_events md5_hexdigest cadence (w_node w) tr inp).
Proof.
  unfold after_compute_loss, step_events, leaderboard_events,
    after_publisher, publish_leaderboard.
  monad_unfold. destruct (is_coordinator (w_node w)) eqn:Hco; simpl.
  - destruct (truthy (si_curr_rewards inp)); simpl; by rewrite <- app_assoc.
  - by rewrite app_nil_r.
Qed.

Lemma training_step_eq (inp : step_input) (w : world) (tr : PublishingGRPOTrainer) :
  w_trainer w = Some tr ->
  training_step md5_hexdigest cadence inp w
  = (Return tt,
     mkWorld (rewarded (w_node w) inp) (Some (next_trainer cadence tr inp))
             (w_trace w ++ step_events md5_hexdigest cadence (w_node w) tr inp)).
Proof.
  intros Htr. unfold training_step, set_global_step.
  unfold bind at 1. rewrite (compute_loss_eq _ _ inp w tr cadence_nonzero Htr).
  rewrite after_compute_loss_eq. reflexivity.
Qed.

Lemma training_loop_eq (steps : list step_input) (w : world) (tr : PublishingGRPOTrainer) :
  w_trainer w = Some tr ->
  training_loop md5_hexdigest cadence steps w
  = (Return tt,
     mkWorld (run_node (w_node w) steps) (Some (run_trainer cadence tr steps))
             (w_trace w ++ concat (run_events md5_hexdigest cadence (w_node w) tr steps))).
Proof.
  revert w tr. induction steps as [|inp rest IH]; intros w tr Htr.
  - destruct w; simpl in *. subst. by rewrite app_nil_r.
  - simpl. unfold bind. rewrite (training_step_eq _ _ _ Htr).
    rewrite (IH _ (next_trainer cadence tr inp)) by reflexivity.
    simpl. by rewrite <- app_assoc.
Qed.

Lemma trainer_train_eq (script : train_script) (w : world) (tr : PublishingGRPOTrainer) :
  w_trainer w = Some tr ->
  let tr0 := mkTrainer (stage_rewards tr) 0 in
  trainer_train md5_hexdigest cadence script w
  = (ts_ending script,
     mkWorld (run_node (w_node w) (ts_steps script))
             (Some (run_trainer cadence tr0 (ts_steps script)))
             (w_trace w ++ EvTrain ::
                concat (run_events md5_hexdigest cadence (w_node w) tr0 (ts_steps script)))).
Proof.
  intros Htr tr0. unfold trainer_train, set_global_step.
  destruct w as [nd otr evs]. simpl in Htr. subst otr.
  monad_unfold. simpl.
  rewrite (training_loop_eq _ _ tr0) by reflexivity. simpl.
  rewrite <- app_assoc. simpl. by destruct (ts_ending script).
Qed.
End TrainingRunFacts.

Lemma events_of_eq {A} (m : M A) (w : world) (evs : list event) :
  w_trace (m w).2 = w_trace w ++ evs -> events_of m w = evs.
Proof. intros H. unfold events_of. rewrite H. apply drop_app_length. Qed.

Lemma firings_app (a b : list event) : firings (a ++ b) = (firings a + firings b)%nat.
Proof. unfold firings. by rewrite filter_app, length_app. Qed.

Lemma firings_leaderboard_events nd inp : firings (leaderboard_events nd inp) = 0%nat.
Proof.
  unfold leaderboard_events.
  destruct (is_coordinator nd); [|done].
  by destruct (truthy (si_curr_rewards inp)).
Qed.

Lemma ceil_div_step (g n : Z) :
  0 < n -> (g + 1 + n - 1) / n - (g + n - 1) / n = if g mod n =? 0 then 1 else 0.
Proof.
  intros Hn.
  pose proof (Z.div_mod g n ltac:(lia)) as Hg.
  pose proof (Z.mod_pos_bound g n Hn) as Hr.
  replace (g + 1 + n - 1) with (g + 1 * n) by lia.
  rewrite Z.div_add by lia.
  destruct (Z.eqb_spec (g mod n) 0) as [H0|H0].
  - rewrite (Z.div_unique (g + n - 1) n (g / n) (n - 1)); lia.
  - rewrite (Z.div_unique (g + n - 1) n (g / n + 1) (g mod n - 1)); lia.
Qed.

Section CadenceFacts.
Context {F : FloatOps}.
Variable md5_hexdigest : string -> string.
Variable cadence : Z.
Hypothesis cadence_pos : 0 < cadence.

Lemma firings_step_events nd tr inp :
  firings (step_events md5_hexdigest cadence nd tr inp)
  = if global_step tr mod cadence =? 0 then 1%nat else 0%nat.
Proof.
  unfold step_events. rewrite firings_app, firings_leaderboard_events.
  unfold publisher_events, fires.
  destruct (global_step tr mod cadence =? 0); [|done].
  destruct (question_of (si_outputs inp)) as [[outs q]|]; [|done].
  by destruct (si_rewards inp) as [[l|]|].
Qed.

Lemma run_events_length nd tr steps : length (run_events md5_hexdigest cadence nd tr steps)
  = length steps.
Proof.
  revert nd tr. induction steps as [|inp rest IH]; intros nd tr; simpl; auto.
Qed.

Lemma run_events_lookup nd tr steps (i : nat) evs :
  run_events md5_hexdigest cadence nd tr steps !! i = Some evs ->
  firings evs = if (global_step tr + Z.of_nat i) mod cadence =? 0 then 1%nat else 0%nat.
Proof.
  revert nd tr i. induction steps as [|inp rest IH]; intros nd tr i; [done|].
  destruct i as [|i]; cbn [run_events lookup list_lookup].
  - intros [= <-]. rewrite Z.add_0_r. apply firings_step_events.
  - intros H. apply IH in H. cbn [next_trainer global_step] in H.
    replace (global_step tr + Z.of_nat (S i))
      with (global_step tr + 1 + Z.of_nat i) by lia.
    exact H.
Qed.

Lemma run_events_firings nd tr steps :
  Z.of_nat (firings (concat (run_events md5_hexdigest cadence nd tr steps)))
  = (global_step tr + Z.of_nat (length steps) + cadence - 1) / cadence
    - (global_step tr + cadence - 1) / cadence.
Proof.
  revert nd tr. induction steps as [|inp rest IH]; intros nd tr.
  - cbn [run_events concat length firings filter list_filter].
    change (Z.of_nat 0) with 0. rewrite Z.add_0_r. lia.
  - cbn [run_events concat length]. rewrite firings_app, Nat2Z.inj_add, IH.
    rewrite firings_step_events. cbn [next_trainer global_step].
    pose proof (ceil_div_step (global_step tr) cadence cadence_pos) as Hs.
    replace (global_step tr + 1 + Z.of_nat (length rest) + cadence - 1)
      with (global_step tr + Z.of_nat (S (length rest)) + cadence - 1) by lia.
    destruct (global_step tr mod cadence =? 0); lia.
Qed.
End CadenceFacts.

Section PublisherClaims.
Context {F : FloatOps}.
Variable md5_hexdigest : string -> string.
Variable cadence : Z.

Lemma compute_loss_events (inp : step_input) (w : world) (tr : PublishingGRPOTrainer) :
  cadence <> 0 -> w_trainer w = Some tr ->
  events_of (compute_loss md5_hexdigest cadence inp) w
    = step_events md5_hexdigest cadence (w_node w) tr inp.
Proof.
  intros Hc Htr. apply events_of_eq.
  rewrite (compute_loss_eq _ _ inp w tr Hc Htr), after_compute_loss_eq. reflexivity.
Qed.

Lemma compute_loss_trainer (inp : step_input) (w : world) (tr : PublishingGRPOTrainer) :
  cadence <> 0 -> w_trainer w = Some tr ->
  w_trainer (compute_loss md5_hexdigest cadence inp w).2
  = Some (mkTrainer (total_after cadence tr inp) (global_step tr)).
Proof.
  intros Hc Htr.
  rewrite (compute_loss_eq _ _ inp w tr Hc Htr), after_compute_loss_eq. reflexivity.
Qed.

(** C8 (amended). The aggregator is invoked only on a coordinator node, and
    there on every call of the training callback, after the cadence-gated
    publisher block, whether or not the publisher fired on that step.  The
    stores of both are taken to return. *)
Theorem C8_leaderboard_every_step (inp : step_input) (w : world)
    (tr : PublishingGRPOTrainer) :
  cadence <> 0 ->
  w_trainer w = Some tr ->
  compute_loss md5_hexdigest cadence inp w
  = (Return (si_loss inp),
     if is_coordinator (w_node w)
     then (publish_leaderboard (si_curr_rewards inp) (si_dht_time inp)
                               (after_publisher md5_hexdigest cadence w tr inp)).2
     else after_publisher md5_hexdigest cadence w tr inp)
  /\ w_trace (after_publisher md5_hexdigest cadence w tr inp)
     = w_trace w ++ publisher_events md5_hexdigest cadence (w_node w) tr inp
  /\ (fires cadence (global_step tr) = false ->
      publisher_events md5_hexdigest cadence (w_node w) tr inp = [])
  /\ (is_coordinator (w_node w) = false ->
      events_of (compute_loss md5_hexdigest cadence inp) w
        = publisher_events md5_hexdigest cadence (w_node w) tr inp).
Proof.
  intros Hc Htr. repeat split.
  - apply (compute_loss_eq _ _ inp w tr Hc Htr).
  - intros Hf. unfold publisher_events. by rewrite Hf.
  - intros Hco. rewrite (compute_loss_events inp w tr Hc Htr).
    unfold step_events, leaderboard_events. rewrite Hco.
    apply app_nil_r.
Qed.

(** C9 (amended). For every cadence N > 0 and every call of
    [trainer.train()] that runs S training steps, the step counter seen by
    the callback runs through 0, 1, ..., S-1; the publisher fires on
    precisely the steps whose counter is a multiple of N, once each, which
    makes ceil(S/N) firings in all.  The publisher's calls are taken to
    return, so that all S steps run. *)
Theorem C9_publisher_cadence (script : train_script) (w : world)
    (tr : PublishingGRPOTrainer) :
  0 < cadence ->
  w_trainer w = Some tr ->
  exists per_step : list (list event),
    events_of (trainer_train md5_hexdigest cadence script) w = EvTrain :: concat per_step
    /\ length per_step = length (ts_steps script)
    /\ (forall (i : nat) evs,
          per_step !! i = Some evs ->
          firings evs = if Z.of_nat i mod cadence =? 0 then 1%nat else 0%nat)
    /\ Z.of_nat (firings (events_of (trainer_train md5_hexdigest cadence script) w))
       = (Z.of_nat (length (ts_steps script)) + cadence - 1) / cadence.
Proof.
  intros Hc Htr.
  assert (Hnz : cadence <> 0) by lia.
  set (tr0 := mkTrainer (stage_rewards tr) 0).
  assert (Hev : events_of (trainer_train md5_hexdigest cadence script) w
                = EvTrain :: concat (run_events md5_hexdigest cadence (w_node w) tr0
                                       (ts_steps script))).
  { apply events_of_eq. by rewrite (trainer_train_eq _ _ Hnz script w tr Htr). }
  exists (run_events md5_hexdigest cadence (w_node w) tr0 (ts_steps script)). repeat split.
  - exact Hev.
  - apply run_events_length.
  - intros i evs H. apply (run_events_lookup _ _) in H. exact H.
  - rewrite Hev. change (EvTrain :: ?l) with ([EvTrain] ++ l).
    rewrite firings_app. change (firings [EvTrain]) with 0%nat.
    rewrite Nat.add_0_l, (run_events_firings _ _ Hc).
    subst tr0. cbn [global_step].
    replace (0 + cadence - 1) with (cadence - 1) by lia.
    rewrite (Z.div_small (cadence - 1)) by lia.
    by rewrite Z.sub_0_r.
Qed.
End PublisherClaims.

(** *** Missing state, and calls that raise *)

Section PublisherMissingState.
Context {F : FloatOps}.
Variable md5_hexdigest : string -> string.
Variable cadence : Z.

(** Up to the cadence gate the callback makes no call of its own; when the
    publisher fires, an exception of the gated block is the callback's. *)
Lemma compute_loss_at_gate {E : Environment} (inp : step_input) (w : world)
    (tr : PublishingGRPOTrainer) :
  cadence <> 0 ->
  w_trainer w = Some tr ->
  fires cadence (global_step tr) = true ->
  compute_loss md5_hexdigest cadence inp w
  = match publish md5_hexdigest inp (at_gate w inp) with
    | (Return _, w1) =>
        (nd <- get_node ;;
         (if is_coordinator nd
          then publish_leaderboard (si_curr_rewards inp) (si_dht_time inp)
          else ret tt) ;;;
         ret (si_loss inp)) w1
    | (Raise x, w1) => (Raise x, w1)
    end.
Proof.
  intros Hc Htr Hf. unfold compute_loss, super_compute_loss, at_gate, rewarded.
  apply Z.eqb_neq in Hc. unfold fires in Hf.
  rewrite !bind_eq. cbn [get_node put_node w_node w_trainer w_trace].
  rewrite !bind_eq. cbn [get_node put_node ret w_node w_trainer w_trace].
  rewrite !bind_eq. unfold the_trainer at 1. cbn [w_trainer]. rewrite Htr, Hc, Hf.
  rewrite bind_eq. by destruct (publish _ _ _) as [[[]|x] w1].
Qed.

(** C3 (amended). On a publisher firing: if the node's outputs are absent,
    empty or lack a "question" field, the publisher logs a warning and
    skips the cycle.  It then makes no call at all, so that it returns
    whatever the outside world does; no outputs are stored, no rewards are
    stored and the running total is untouched.  If the outputs are there
    but the rewards are absent or not a list or tuple, only the
    accumulation is skipped: the publisher stores the outputs, mirrors them
    in the node's cache, logs a warning and stores the unchanged running
    total under the rewards key.  These three calls, and
    [question.encode()] before them, are made as in any other cycle, in
    this order and unguarded: the first of them that raises ends the
    publisher there and fails the training step with its exception. *)
Theorem C3_publisher_missing_state (inp : step_input) (w : world)
    (tr : PublishingGRPOTrainer) :
  cadence <> 0 ->
  w_trainer w = Some tr ->
  fires cadence (global_step tr) = true ->
  let nd := w_node w in
  let expiration := (si_dht_time inp + out_expiration nd)%Q in
  let logged (evs : list event) :=
    mkWorld (rewarded nd inp) (Some tr) (w_trace w ++ evs) in
  (question_of (si_outputs inp) = None ->
      (forall E : Environment,
          publish (E := E) md5_hexdigest inp (at_gate w inp)
          = (Return tt, logged [EvLog WARNING skip_outputs_msg]))
      /\ events_of (compute_loss (E := no_failures) md5_hexdigest cadence inp) w
         = EvLog WARNING skip_outputs_msg :: leaderboard_events nd inp
      /\ filter is_outputs_store
           (events_of (compute_loss (E := no_failures) md5_hexdigest cadence inp) w) = []
      /\ filter is_rewards_store
           (events_of (compute_loss (E := no_failures) md5_hexdigest cadence inp) w) = []
      /\ w_trainer (compute_loss (E := no_failures) md5_hexdigest cadence inp w).2
         = Some tr)
  /\ (forall outs question,
      question_of (si_outputs inp) = Some (outs, question) ->
      rewards_missing (si_rewards inp) ->
      let store_outputs :=
        EvStore (node_outputs_key (key nd) (round_num nd) (stage_num nd))
                (Some (md5_hexdigest question)) (VOutputs (si_time inp) outs)
                expiration in
      let cache_outputs :=
        EvPutStageOutputs (round_num nd) (stage_num nd) (md5_hexdigest question)
                          (VOutputs (si_time inp) outs) in
      let warning := EvLog WARNING skip_rewards_msg in
      let store_total :=
        EvStore (rewards_key (round_num nd) (stage_num nd)) (Some (key nd))
                (VReward (stage_rewards tr)) expiration in
      events_of (compute_loss (E := no_failures) md5_hexdigest cadence inp) w
      = [store_outputs; cache_outputs; warning; store_total]
          ++ leaderboard_events nd inp
      /\ w_trainer (compute_loss (E := no_failures) md5_hexdigest cadence inp w).2
         = Some tr
      /\ (forall E : Environment,
            publish (E := E) md5_hexdigest inp (at_gate w inp)
            = match fails (w_trace w) (EvEncode question) with
              | Some x => (Raise x, logged [])
              | None =>
              match fails (w_trace w) store_outputs with
              | Some x => (Raise x, logged [])
              | None =>
              match fails (w_trace w ++ [store_outputs]) cache_outputs with
              | Some x => (Raise x, logged [store_outputs])
              | None =>
              match fails (w_trace w ++ [store_outputs; cache_outputs; warning])
                          store_total with
              | Some x => (Raise x, logged [store_outputs; cache_outputs; warning])
              | None =>
                  (Return tt, logged [store_outputs; cache_outputs; warning; store_total])
              end end end end)
      /\ (forall (E : Environment) x w',
            publish (E := E) md5_hexdigest inp (at_gate w inp) = (Raise x, w') ->
            compute_loss (E := E) md5_hexdigest cadence inp w = (Raise x, w'))).
Proof.
  intros Hc Htr Hf nd expiration logged. split.
  - intros Hq. split.
    { intros E. unfold publish, at_gate, rewarded, log. rewrite bind_eq.
      cbn [get_node w_node outputs]. rewrite Hq. subst logged nd. cbn. by rewrite Htr. }
    rewrite (compute_loss_events _ _ inp w tr Hc Htr),
      (compute_loss_trainer _ _ inp w tr Hc Htr).
    unfold step_events, publisher_events, total_after.
    rewrite Hf, Hq. fold nd. destruct tr. repeat split; simpl.
    + unfold leaderboard_events. destruct (is_coordinator nd); [|done].
      by destruct (truthy (si_curr_rewards inp)).
    + unfold leaderboard_events. destruct (is_coordinator nd); [|done].
      by destruct (truthy (si_curr_rewards inp)).
  - intros outs question Hq Hr store_outputs cache_outputs warning store_total.
    split; [|split; [|split]].
    + rewrite (compute_loss_events _ _ inp w tr Hc Htr).
      unfold step_events, publisher_events, total_after.
      rewrite Hf, Hq. fold nd. fold expiration.
      by destruct (si_rewards inp) as [[l|]|].
    + rewrite (compute_loss_trainer _ _ inp w tr Hc Htr). unfold total_after.
      rewrite Hf, Hq. destruct tr. by destruct (si_rewards inp) as [[l|]|].
    + intros E. unfold publish, at_gate, rewarded. rewrite bind_eq.
      cbn [get_node w_node w_trainer w_trace outputs rewards key round_num stage_num
           out_expiration].
      rewrite Hq. fold nd. fold expiration. fold store_outputs. fold cache_outputs.
      assert (Hlog : (match si_rewards inp with
                      | Some (RewardList l) =>
                          check (EvSum l) ;;; add_stage_rewards (py_sum l)
                      | _ => log WARNING skip_rewards_msg
                      end) = log WARNING skip_rewards_msg).
      { by destruct (si_rewards inp) as [[l|]|]. }
      rewrite Hlog. clear Hlog. subst logged. cbn beta.
      rewrite bind_eq. unfold check. cbn [w_trace].
      destruct (fails (w_trace w) (EvEncode question)); [by rewrite Htr, app_nil_r|].
      rewrite bind_eq. unfold call at 1. cbn [w_trace].
      destruct (fails (w_trace w) store_outputs); [by rewrite Htr, app_nil_r|].
      cbn [emit w_node w_trainer w_trace]. rewrite bind_eq. unfold call at 1. cbn [w_trace].
      destruct (fails (w_trace w ++ [store_outputs]) cache_outputs); [by rewrite Htr|].
      cbn [emit w_node w_trainer w_trace]. rewrite bind_eq. unfold log.
      cbn [emit w_node w_trainer w_trace]. rewrite bind_eq. unfold the_trainer.
      cbn [w_trainer]. rewrite Htr. fold store_total. unfold call. cbn [w_trace].
      rewrite <- !app_assoc. cbn [app].
      destruct (fails _ store_total); [done|].
      unfold emit. cbn [w_node w_trainer w_trace]. by rewrite <- !app_assoc.
    + intros E x w' Hp. by rewrite (compute_loss_at_gate inp w tr Hc Htr Hf), Hp.
Qed.
End PublisherMissingState.

(** *** The running total *)

Section RunningTotal.
Context {F : FloatOps} {E : Environment}.
Variable md5_hexdigest : string -> string.
Variable cadence : Z.
(** Adding a float that is not negative to a float never gives a smaller
    float: the exact sum is not smaller and rounding keeps the order. *)
Hypothesis float_add_nonneg : forall t x : Q, (0 <= x)%Q -> (t <= float_add t x)%Q.

Ltac total_same tr := exists tr; split; [try done|split; [done|by left]].

(** What one call of the callback does to the running total, whatever
    raises in it. *)
Lemma compute_loss_total (inp : step_input) (w : world) (tr : PublishingGRPOTrainer) :
  w_trainer w = Some tr ->
  exists tr',
    w_trainer (compute_loss md5_hexdigest cadence inp w).2 = Some tr'
    /\ global_step tr' = global_step tr
    /\ (stage_rewards tr' = stage_rewards tr
        \/ exists l, si_rewards inp = Some (RewardList l)
                     /\ stage_rewards tr'
                        = float_add (stage_rewards tr) (py_sum l)).
Proof.
  intros Htr.
  assert (Hkeep : forall (m : M unit) w0 t0,
            w_trainer w0 = Some t0 ->
            (forall w1, w_trainer (m w1).2 = w_trainer w1) ->
            exists tr', w_trainer (m w0).2 = Some tr'
                        /\ global_step tr' = global_step t0
                        /\ stage_rewards tr' = stage_rewards t0).
  { intros m w0 t0 H0 Hm. exists t0. by rewrite Hm. }
  assert (Hcall : forall e w1, w_trainer (call e w1).2 = w_trainer w1).
  { intros e w1. unfold call. by destruct (fails (w_trace w1) e). }
  assert (Hbind : forall (m : M unit) (k : M unit) w1,
            (forall w2, w_trainer (m w2).2 = w_trainer w2) ->
            (forall w2, w_trainer (k w2).2 = w_trainer w2) ->
            w_trainer ((m ;;; k) w1).2 = w_trainer w1).
  { intros m k w1 Hm Hk. rewrite bind_eq. specialize (Hm w1).
    destruct (m w1) as [[[]|x] w2]; cbn [snd] in *; [by rewrite Hk|done]. }
  assert (Hboard : forall w1,
            w_trainer ((nd <- get_node ;;
                        (if is_coordinator nd
                         then publish_leaderboard (si_curr_rewards inp) (si_dht_time inp)
                         else ret tt) ;;;
                        ret (si_loss inp)) w1).2 = w_trainer w1).
  { intros w1. rewrite bind_eq. cbn [get_node]. rewrite bind_eq.
    destruct (is_coordinator (w_node w1)); [|done].
    unfold publish_leaderboard. rewrite bind_eq. cbn [get_node]. cbv zeta.
    rewrite bind_eq. unfold check. destruct (fails _ (EvGetDhtValue _)); [done|].
    destruct (truthy (si_curr_rewards inp)); [|done].
    pose proof (Hcall (EvStore (leaderboard_key (round_num (w_node w1))
                                                (stage_num (w_node w1))) None
                               (VLeaderboard (sorted_reverse l))
                               (si_dht_time inp + out_expiration (w_node w1))%Q) w1) as Hc.
    by destruct (call _ w1) as [[[]|x] w2]. }
  unfold compute_loss, super_compute_loss.
  rewrite !bind_eq. cbn [get_node put_node w_node w_trainer w_trace].
  rewrite !bind_eq. cbn [get_node put_node ret w_node w_trainer w_trace].
  rewrite !bind_eq. unfold the_trainer at 1. cbn [w_trainer]. rewrite Htr.
  set (w0 := mkWorld _ (Some tr) (w_trace w)).
  destruct (cadence =? 0); [total_same tr|].
  rewrite bind_eq.
  assert (Hpub : exists tr',
            w_trainer (match (if global_step tr mod cadence =? 0
                              then publish md5_hexdigest inp else ret tt) w0 with
                       | (Return a, w') =>
                           (nd <- get_node ;;
                            (if is_coordinator nd
                             then publish_leaderboard (si_curr_rewards inp)
                                                      (si_dht_time inp)
                             else ret tt) ;;;
                            ret (si_loss inp)) w'
                       | (Raise e, w') => (Raise e, w')
                       end).2 = Some tr'
            /\ global_step tr' = global_step tr
            /\ (stage_rewards tr' = stage_rewards tr
                \/ exists l, si_rewards inp = Some (RewardList l)
                             /\ stage_rewards tr'
                                = float_add (stage_rewards tr) (py_sum l))).
  { destruct (global_step tr mod cadence =? 0).
    2:{ cbn [ret]. rewrite Hboard. total_same tr. }
    unfold publish. rewrite bind_eq. cbn [get_node]. subst w0.
    cbn [w_node outputs rewards key round_num stage_num out_expiration].
    destruct (question_of (si_outputs inp)) as [[outs question]|].
    2:{ unfold log. cbn [emit]. rewrite Hboard. total_same tr. }
    rewrite bind_eq. unfold check at 1. cbn [w_trace].
    destruct (fails _ _); [total_same tr|].
    rewrite bind_eq. unfold call at 1. cbn [w_trace].
    destruct (fails _ _); [total_same tr|].
    cbn [emit w_node w_trainer w_trace]. rewrite bind_eq. unfold call at 1.
    cbn [w_trace]. destruct (fails _ _); [total_same tr|].
    cbn [emit w_node w_trainer w_trace]. rewrite bind_eq.
    destruct (si_rewards inp) as [[l|]|].
    - rewrite bind_eq. unfold check. cbn [w_trace].
      destruct (fails _ (EvSum l)); [total_same tr|].
      unfold add_stage_rewards. rewrite bind_eq. unfold the_trainer at 1.
      cbn [w_trainer bind_trainer w_node w_trace]. rewrite bind_eq. unfold the_trainer.
      cbn [w_trainer]. unfold call. cbn [w_trace].
      exists (mkTrainer (float_add (stage_rewards tr) (py_sum l)) (global_step tr)).
      destruct (fails _ _); [by split; [|split; [|right; exists l]]|].
      cbn [emit]. rewrite Hboard. by split; [|split; [|right; exists l]].
    - unfold log. cbn [emit w_node w_trainer w_trace]. rewrite bind_eq.
      unfold the_trainer. cbn [w_trainer]. unfold call. cbn [w_trace].
      destruct (fails _ _); [total_same tr|].
      cbn [emit]. rewrite Hboard. total_same tr.
    - unfold log. cbn [emit w_node w_trainer w_trace]. rewrite bind_eq.
      unfold the_trainer. cbn [w_trainer]. unfold call. cbn [w_trace].
      destruct (fails _ _); [total_same tr|].
      cbn [emit]. rewrite Hboard. total_same tr. }
  exact Hpub.
Qed.

(** The running total through a run of steps, whatever raises in it. *)
Lemma training_loop_total (steps : list step_input) (w : world)
    (tr : PublishingGRPOTrainer) :
  w_trainer w = Some tr ->
  Forall nonneg_rewards steps ->
  exists tr',
    w_trainer (training_loop md5_hexdigest cadence steps w).2 = Some tr'
    /\ (stage_rewards tr <= stage_rewards tr')%Q.
Proof.
  intros Htr Hall. revert w tr Htr.
  induction Hall as [|inp rest Hinp _ IH]; intros w tr Htr; cbn [training_loop].
  - exists tr. split; [done|apply Qle_refl].
  - rewrite bind_eq. unfold training_step. rewrite bind_eq.
    destruct (compute_loss_total inp w tr Htr) as (tr1 & Ht1 & Hg1 & Hs1).
    assert (Hle : (stage_rewards tr <= stage_rewards tr1)%Q).
    { destruct Hs1 as [-> | (l & Hl & ->)]; [apply Qle_refl|].
      apply float_add_nonneg. unfold nonneg_rewards in Hinp. by rewrite Hl in Hinp. }
    destruct (compute_loss md5_hexdigest cadence inp w) as [[loss|x] w1];
      cbn [snd] in Ht1; [|by exists tr1].
    rewrite bind_eq. unfold the_trainer at 1. rewrite Ht1.
    unfold set_global_step. rewrite bind_eq. unfold the_trainer. rewrite Ht1.
    cbn [bind_trainer].
    destruct (IH (mkWorld (w_node w1)
                          (Some (mkTrainer (stage_rewards tr1) (global_step tr1 + 1)))
                          (w_trace w1))
                 (mkTrainer (stage_rewards tr1) (global_step tr1 + 1)) eq_refl)
      as (tr2 & Ht2 & Hs2).
    exists tr2. split; [done|]. eapply Qle_trans; [exact Hle|exact Hs2].
Qed.

Lemma training_loop_app (steps1 steps2 : list step_input) (w : world) :
  training_loop md5_hexdigest cadence (steps1 ++ steps2) w
  = match training_loop md5_hexdigest cadence steps1 w with
    | (Return _, w1) => training_loop md5_hexdigest cadence steps2 w1
    | (Raise x, w1) => (Raise x, w1)
    end.
Proof.
  revert w. induction steps1 as [|inp rest IH]; intros w; cbn [app training_loop].
  - done.
  - rewrite !bind_eq.
    destruct (training_step md5_hexdigest cadence inp w) as [[[]|x] w1]; [apply IH|done].
Qed.

(** C4 (amended). A trainer is constructed with a running total of zero.
    Over any run of training steps of one trainer in which every presented
    reward list has a sum that is not negative, as the program computes it
    in floating point, the running total never decreases, whatever call
    raises on the way: after any prefix of the run it is at least what it
    was before the run and at most what it is at the end.  Each call of
    the callback leaves the total as it was or adds the sum of the
    presented list to it, nothing else. *)
Theorem C4_stage_rewards_monotone (steps1 steps2 : list step_input) (w : world)
    (tr : PublishingGRPOTrainer) :
  w_trainer w = Some tr ->
  Forall nonneg_rewards (steps1 ++ steps2) ->
  stage_rewards new_trainer = 0%Q
  /\ (exists tr1 tr2,
        w_trainer (training_loop md5_hexdigest cadence steps1 w).2 = Some tr1
        /\ w_trainer (training_loop md5_hexdigest cadence (steps1 ++ steps2) w).2 = Some tr2
        /\ (stage_rewards tr <= stage_rewards tr1)%Q
        /\ (stage_rewards tr1 <= stage_rewards tr2)%Q)
  /\ (forall inp w0 tr0,
        w_trainer w0 = Some tr0 ->
        exists tr',
          w_trainer (compute_loss md5_hexdigest cadence inp w0).2 = Some tr'
          /\ (stage_rewards tr' = stage_rewards tr0
              \/ exists l, si_rewards inp = Some (RewardList l)
                           /\ stage_rewards tr'
                              = float_add (stage_rewards tr0) (py_sum l))).
Proof.
  intros Htr Hall. apply Forall_app in Hall as [H1 H2].
  split; [reflexivity|]. split.
  - destruct (training_loop_total steps1 w tr Htr H1) as (tr1 & Ht1 & Hs1).
    exists tr1. rewrite training_loop_app.
    destruct (training_loop md5_hexdigest cadence steps1 w) as [[[]|x] w1];
      cbn [snd] in Ht1.
    + destruct (training_loop_total steps2 w1 tr1 Ht1 H2) as (tr2 & Ht2 & Hs2).
      by exists tr2.
    + exists tr1. repeat split; [done..|apply Qle_refl].
  - intros inp w0 tr0 H0.
    destruct (compute_loss_total inp w0 tr0 H0) as (tr' & Ht & _ & Hs). by exists tr'.
Qed.
End RunningTotal.

(** C3, as stated, fails: with outputs that carry a question and no rewards
    attribute, the firing stores the outputs and stores a rewards entry;
    and where the DHT cannot be written, the same firing fails the training
    step. *)
Lemma C3_counterexample :
  let inp := demo_step None in
  let evs := events_of (compute_loss (E := no_failures) demo_digest
                                     CADENCE_OF_UPDATE_STEPS inp) fresh_world in
  rewards_missing (si_rewards inp)
  /\ fires CADENCE_OF_UPDATE_STEPS (global_step new_trainer) = true
  /\ filter is_outputs_store evs <> []
  /\ filter is_rewards_store evs <> []
  /\ (compute_loss (E := dht_down) demo_digest CADENCE_OF_UPDATE_STEPS inp
                   fresh_world).1 = Raise BlockingIOError.
Proof. vm_compute. repeat split; discriminate. Qed.

Lemma C3_publisher_missing_state_witness :
  CADENCE_OF_UPDATE_STEPS <> 0
  /\ w_trainer fresh_world = Some new_trainer
  /\ fires CADENCE_OF_UPDATE_STEPS (global_step new_trainer) = true
  /\ w_trainer (compute_loss (E := no_failures) demo_digest CADENCE_OF_UPDATE_STEPS
                             (demo_step None) fresh_world).2 = Some new_trainer.
Proof.
  assert (H1 : CADENCE_OF_UPDATE_STEPS <> 0) by discriminate.
  assert (H2 : w_trainer fresh_world = Some new_trainer) by reflexivity.
  assert (H3 : fires CADENCE_OF_UPDATE_STEPS (global_step new_trainer) = true)
    by reflexivity.
  refine (conj H1 (conj H2 (conj H3 _))).
  exact (proj1 (proj2 (proj2 (C3_publisher_missing_state demo_digest
                  CADENCE_OF_UPDATE_STEPS (demo_step None) fresh_world new_trainer
                  H1 H2 H3) demo_outputs "What is 2+2?"%string eq_refl I))).
Defined.

(** C4, as stated, fails: a reward list that sums to -1 takes the running
    total of a fresh trainer below zero. *)
Lemma C4_counterexample :
  let inp := demo_step (Some (RewardList [(-1) # 1]%Q)) in
  exists tr',
    w_trainer (training_loop demo_digest CADENCE_OF_UPDATE_STEPS [inp] fresh_world).2
    = Some tr'
    /\ (stage_rewards tr' < stage_rewards new_trainer)%Q.
Proof. eexists. split; [vm_compute; reflexivity|]. vm_compute. reflexivity. Qed.

Lemma C4_stage_rewards_monotone_witness :
  let steps1 := [demo_step (Some (RewardList [1 # 2; 3 # 1]%Q))] in
  let steps2 := [demo_step None; demo_step (Some (RewardList [0]%Q))] in
  (forall t x : Q, (0 <= x)%Q -> (t <= float_add (FloatOps := exact_floats) t x)%Q)
  /\ w_trainer fresh_world = Some new_trainer
  /\ Forall (nonneg_rewards (F := exact_floats)) (steps1 ++ steps2)
  /\ stage_rewards new_trainer = 0%Q.
Proof.
  intros steps1 steps2.
  assert (H1 : forall t x : Q,
            (0 <= x)%Q -> (t <= float_add (FloatOps := exact_floats) t x)%Q).
  { intros t x Hx. cbn. lra. }
  assert (H2 : w_trainer fresh_world = Some new_trainer) by reflexivity.
  assert (H3 : Forall (nonneg_rewards (F := exact_floats)) (steps1 ++ steps2)).
  { repeat constructor; unfold nonneg_rewards; simpl; try exact I;
      unfold Qle; simpl; lia. }
  refine (conj H1 (conj H2 (conj H3 _))).
  exact (proj1 (C4_stage_rewards_monotone (E := no_failures) demo_digest
                  CADENCE_OF_UPDATE_STEPS H1 steps1 steps2 fresh_world new_trainer
                  H2 H3)).
Defined.

(** C8, as stated, fails: on a coordinator whose step counter stands at 1
    the publisher does not fire, and the leaderboard is stored all the
    same. *)
Lemma C8_counterexample :
  let evs := events_of (compute_loss demo_digest CADENCE_OF_UPDATE_STEPS (demo_step None))
                       later_world in
  is_coordinator (w_node later_world) = true
  /\ fires CADENCE_OF_UPDATE_STEPS 1 = false
  /\ firings evs = 0%nat
  /\ filter is_leaderboard_store evs <> [].
Proof. vm_compute. repeat split; discriminate. Qed.

Lemma C8_leaderboard_every_step_witness :
  CADENCE_OF_UPDATE_STEPS <> 0
  /\ w_trainer later_world = Some (mkTrainer 0%Q 1)
  /\ publisher_events demo_digest CADENCE_OF_UPDATE_STEPS (w_node later_world)
       (mkTrainer 0%Q 1) (demo_step None) = [].
Proof.
  assert (H1 : CADENCE_OF_UPDATE_STEPS <> 0) by discriminate.
  assert (H2 : w_trainer later_world = Some (mkTrainer 0%Q 1)) by reflexivity.
  refine (conj H1 (conj H2 _)).
  exact (proj1 (proj2 (proj2 (C8_leaderboard_every_step demo_digest
                  CADENCE_OF_UPDATE_STEPS (demo_step None) later_world
                  (mkTrainer 0%Q 1) H1 H2))) eq_refl).
Defined.

(** C9, as stated, fails: a run of one step under cadence 4 fires once (the
    counter is 0 on the first step), not floor(1/4) = 0 times. *)
Lemma C9_counterexample :
  let script := demo_script 1 in
  let evs := events_of (trainer_train demo_digest CADENCE_OF_UPDATE_STEPS script)
                       fresh_world in
  firings evs = 1%nat
  /\ Z.of_nat (length (ts_steps script)) / CADENCE_OF_UPDATE_STEPS = 0
  /\ Z.of_nat (firings evs)
     <> Z.of_nat (length (ts_steps script)) / CADENCE_OF_UPDATE_STEPS.
Proof. vm_compute. repeat split; discriminate. Qed.

Lemma C9_publisher_cadence_witness :
  0 < CADENCE_OF_UPDATE_STEPS
  /\ w_trainer fresh_world = Some new_trainer
  /\ Z.of_nat (firings (events_of (trainer_train demo_digest CADENCE_OF_UPDATE_STEPS
                                     (demo_script 6)) fresh_world))
     = (Z.of_nat (length (ts_steps (demo_script 6))) + CADENCE_OF_UPDATE_STEPS - 1)
       / CADENCE_OF_UPDATE_STEPS.
Proof.
  assert (H1 : 0 < CADENCE_OF_UPDATE_STEPS) by reflexivity.
  assert (H2 : w_trainer fresh_world = Some new_trainer) by reflexivity.
  refine (conj H1 (conj H2 _)).
  destruct (C9_publisher_cadence demo_digest CADENCE_OF_UPDATE_STEPS
              (demo_script 6) fresh_world new_trainer H1 H2)
    as (per_step & _ & _ & _ & H).
  exact H.
Defined.

(** ** Traces only grow *)

Lemma appends_weaken {A} (Q Q' : list event -> Prop) (m : M A) :
  (forall evs, Q evs -> Q' evs) -> appends Q m -> appends Q' m.
Proof. intros HQ Hm w. destruct (Hm w) as (evs & H1 & H2). eauto. Qed.

Lemma appends_bind {A B} (Q1 Q2 Q : list event -> Prop) (m : M A) (f : A -> M B) :
  appends Q1 m ->
  (forall a, appends Q2 (f a)) ->
  (forall e1, Q1 e1 -> Q e1) ->
  (forall e1 e2, Q1 e1 -> Q2 e2 -> Q (e1 ++ e2)) ->
  appends Q (bind m f).
Proof.
  intros Hm Hf Hstop Hgo w. unfold bind.
  destruct (Hm w) as (e1 & Ht1 & HQ1).
  destruct (m w) as [[a|e] w1]; simpl in *.
  - destruct (Hf a w1) as (e2 & Ht2 & HQ2).
    exists (e1 ++ e2). split; [|auto].
    by rewrite Ht2, Ht1, app_assoc.
  - exists e1. auto.
Qed.

Lemma appends_try_except {A} (Q1 Q2 Q : list event -> Prop) (m : M A) (h : exn -> M A) :
  appends Q1 m ->
  (forall e, appends Q2 (h e)) ->
  (forall e1, Q1 e1 -> Q e1) ->
  (forall e1 e2, Q1 e1 -> Q2 e2 -> Q (e1 ++ e2)) ->
  appends Q (try_except m h).
Proof.
  intros Hm Hh Hstop Hgo w. unfold try_except.
  destruct (Hm w) as (e1 & Ht1 & HQ1).
  destruct (m w) as [[a|e] w1]; simpl in *.
  - exists e1. auto.
  - destruct (Hh e w1) as (e2 & Ht2 & HQ2).
    exists (e1 ++ e2). split; [|auto].
    by rewrite Ht2, Ht1, app_assoc.
Qed.

Lemma appends_silent {A} (Q : list event -> Prop) (m : M A) :
  Q [] -> (forall w, w_trace (m w).2 = w_trace w) -> appends Q m.
Proof. intros HQ Hm w. exists []. by rewrite app_nil_r. Qed.

Lemma appends_emit (Q : list event -> Prop) (e : event) :
  Q [e] -> appends Q (emit e).
Proof. intros HQ w. by exists [e]. Qed.

Lemma steady_bind {A B} (m : M A) (f : A -> M B) :
  steady m -> (forall a, steady (f a)) -> steady (bind m f).
Proof.
  intros Hm Hf w. unfold bind. destruct (Hm w) as [H1 H2].
  destruct (m w) as [[a|e] w1]; simpl in *; [|done].
  destruct (Hf a w1) as [H3 H4]. split; congruence.
Qed.

Lemma steady_try_except {A} (m : M A) (h : exn -> M A) :
  steady m -> (forall e, steady (h e)) -> steady (try_except m h).
Proof.
  intros Hm Hh w. unfold try_except. destruct (Hm w) as [H1 H2].
  destruct (m w) as [[a|e] w1]; simpl in *; [done|].
  destruct (Hh e w1) as [H3 H4]. split; congruence.
Qed.

Lemma quiet_bind {A B} (m : M A) (f : A -> M B) :
  quiet m -> (forall a, quiet (f a)) -> quiet (bind m f).
Proof.
  intros [Hm Sm] Hf. split.
  - eapply appends_bind; eauto; [intros a; apply Hf|].
    intros e1 e2 H1 H2. by apply Forall_app.
  - apply steady_bind; [done|]. intros a. apply Hf.
Qed.

Lemma quiet_try_except {A} (m : M A) (h : exn -> M A) :
  quiet m -> (forall e, quiet (h e)) -> quiet (try_except m h).
Proof.
  intros [Hm Sm] Hh. split.
  - eapply appends_try_except; eauto; [intros e; apply Hh|].
    intros e1 e2 H1 H2. by apply Forall_app.
  - apply steady_try_except; [done|]. intros e. apply Hh.
Qed.

Lemma quiet_emit (e : event) : is_write e = false -> quiet (emit e).
Proof. intros H. split; [|done]. apply appends_emit. by repeat constructor. Qed.

Lemma appends_call {E : Environment} (Q : list event -> Prop) (e : event) :
  Q [] -> Q [e] -> appends Q (call e).
Proof.
  intros H0 H1 w. unfold call. destruct (fails (w_trace w) e).
  - exists []. by rewrite app_nil_r.
  - by apply appends_emit.
Qed.

Lemma quiet_call {E : Environment} (e : event) : is_write e = false -> quiet (call e).
Proof.
  intros H. split.
  - apply appends_call; by repeat constructor.
  - intros w. unfold call. by destruct (fails (w_trace w) e).
Qed.

Lemma quiet_check {E : Environment} (e : event) : quiet (check e).
Proof.
  split.
  - apply appends_silent; [done|]. intros w. unfold check.
    by destruct (fails (w_trace w) e).
  - intros w. unfold check. by destruct (fails (w_trace w) e).
Qed.

Lemma quiet_log lvl msg : quiet (log lvl msg).
Proof. by apply quiet_emit. Qed.

Lemma quiet_ret {A} (a : A) : quiet (ret a).
Proof. split; [by apply appends_silent|done]. Qed.

Lemma quiet_raise {A} (e : exn) : quiet (@raise A e).
Proof. split; [by apply appends_silent|done]. Qed.

Lemma quiet_lift {A} (o : outcome A) : quiet (lift o).
Proof. destruct o; [apply quiet_ret | apply quiet_raise]. Qed.

Lemma quiet_get_node : quiet get_node.
Proof. split; [by apply appends_silent|done]. Qed.

(** Storing a node whose round and stage are those of the current node. *)
Lemma quiet_update_node (f : HivemindNode -> HivemindNode) {B} (k : M B) :
  (forall nd, round_num (f nd) = round_num nd /\ stage_num (f nd) = stage_num nd) ->
  quiet k ->
  quiet (bind get_node (fun nd => bind (put_node (f nd)) (fun _ => k))).
Proof.
  intros Hf [Hk Sk]. split.
  - intros w. destruct (Hk (mkWorld (f (w_node w)) (w_trainer w) (w_trace w)))
      as (evs & H1 & H2). by exists evs.
  - intros w. destruct (Sk (mkWorld (f (w_node w)) (w_trainer w) (w_trace w)))
      as [H1 H2]. destruct (Hf (w_node w)) as [H3 H4].
    unfold bind, get_node, put_node; simpl in *. split; congruence.
Qed.

Lemma quiet_bind_trainer t : quiet (bind_trainer t).
Proof. split; [by apply appends_silent|done]. Qed.

Lemma quiet_the_trainer : quiet the_trainer.
Proof.
  split.
  - apply appends_silent; [done|]. intros w. unfold the_trainer.
    by destruct (w_trainer w).
  - intros w. unfold the_trainer. by destruct (w_trainer w).
Qed.

Create HintDb quiet.
#[export] Hint Resolve quiet_log quiet_ret quiet_raise quiet_lift quiet_get_node
  quiet_bind_trainer quiet_the_trainer : quiet.

Ltac quiet_step :=
  first
    [ solve [auto with quiet]
    | apply quiet_bind; [|intros ?]
    | apply quiet_try_except; [|intros ?]
    | apply quiet_emit; reflexivity
    | apply quiet_call; reflexivity
    | apply quiet_check ].

Ltac quiet_tac :=
  repeat first
    [ quiet_step
    | progress cbv zeta
    | match goal with
      | |- quiet (if ?b then _ else _) => destruct b
      | |- quiet (match ?x with _ => _ end) => destruct x
      end ].

Lemma quiet_publish_leaderboard {E : Environment} curr_rewards dht_time :
  quiet (publish_leaderboard curr_rewards dht_time).
Proof. unfold publish_leaderboard. quiet_tac. Qed.

Lemma quiet_cleanup {E : Environment} : quiet cleanup.
Proof. by apply quiet_call. Qed.

#[export] Hint Resolve quiet_publish_leaderboard quiet_cleanup : quiet.

Section QuietFacts.
Context {F : FloatOps} {E : Environment}.
Variable md5_hexdigest : string -> string.
Variable cadence : Z.
Variable max_fails : nat.
Variable config : GRPOConfig.

Lemma quiet_compute_loss inp : quiet (compute_loss md5_hexdigest cadence inp).
Proof.
  unfold compute_loss, super_compute_loss, publish, add_stage_rewards.
  apply quiet_bind; [|intros loss; quiet_tac].
  apply (quiet_update_node
           (fun nd => mkNode (key nd) (is_coordinator nd) (round_num nd) (stage_num nd)
                             (out_expiration nd) (si_outputs inp) (si_rewards inp)));
    [done|auto with quiet].
Qed.

Lemma quiet_training_loop steps : quiet (training_loop md5_hexdigest cadence steps).
Proof.
  induction steps as [|inp rest IH]; simpl; [auto with quiet|].
  unfold training_step, set_global_step.
  pose proof (quiet_compute_loss inp). quiet_tac; auto.
Qed.

Lemma quiet_trainer_train script : quiet (trainer_train md5_hexdigest cadence script).
Proof.
  unfold trainer_train, set_global_step.
  pose proof (quiet_training_loop (ts_steps script)). quiet_tac; auto.
Qed.

Lemma quiet_train_attempts attempts remaining attempt :
  quiet (train_attempts md5_hexdigest cadence max_fails attempts remaining attempt).
Proof.
  revert attempt. induction remaining as [|remaining IH]; intros attempt; simpl.
  - auto with quiet.
  - pose proof (quiet_trainer_train (attempts attempt)). quiet_tac; auto.
Qed.

Lemma quiet_train_stage_and_save attempts ds :
  quiet (train_stage_and_save md5_hexdigest cadence max_fails config attempts ds).
Proof.
  unfold train_stage_and_save.
  pose proof (quiet_train_attempts attempts max_fails 0%nat). quiet_tac; auto.
Qed.
End QuietFacts.

(** ** The stage sequence *)

Lemma appends_events_of {A} (Q : list event -> Prop) (m : M A) (w : world) :
  appends Q m -> Q (events_of m w).
Proof.
  intros Hm. destruct (Hm w) as (evs & H1 & H2).
  by rewrite (events_of_eq _ _ _ H1).
Qed.

Lemma writes_app (a b : list event) : writes (a ++ b) = writes a ++ writes b.
Proof. apply filter_app. Qed.

Lemma writes_quiet (evs : list event) :
  Forall (fun e => is_write e = false) evs -> writes evs = [].
Proof.
  induction 1 as [|e evs He _ IH]; [done|].
  unfold writes in *. rewrite filter_cons. by rewrite He, IH.
Qed.

Lemma round_writes_app (a b : list event) :
  round_writes (a ++ b) = round_writes a ++ round_writes b.
Proof. apply omap_app. Qed.

Lemma round_writes_writes (evs : list event) :
  round_writes (writes evs) = round_writes evs.
Proof.
  induction evs as [|e evs IH]; [done|].
  unfold writes in *. rewrite filter_cons.
  destruct e; simpl; rewrite ?IH; reflexivity.
Qed.

Lemma stage_writes_writes (evs : list event) :
  stage_writes (writes evs) = stage_writes evs.
Proof.
  induction evs as [|e evs IH]; [done|].
  unfold writes in *. rewrite filter_cons.
  destruct e; simpl; rewrite ?IH; reflexivity.
Qed.

Lemma stage_run_S (s : Z) (i k : nat) :
  stage_run s i (S k) = EvSetStage (s + Z.of_nat i) :: stage_run s (S i) k.
Proof.
  unfold stage_run. cbn [seq fmap list_fmap]. rewrite Nat.add_0_r. f_equal.
  rewrite <- seq_shift, <- list_fmap_compose.
  apply list_fmap_ext. intros _ j _. simpl. do 3 f_equal. lia.
Qed.

Lemma round_writes_stage_run (s : Z) (i k : nat) : round_writes (stage_run s i k) = [].
Proof.
  unfold stage_run. generalize (seq 0 k). intros l.
  induction l as [|j l IH]; [done|]. simpl. exact IH.
Qed.

Lemma stage_writes_stage_run (s : Z) (i k : nat) :
  stage_writes (stage_run s i k) = (fun j : nat => s + Z.of_nat (i + j)) <$> seq 0 k.
Proof.
  unfold stage_run. generalize (seq 0 k). intros l.
  induction l as [|j l IH]; [done|]. simpl. f_equal. exact IH.
Qed.

(** A quiet computation after one whose writes satisfy [P]. *)
Lemma appends_then_quiet {A B} (P : list event -> Prop) (m : M A) (f : A -> M B) :
  appends (fun evs => P (writes evs)) m ->
  (forall a, quiet (f a)) ->
  appends (fun evs => P (writes evs)) (bind m f).
Proof.
  intros Hm Hf.
  eapply appends_bind; [exact Hm|intros a; apply Hf|auto|].
  intros e1 e2 H1 H2. simpl in *.
  by rewrite writes_app, (writes_quiet e2), app_nil_r.
Qed.

Lemma appends_after_bind_trainer {B} (Q : list event -> Prop) t (k : M B) :
  appends Q k -> appends Q (bind (bind_trainer t) (fun _ => k)).
Proof.
  intros Hk w. exact (Hk (mkWorld (w_node w) t (w_trace w))).
Qed.

Lemma set_stage_num_writes (s : Z) :
  appends (fun evs => writes evs = [EvSetStage s]) (set_stage_num s).
Proof. intros w. by exists [EvSetStage s]. Qed.

Lemma set_round_num_writes (r : Z) :
  appends (fun evs => writes evs = [EvSetRound r]) (set_round_num r).
Proof. intros w. by exists [EvSetRound r]. Qed.

Section StageSequenceFacts.
Context {F : FloatOps} {E : Environment}.
Variable md5_hexdigest : string -> string.
Variable cadence : Z.
Variable max_fails : nat.
Variable stage_data : StageData.
Variable config : GRPOConfig.

Lemma stage_body_writes env start_stage c (i : nat) :
  appends (fun evs => writes evs = [EvSetStage (start_stage + Z.of_nat i)])
          (stage_body md5_hexdigest cadence max_fails config env start_stage c i).
Proof.
  unfold stage_body.
  apply (appends_then_quiet (fun l => l = [EvSetStage (start_stage + Z.of_nat i)]));
    [apply set_stage_num_writes|].
  intros _. unfold create_publishing_trainer.
  pose proof (quiet_train_stage_and_save md5_hexdigest cadence max_fails config).
  quiet_tac; auto.
Qed.

Lemma stage_loop_writes env start_stage c (rest : list string) (i : nat) :
  appends (fun evs => exists k, (k <= length rest)%nat
                                /\ writes evs = stage_run start_stage i k)
          (stage_loop md5_hexdigest cadence max_fails config env start_stage c rest i).
Proof.
  revert i. induction rest as [|st rest IH]; intros i; simpl.
  - apply appends_silent; [|done]. by exists 0%nat.
  - eapply appends_bind; [apply stage_body_writes|intros _; apply IH| |].
    + intros e1 H1. exists 1%nat. split; [simpl; lia|].
      by rewrite H1, stage_run_S.
    + intros e1 e2 H1 (k & Hk & H2). exists (S k). split; [simpl; lia|].
      by rewrite writes_app, H1, H2, stage_run_S.
Qed.

Lemma train_stages_writes env r start_stage c :
  appends (fun evs => exists k,
               (k <= length (slice_from (stages stage_data) start_stage))%nat
               /\ writes evs = EvSetRound r :: stage_run start_stage 0 k)
          (train_stages md5_hexdigest cadence max_fails stage_data config env r start_stage c).
Proof.
  unfold train_stages. apply appends_after_bind_trainer.
  eapply appends_bind; [apply set_round_num_writes| | |].
  - intros _.
    apply (appends_then_quiet
             (fun l => exists k,
                  (k <= length (slice_from (stages stage_data) start_stage))%nat
                  /\ l = stage_run start_stage 0 k)).
    + apply stage_loop_writes.
    + intros _. quiet_tac.
  - intros e1 H1. exists 0%nat. split; [lia|]. by rewrite H1.
  - intros e1 e2 H1 (k & Hk & H2). exists k. split; [done|].
    by rewrite writes_app, H1, H2.
Qed.

End StageSequenceFacts.

Section StageSequenceClaim.
Context {F : FloatOps}.
Variable md5_hexdigest : string -> string.
Variable cadence : Z.
Variable max_fails : nat.
Variable stage_data : StageData.
Variable config : GRPOConfig.

(** C10. When [train_stages] is called with a start stage at or beyond the
    end of the stage sequence, the stage loop runs zero times: the round
    number is written, nothing is trained.  If a hub push token is
    configured, the push call itself hits the unbound name [trainer]; that
    error is absorbed by the surrounding handler, which logs the failure.
    Cleanup runs (and is taken to return), and the unconditional
    [del trainer] then raises the unbound-local error out of
    [train_stages]. *)
Theorem C10_train_stages_out_of_range (env : call_env) (r start_stage : Z)
    (c : bool) (w : world) :
  Z.of_nat (length (stages stage_data)) <= start_stage ->
  slice_from (stages stage_data) start_stage = []
  /\ train_stages md5_hexdigest cadence max_fails stage_data config env r start_stage c w
     = (Raise UnboundLocalError,
        mkWorld (with_round (w_node w) r) None
                (w_trace w ++ EvSetRound r :: push_unbound_events config ++ [EvCleanup]))
  /\ (forall w', w_trainer w' = None ->
        (the_trainer ;;; emit EvPushToHub ;;; lift (ce_push env) ;;; emit (EvSleep 1)) w'
        = (Raise UnboundLocalError, w')).
Proof.
  intros Hs.
  assert (Hslice : slice_from (stages stage_data) start_stage = []).
  { unfold slice_from. destruct (Z.ltb_spec start_stage 0); [lia|].
    apply drop_ge. lia. }
  split; [exact Hslice|]. split.
  - unfold train_stages, push_unbound_events, set_round_num, cleanup, with_round.
    rewrite Hslice. destruct w as [nd otr evs].
    destruct (push_to_hub_token config); monad_unfold; simpl;
      repeat (rewrite <- app_assoc; simpl); reflexivity.
  - intros w' Hw'. monad_unfold. by rewrite Hw'.
Qed.
End StageSequenceClaim.

(** ** Who writes the round and stage numbers *)

Lemma round_writes_quiet (evs : list event) :
  Forall (fun e => is_write e = false) evs -> round_writes evs = [].
Proof. intros H. by rewrite <- round_writes_writes, (writes_quiet _ H). Qed.

Lemma round_run_S (r : Z) (n : nat) : round_run r (S n) = r :: round_run (r + 1) n.
Proof.
  unfold round_run. cbn [seq fmap list_fmap]. rewrite Z.add_0_r. f_equal.
  rewrite <- seq_shift, <- list_fmap_compose.
  apply list_fmap_ext. intros _ j _. simpl. lia.
Qed.

Lemma round_run_lower_bound (r : Z) (n : nat) : Forall (Z.le r) (round_run r n).
Proof.
  revert r. induction n as [|n IH]; intros r; [constructor|].
  rewrite round_run_S. constructor; [lia|].
  eapply Forall_impl; [apply IH|]. simpl. intros; lia.
Qed.

Lemma round_run_Sorted (r : Z) (n : nat) : Sorted Z.le (round_run r n).
Proof.
  revert r. induction n as [|n IH]; intros r; [constructor|].
  rewrite round_run_S. constructor; [apply IH|].
  pose proof (round_run_lower_bound (r + 1) n) as Hb.
  destruct (round_run (r + 1) n); constructor.
  apply Forall_cons in Hb as [Hb _]. lia.
Qed.

Lemma consecutive_Sorted (s : Z) (i k : nat) :
  Sorted Z.lt ((fun j : nat => s + Z.of_nat (i + j)) <$> seq 0 k).
Proof.
  revert i. induction k as [|k IH]; intros i; [constructor|].
  cbn [seq fmap list_fmap]. rewrite <- seq_shift, <- list_fmap_compose.
  constructor.
  - erewrite list_fmap_ext; [apply (IH (S i))|].
    intros _ j _. simpl. do 2 f_equal. lia.
  - destruct k; simpl; constructor. lia.
Qed.

Section WriterFacts.
Context {F : FloatOps} {E : Environment}.
Variable md5_hexdigest : string -> string.
Variable cadence : Z.
Variable max_fails : nat.
Variable stage_data : StageData.
Variable config : GRPOConfig.

Lemma train_stages_round_writes env r start_stage c :
  appends (fun evs => round_writes evs = [r])
          (train_stages md5_hexdigest cadence max_fails stage_data config
                        env r start_stage c).
Proof.
  eapply appends_weaken; [|apply train_stages_writes].
  intros evs (k & _ & H). cbv beta in H.
  by rewrite <- round_writes_writes, H; simpl; rewrite round_writes_stage_run.
Qed.

Lemma coordinator_loop_round_writes fuel start_time obs iter round :
  appends (fun evs => exists n, round_writes evs = round_run round n)
          (coordinator_loop md5_hexdigest cadence max_fails stage_data config
              fuel start_time obs iter round).
Proof.
  revert iter round. induction fuel as [|fuel IH]; intros iter round;
    cbn [coordinator_loop];
    destruct ((round <? max_rounds stage_data)
              && Qltb (co_now (obs iter) - start_time) (train_timeout stage_data)).
  - apply appends_silent; [by exists 0%nat|done].
  - intros w. exists [EvLog INFO "Training timed out for coordinator!"].
    split; [done|]. by exists 0%nat.
  - eapply (appends_bind (Forall (fun e => is_write e = false))
              (fun evs => exists n, round_writes evs = round_run round n));
      [apply (proj1 (quiet_log _ _))| | |].
    + intros _.
      eapply (appends_bind (Forall (fun e => is_write e = false))
                (fun evs => exists n, round_writes evs = round_run round n));
        [apply (proj1 (quiet_call EvVisibleMaddrs eq_refl))| | |].
      * intros _.
        eapply (appends_bind _
                  (fun evs => exists n, round_writes evs = round_run (round + 1) n));
          [apply train_stages_round_writes| | |].
        -- intros _. destruct (round + 1 =? max_rounds stage_data).
           ++ intros w.
              exists [EvLog INFO "Coordinator reached max_rounds. Training finished."].
              split; [done|]. by exists 0%nat.
           ++ apply IH.
        -- intros e1 H1. exists 1%nat. by rewrite H1, round_run_S.
        -- intros e1 e2 H1 (n & H2). exists (S n).
           by rewrite round_writes_app, H1, H2, round_run_S.
      * intros e1 H1. exists 0%nat. by apply round_writes_quiet.
      * intros e1 e2 H1 (n & H2). exists n.
        by rewrite round_writes_app, (round_writes_quiet e1), H2.
    + intros e1 H1. exists 0%nat. by apply round_writes_quiet.
    + intros e1 e2 H1 (n & H2). exists n.
      by rewrite round_writes_app, (round_writes_quiet e1), H2.
  - intros w. exists [EvLog INFO "Training timed out for coordinator!"].
    split; [done|]. by exists 0%nat.
Qed.

(** C5 (amended). The round and stage numbers are written by [train_stages]
    only: the publisher (the training callback and the aggregator) records
    no write and leaves both fields as they are.  Over the coordinator loop
    the values written to [round_num] are 0, 1, 2, ... in this order, hence
    non-decreasing.  Within one call of [train_stages] the round is written
    once and the values written to [stage_num] are the start stage and its
    successors, strictly increasing; each new call starts [stage_num] again
    from its own start stage. *)
Theorem C5_round_and_stage_writes :
  (forall start_time obs w,
      let evs := events_of (coordinator_train md5_hexdigest cadence max_fails stage_data config
          start_time obs) w in
      (exists n, round_writes evs = round_run 0 n)
      /\ Sorted Z.le (round_writes evs))
  /\ (forall env r start_stage c w,
        let evs := events_of (train_stages md5_hexdigest cadence max_fails stage_data config
            env r start_stage c) w in
        round_writes evs = [r]
        /\ (exists k,
              (k <= length (slice_from (stages stage_data) start_stage))%nat
              /\ stage_writes evs
                 = (fun j : nat => start_stage + Z.of_nat j) <$> seq 0 k)
        /\ Sorted Z.lt (stage_writes evs))
  /\ (forall inp, quiet (compute_loss md5_hexdigest cadence inp))
  /\ (forall curr_rewards dht_time, quiet (publish_leaderboard curr_rewards dht_time)).
Proof.
  split; [|split; [|split]].
  - intros start_time obs w evs.
    assert (H : exists n, round_writes evs = round_run 0 n).
    { apply (appends_events_of (fun evs => exists n, round_writes evs = round_run 0 n)).
      apply coordinator_loop_round_writes. }
    split; [exact H|]. destruct H as (n & ->). apply round_run_Sorted.
  - intros env r start_stage c w evs.
    destruct (appends_events_of _ _ w (train_stages_writes md5_hexdigest cadence
                max_fails stage_data config env r start_stage c)) as (k & Hk & Hw).
    fold evs in Hw.
    assert (Hs : stage_writes evs
                 = (fun j : nat => start_stage + Z.of_nat (0 + j)) <$> seq 0 k).
    { rewrite <- stage_writes_writes, Hw. simpl. apply stage_writes_stage_run. }
    split; [|split].
    + rewrite <- round_writes_writes, Hw. simpl.
      by rewrite round_writes_stage_run.
    + exists k. split; [exact Hk|]. rewrite Hs. by apply list_fmap_ext.
    + rewrite Hs. apply consecutive_Sorted.
  - apply quiet_compute_loss.
  - apply quiet_publish_leaderboard.
Qed.
End WriterFacts.

(** C5, as stated, fails: a coordinator that runs two rounds of two stages
    writes 0, 1, 0, 1 to [stage_num]; and a follower that joins round 0 at
    stage 2 and restarts it goes from (round 0, stage 2) back to (round 0,
    stage 0). *)
Lemma C5_counterexample :
  let evs := events_of (coordinator_train demo_digest CADENCE_OF_UPDATE_STEPS
                          MAX_TRAIN_FAILS demo_stage_data demo_config 0%Q
                          demo_coordinator_obs) demo_world in
  let follower_evs :=
    events_of (follower_train demo_digest CADENCE_OF_UPDATE_STEPS MAX_TRAIN_FAILS
                 three_stage_data demo_config 5%Q 10%Q 300%Q 0%Q [restart_obs])
              follower_world in
  stage_writes evs = [0; 1; 0; 1]
  /\ ~ Sorted Z.le (stage_writes evs)
  /\ writes follower_evs
     = [EvSetRound 0; EvSetStage 2;
        EvSetRound 0; EvSetStage 0; EvSetStage 1; EvSetStage 2].
Proof.
  assert (H : stage_writes
                (events_of (coordinator_train demo_digest CADENCE_OF_UPDATE_STEPS
                              MAX_TRAIN_FAILS demo_stage_data demo_config 0%Q
                              demo_coordinator_obs) demo_world)
              = [0; 1; 0; 1]) by (vm_compute; reflexivity).
  split; [exact H|]. split; [|vm_compute; reflexivity].
  rewrite H. intros Hs.
  apply Sorted_inv in Hs as [Hs _]. apply Sorted_inv in Hs as [_ Hs].
  apply HdRel_inv in Hs. lia.
Qed.

(** ** The stage runner *)

Lemma count_app (p : event -> bool) (a b : list event) :
  count p (a ++ b) = (count p a + count p b)%nat.
Proof. unfold count. by rewrite filter_app, length_app. Qed.

Lemma count_cons (p : event -> bool) (e : event) (l : list event) :
  count p (e :: l) = ((if p e then 1 else 0) + count p l)%nat.
Proof. unfold count. rewrite filter_cons. by destruct (p e). Qed.

Lemma saved_metrics_app (a b : list event) :
  saved_metrics (a ++ b) = saved_metrics a ++ saved_metrics b.
Proof. apply omap_app. Qed.

Lemma step_events_only (evs : list event) :
  Forall (fun e => is_step_event e = true) evs ->
  count is_train evs = 0%nat /\ count is_cleanup evs = 0%nat /\ saved_metrics evs = [].
Proof.
  induction 1 as [|e evs He _ (IH1 & IH2 & IH3)]; [done|].
  rewrite !count_cons, IH1, IH2. destruct e; try discriminate; simpl; auto.
Qed.

Lemma first_success_bounds attempts remaining attempt k :
  first_success attempts remaining attempt = Some k ->
  (attempt <= k < attempt + remaining)%nat
  /\ failed (attempts k) = false
  /\ (forall i, (attempt <= i < k)%nat -> failed (attempts i) = true).
Proof.
  revert attempt. induction remaining as [|remaining IH]; intros attempt; simpl; [done|].
  destruct (failed (attempts attempt)) eqn:Hf.
  - intros H. apply IH in H as (Hk & Hok & Hbefore).
    split; [lia|]. split; [done|]. intros i Hi.
    destruct (decide (i = attempt)) as [->|Hne]; [done|]. apply Hbefore. lia.
  - intros [= <-]. split; [lia|]. split; [done|]. intros i Hi. lia.
Qed.

Lemma first_success_found attempts remaining attempt k :
  (attempt <= k < attempt + remaining)%nat ->
  failed (attempts k) = false ->
  (forall i, (attempt <= i < k)%nat -> failed (attempts i) = true) ->
  first_success attempts remaining attempt = Some k.
Proof.
  revert attempt. induction remaining as [|remaining IH]; intros attempt Hk Hok Hbefore;
    simpl; [lia|].
  destruct (decide (k = attempt)) as [->|Hne].
  - by rewrite Hok.
  - rewrite Hbefore by lia. apply IH; [lia|done|]. intros i Hi. apply Hbefore. lia.
Qed.

Lemma first_success_none attempts remaining attempt :
  (forall i, (attempt <= i < attempt + remaining)%nat -> failed (attempts i) = true) ->
  first_success attempts remaining attempt = None.
Proof.
  revert attempt. induction remaining as [|remaining IH]; intros attempt Hall;
    simpl; [done|].
  rewrite Hall by lia. apply IH. intros i Hi. apply Hall. lia.
Qed.

Section StageRunnerFacts.
Context {F : FloatOps}.
Variable md5_hexdigest : string -> string.
Variable cadence : Z.
Variable max_fails : nat.
Variable config : GRPOConfig.
Variable attempts : nat -> train_script.
Hypothesis cadence_nonzero : cadence <> 0.

Lemma step_events_are_step_events nd tr inp :
  Forall (fun e => is_step_event e = true) (step_events md5_hexdigest cadence nd tr inp).
Proof.
  unfold step_events, publisher_events, leaderboard_events. apply Forall_app. split.
  - destruct (fires cadence (global_step tr)); [|constructor].
    destruct (question_of (si_outputs inp)) as [[outs q]|]; [|by repeat constructor].
    destruct (si_rewards inp) as [[l|]|]; by repeat constructor.
  - destruct (is_coordinator nd); [|constructor].
    destruct (truthy (si_curr_rewards inp)); by repeat constructor.
Qed.

Lemma run_events_are_step_events nd tr steps :
  Forall (fun e => is_step_event e = true)
         (concat (run_events md5_hexdigest cadence nd tr steps)).
Proof.
  revert nd tr. induction steps as [|inp rest IH]; intros nd tr; simpl; [constructor|].
  apply Forall_app. split; [apply step_events_are_step_events|apply IH].
Qed.

(** One call of [trainer.train()] on a bound trainer: it ends as the script
    says, the trainer stays bound, and the trace gains one [EvTrain]
    followed by callback events. *)
Lemma trainer_train_run (script : train_script) (w : world) (tr : PublishingGRPOTrainer) :
  w_trainer w = Some tr ->
  exists nd' tr' evs,
    trainer_train md5_hexdigest cadence script w
    = (ts_ending script, mkWorld nd' (Some tr') (w_trace w ++ EvTrain :: evs))
    /\ Forall (fun e => is_step_event e = true) evs.
Proof.
  intros Htr. eexists _, _, _. split.
  - apply (trainer_train_eq _ _ cadence_nonzero script w tr Htr).
  - apply run_events_are_step_events.
Qed.

Lemma train_attempts_run (remaining attempt : nat) (w : world)
    (tr : PublishingGRPOTrainer) :
  w_trainer w = Some tr ->
  (attempt + remaining = max_fails)%nat ->
  exists nd' tr' evs,
    (train_attempts md5_hexdigest cadence max_fails attempts
        remaining attempt w).2 = mkWorld nd' (Some tr') (w_trace w ++ evs)
    /\ saved_metrics evs = []
    /\ match first_success attempts remaining attempt with
       | Some k =>
           (train_attempts md5_hexdigest cadence max_fails attempts
               remaining attempt w).1 = ts_ending (attempts k)
           /\ count is_train evs = S (k - attempt)
           /\ count is_cleanup evs = (k - attempt)%nat
       | None =>
           count is_train evs = remaining
           /\ count is_cleanup evs = remaining
           /\ (remaining = 0%nat -> (train_attempts md5_hexdigest cadence max_fails attempts
               remaining attempt w).1 = Return None)
           /\ ((0 < remaining)%nat ->
               exists e, ts_ending (attempts (max_fails - 1)) = Raise e
                         /\ (train_attempts md5_hexdigest cadence max_fails attempts
                             remaining attempt w).1 = Raise e)
       end.
Proof.
  revert attempt w tr. induction remaining as [|remaining IH]; intros attempt w tr Htr Hsum.
  - exists (w_node w), tr, []. simpl. rewrite app_nil_r.
    destruct w; simpl in *; subst. repeat split; auto. lia.
  - cbn [train_attempts first_success]. unfold try_except, failed.
    destruct (trainer_train_run (attempts attempt) w tr Htr) as (nd1 & tr1 & evs1 & Hrun & Hev).
    rewrite Hrun. destruct (step_events_only _ Hev) as (Ht1 & Hc1 & Hs1).
    destruct (ts_ending (attempts attempt)) as [res|e] eqn:Hend.
    + exists nd1, tr1, (EvTrain :: evs1). cbn [fst snd].
      split; [done|]. split; [exact Hs1|].
      rewrite Hend, !count_cons, Ht1, Hc1. rewrite Nat.sub_diag. auto.
    + destruct (Nat.eqb_spec attempt (max_fails - 1)) as [Hlast|Hmore].
      * exists nd1, tr1,
          (EvTrain :: evs1 ++ [retry_log e; EvCleanup; EvSleep 5;
             EvLog ERROR "Failed after MAX_TRAIN_FAILS attempts. Raising exception."]).
        assert (remaining = 0%nat) as -> by lia.
        unfold retry_log, cleanup. destruct (is_dht_ipc_error e);
          monad_unfold; cbn [fst snd w_trace w_node w_trainer first_success];
          (split; [by repeat (rewrite <- app_assoc; simpl)|]);
          (split; [by change (saved_metrics (EvTrain :: ?l)) with (saved_metrics l);
                      rewrite saved_metrics_app, Hs1|]);
          rewrite !count_cons, !count_app, Ht1, Hc1; simpl;
          (repeat split; [lia|]); intros _; exists e; rewrite <- Hlast; auto.
      * set (w2 := mkWorld nd1 (Some tr1)
                     (w_trace w ++ EvTrain :: evs1 ++ [retry_log e; EvCleanup; EvSleep 5])).
        destruct (IH (S attempt) w2 tr1 eq_refl ltac:(lia)) as (nd' & tr' & evs & Hw & Hs & Hcase).
        exists nd', tr', (EvTrain :: evs1 ++ [retry_log e; EvCleanup; EvSleep 5] ++ evs).
        assert (Hstep :
          ((if is_dht_ipc_error e
            then log WARNING "DHT IPC error. Restarting training stage in 5s..."
            else log ERROR "Unexpected error during trainer.train()") ;;;
           cleanup ;;; emit (EvSleep 5) ;;;
           train_attempts md5_hexdigest cadence max_fails attempts remaining (S attempt))
            (mkWorld nd1 (Some tr1) (w_trace w ++ EvTrain :: evs1))
          = train_attempts md5_hexdigest cadence max_fails attempts remaining (S attempt) w2).
        { unfold w2, retry_log, cleanup. destruct (is_dht_ipc_error e);
            monad_unfold; simpl; repeat (rewrite <- app_assoc; simpl); reflexivity. }
        cbn [fst snd]. rewrite Hstep. split.
        { rewrite Hw. unfold w2. simpl. by repeat (rewrite <- app_assoc; simpl). }
        split.
        { change (saved_metrics (EvTrain :: ?l)) with (saved_metrics l).
          rewrite !saved_metrics_app, Hs1, Hs. unfold retry_log.
          by destruct (is_dht_ipc_error e). }
        assert (Ht : count is_train
                       (EvTrain :: evs1 ++ [retry_log e; EvCleanup; EvSleep 5] ++ evs)
                     = S (count is_train evs)).
        { rewrite count_cons, !count_app, Ht1. unfold retry_log.
          by destruct (is_dht_ipc_error e). }
        assert (Hc : count is_cleanup
                       (EvTrain :: evs1 ++ [retry_log e; EvCleanup; EvSleep 5] ++ evs)
                     = S (count is_cleanup evs)).
        { rewrite count_cons, !count_app, Hc1. unfold retry_log.
          by destruct (is_dht_ipc_error e). }
        rewrite Ht, Hc.
        destruct (first_success attempts remaining (S attempt)) as [k|] eqn:Hfs.
        -- destruct Hcase as (Hres & Hkt & Hkc).
           apply first_success_bounds in Hfs as (Hk & _ & _).
           rewrite Hres, Hkt, Hkc. repeat split; lia.
        -- destruct Hcase as (Hkt & Hkc & _ & Hraise).
           rewrite Hkt, Hkc. repeat split; try lia.
           intros _. apply Hraise. lia.
Qed.
End StageRunnerFacts.

Lemma first_success_none_inv attempts remaining attempt :
  first_success attempts remaining attempt = None ->
  forall i, (attempt <= i < attempt + remaining)%nat -> failed (attempts i) = true.
Proof.
  revert attempt. induction remaining as [|remaining IH]; intros attempt H i Hi;
    simpl in H; [lia|].
  destruct (failed (attempts attempt)) eqn:Hf; [|done].
  destruct (decide (i = attempt)) as [->|Hne]; [done|]. apply (IH _ H). lia.
Qed.

Lemma filter_seq_all (p : nat -> bool) (n : nat) :
  (forall i, (i < n)%nat -> p i = true) -> length (filter p (seq 0 n)) = n.
Proof.
  intros H. induction n as [|n IH]; [done|].
  rewrite seq_S, filter_app, length_app, IH by (intros; apply H; lia).
  simpl. rewrite filter_cons, H by lia. simpl. lia.
Qed.

Lemma filter_seq_first (p : nat -> bool) (k : nat) :
  (forall i, (i < k)%nat -> p i = true) -> p k = false ->
  length (filter p (seq 0 (S k))) = k.
Proof.
  intros H Hk.
  rewrite seq_S, filter_app, length_app, filter_seq_all by done.
  simpl. rewrite filter_cons, Hk. simpl. lia.
Qed.

Section StageRunnerClaim.
Context {F : FloatOps}.
Variable md5_hexdigest : string -> string.
Variable cadence : Z.
Variable max_fails : nat.
Variable config : GRPOConfig.
Variable attempts : nat -> train_script.
Hypothesis cadence_nonzero : cadence <> 0.

Lemma train_stage_and_save_run (train_dataset : dataset) (w : world)
    (tr : PublishingGRPOTrainer) :
  w_trainer w = Some tr ->
  let res := (train_stage_and_save md5_hexdigest cadence max_fails config attempts
      train_dataset w).1 in
  let evs := events_of (train_stage_and_save md5_hexdigest cadence max_fails config attempts
      train_dataset) w in
  match first_success attempts max_fails 0 with
  | Some k =>
      res = Return tt
      /\ count is_train evs = S k
      /\ count is_cleanup evs = k
      /\ saved_metrics evs
         = match ts_ending (attempts k) with
           | Return (Some m) =>
               [<["train_samples"%string := train_samples train_dataset]> m]
           | _ => []
           end
  | None =>
      count is_train evs = max_fails
      /\ count is_cleanup evs = max_fails
      /\ saved_metrics evs = []
      /\ (max_fails = 0%nat -> res = Return tt)
      /\ ((0 < max_fails)%nat ->
          exists e, ts_ending (attempts (max_fails - 1)) = Raise e /\ res = Raise e)
  end.
Proof.
  intros Htr res evs.
  destruct (train_attempts_run md5_hexdigest cadence max_fails attempts cadence_nonzero
              max_fails 0%nat w tr Htr eq_refl) as (nd' & tr' & evs0 & Hw & Hs & Hcase).
  subst res evs. unfold events_of, train_stage_and_save.
  rewrite bind_eq.
  destruct (train_attempts md5_hexdigest cadence max_fails attempts
      max_fails 0%nat w) as [[r|e] w1] eqn:Hta;
    cbn [fst snd] in Hw, Hcase; subst w1.
  - assert (Hfinal : forall extra (m : M unit),
              (forall w0, m w0 = (Return tt, mkWorld (w_node w0) (w_trainer w0)
                                                    (w_trace w0 ++ extra))) ->
              count is_train extra = 0%nat -> count is_cleanup extra = 0%nat ->
              (m (mkWorld nd' (Some tr') (w_trace w ++ evs0))).1 = Return tt
              /\ count is_train (drop (length (w_trace w))
                   (w_trace (m (mkWorld nd' (Some tr') (w_trace w ++ evs0))).2))
                 = count is_train evs0
              /\ count is_cleanup (drop (length (w_trace w))
                   (w_trace (m (mkWorld nd' (Some tr') (w_trace w ++ evs0))).2))
                 = count is_cleanup evs0
              /\ saved_metrics (drop (length (w_trace w))
                   (w_trace (m (mkWorld nd' (Some tr') (w_trace w ++ evs0))).2))
                 = saved_metrics extra).
    { intros extra m Hm Ht Hc. rewrite Hm. cbn [fst snd w_trace].
      rewrite <- app_assoc, drop_app_length, !count_app, saved_metrics_app, Ht, Hc, Hs.
      repeat split; lia. }
    destruct r as [m|].
    + match goal with
      | |- context [(?k (mkWorld nd' (Some tr') (w_trace w ++ evs0))).1] =>
          destruct (Hfinal
            ([EvLogMetrics (<["train_samples"%string := train_samples train_dataset]> m);
              EvSaveMetrics (<["train_samples"%string := train_samples train_dataset]> m);
              EvSaveState; EvLog INFO "Saving model"; EvUseCache;
              EvSaveModel (output_dir config); EvLog INFO "Model saved";
              if distributed_state config then EvWaitForEveryone
              else EvLog WARNING "distributed_state not found in config or is None. Skipping wait_for_everyone().";
              EvSaveTokenizer (output_dir config); EvLog INFO "Tokenizer saved"]) k)
            as (H1 & H2 & H3 & H4)
      end.
      { intros w0. destruct (distributed_state config); monad_unfold; simpl;
          repeat (rewrite <- app_assoc; simpl); reflexivity. }
      { by destruct (distributed_state config). }
      { by destruct (distributed_state config). }
      rewrite H1, H2, H3, H4.
      destruct (first_success attempts max_fails 0) as [k|] eqn:Hfs.
      * destruct Hcase as (Hres & Hkt & Hkc). rewrite <- Hres, Hkt, Hkc, !Nat.sub_0_r.
        by destruct (distributed_state config).
      * destruct Hcase as (_ & _ & H0 & Hpos).
        destruct max_fails as [|n]; [by specialize (H0 eq_refl)|].
        destruct (Hpos ltac:(lia)) as (e & _ & ?). done.
    + match goal with
      | |- context [(?k (mkWorld nd' (Some tr') (w_trace w ++ evs0))).1] =>
          destruct (Hfinal
            [EvLog ERROR "train_result is None after training attempts, skipping metrics logging and saving."]
            k) as (H1 & H2 & H3 & H4); [done..|]
      end.
      rewrite H1, H2, H3, H4.
      destruct (first_success attempts max_fails 0) as [k|] eqn:Hfs.
      * destruct Hcase as (Hres & Hkt & Hkc). by rewrite <- Hres, Hkt, Hkc, !Nat.sub_0_r.
      * destruct Hcase as (Hkt & Hkc & _ & Hpos). rewrite Hkt, Hkc.
        repeat split; auto. intros Hp. destruct (Hpos Hp) as (e & _ & ?). done.
  - cbn [fst snd w_trace]. rewrite drop_app_length, Hs.
    destruct (first_success attempts max_fails 0) as [k|] eqn:Hfs.
    + destruct Hcase as (Hres & _).
      apply first_success_bounds in Hfs as (_ & Hok & _).
      unfold failed in Hok. by rewrite <- Hres in Hok.
    + destruct Hcase as (Hkt & Hkc & H0 & Hpos). rewrite Hkt, Hkc.
      split; [done|]. split; [done|]. split; [done|]. split.
      * intros ->. by specialize (H0 eq_refl).
      * intros Hp. destruct (Hpos Hp) as (e0 & He0 & [= ->]). by exists e0.
Qed.

(** C2. The stage runner calls [trainer.train()] at most [MAX_TRAIN_FAILS]
    times, and calls cleanup once for every call that failed and for no
    other.  When the first call that does not fail is call number [k+1]
    within the budget, the runner returns, [k+1] calls and [k] cleanups
    were made, and the metrics persisted are those of that call (with the
    sample count added).  When every call of the budget fails, the runner
    raises the exception of the last call, after [MAX_TRAIN_FAILS] calls
    and as many cleanups, and persists nothing.  Whether a call of
    [trainer.train()] fails is its script's; cleanup and the persistence
    calls are taken to return. *)
Theorem C2_bounded_retry (train_dataset : dataset) (w : world)
    (tr : PublishingGRPOTrainer) :
  w_trainer w = Some tr ->
  let res := (train_stage_and_save md5_hexdigest cadence max_fails config attempts
      train_dataset w).1 in
  let evs := events_of (train_stage_and_save md5_hexdigest cadence max_fails config attempts
      train_dataset) w in
  (count is_train evs <= max_fails)%nat
  /\ count is_cleanup evs
     = length (filter (fun i => failed (attempts i)) (seq 0 (count is_train evs)))
  /\ (forall k r,
        (k < max_fails)%nat ->
        (forall i, (i < k)%nat -> failed (attempts i) = true) ->
        ts_ending (attempts k) = Return r ->
        res = Return tt
        /\ count is_train evs = S k
        /\ count is_cleanup evs = k
        /\ saved_metrics evs
           = match r with
             | Some m => [<["train_samples"%string := train_samples train_dataset]> m]
             | None => []
             end)
  /\ ((0 < max_fails)%nat ->
      (forall i, (i < max_fails)%nat -> failed (attempts i) = true) ->
      exists e,
        ts_ending (attempts (max_fails - 1)) = Raise e
        /\ res = Raise e
        /\ count is_train evs = max_fails
        /\ count is_cleanup evs = max_fails
        /\ saved_metrics evs = []).
Proof.
  intros Htr res evs.
  pose proof (train_stage_and_save_run train_dataset w tr Htr) as Hrun.
  cbv zeta in Hrun. fold res evs in Hrun.
  split; [|split; [|split]].
  - destruct (first_success attempts max_fails 0) as [k|] eqn:Hfs.
    + destruct Hrun as (_ & -> & _).
      apply first_success_bounds in Hfs. lia.
    + destruct Hrun as (-> & _). lia.
  - destruct (first_success attempts max_fails 0) as [k|] eqn:Hfs.
    + destruct Hrun as (_ & -> & -> & _).
      apply first_success_bounds in Hfs as (_ & Hok & Hbefore).
      symmetry. apply filter_seq_first; [|done]. intros i Hi. apply Hbefore. lia.
    + destruct Hrun as (-> & -> & _). symmetry. apply filter_seq_all.
      intros i Hi. apply (first_success_none_inv _ _ _ Hfs). lia.
  - intros k r Hk Hbefore Hend.
    assert (Hfs : first_success attempts max_fails 0 = Some k).
    { apply first_success_found; [lia| |intros i Hi; apply Hbefore; lia].
      unfold failed. by rewrite Hend. }
    rewrite Hfs, Hend in Hrun. exact Hrun.
  - intros Hpos Hall.
    assert (Hfs : first_success attempts max_fails 0 = None).
    { apply first_success_none. intros i Hi. apply Hall. lia. }
    rewrite Hfs in Hrun. destruct Hrun as (Ht & Hc & Hs & _ & Hraise).
    destruct (Hraise Hpos) as (e & He & Hres). exists e. auto.
Qed.
End StageRunnerClaim.

Lemma C2_bounded_retry_witness :
  let run := train_stage_and_save demo_digest CADENCE_OF_UPDATE_STEPS 3 demo_config
               demo_attempts (mkDataset (Some 8)) in
  CADENCE_OF_UPDATE_STEPS <> 0
  /\ w_trainer fresh_world = Some new_trainer
  /\ (run fresh_world).1 = Return tt
  /\ count is_train (events_of run fresh_world) = 3%nat
  /\ count is_cleanup (events_of run fresh_world) = 2%nat
  /\ saved_metrics (events_of run fresh_world)
     = [<["train_samples"%string := MInt 8]> demo_metrics].
Proof.
  intros run.
  assert (H1 : CADENCE_OF_UPDATE_STEPS <> 0) by discriminate.
  assert (H2 : w_trainer fresh_world = Some new_trainer) by reflexivity.
  refine (conj H1 (conj H2 _)).
  refine (proj1 (proj2 (proj2 (C2_bounded_retry demo_digest CADENCE_OF_UPDATE_STEPS 3
            demo_config demo_attempts H1 (mkDataset (Some 8)) fresh_world new_trainer H2)))
          2%nat (Some demo_metrics) _ _ eq_refl).
  - repeat constructor.
  - intros [|[|i]] Hi; [reflexivity|reflexivity|]. exfalso. lia.
Defined.

(** ** The follower loop *)








Section FollowerFacts.
Context {F : FloatOps} {E : Environment}.
Variable md5_hexdigest : string -> string.
Variable cadence : Z.
Variable max_fails : nat.
Variable stage_data : StageData.
Variable config : GRPOConfig.
Variables (check_interval log_timeout max_check_interval : Q).





End FollowerFacts.

Section RestartFacts.
Context {F : FloatOps} {E : Environment}.
Variable md5_hexdigest : string -> string.
Variable cadence : Z.
Variable max_fails : nat.
Variable stage_data : StageData.
Variable config : GRPOConfig.
Variable check_interval : Q.

(** Every way through [join_round]. *)
Lemma join_round_eq obs r stage st w :
  let marked := mkFollowerState ({[r]} ∪ done_rounds st) (fetch_log_time st)
                                check_interval in
  let logged (w0 : world) (evs : list event) :=
    mkWorld (w_node w0) (w_trainer w0) (w_trace w0 ++ evs) in
  join_round md5_hexdigest cadence max_fails stage_data config check_interval obs r stage st w
  = match train_stages md5_hexdigest cadence max_fails stage_data config
      (fo_first obs) r stage false
            (logged w [EvLog INFO "Joining round"]) with
    | (Return _, w1) => (Return marked, w1)
    | (Raise e, w1) =>
        if is_dataset_generation_error e then
          if 0 <? stage then
            match train_stages md5_hexdigest cadence max_fails stage_data config
                (fo_restart obs) r 0 false
                    (logged w1 [EvLog WARNING "DatasetGenerationError";
                                EvLog INFO "Re-attempting training for round {round_num} starting at stage 0!"]) with
            | (Return _, w2) => (Return marked, w2)
            | (Raise e', w2) => (Raise e', w2)
            end
          else
            (Return marked,
             logged w1 [EvLog WARNING "DatasetGenerationError";
                        EvLog ERROR "DatasetGenerationError at stage 0. Cannot recover this round. Skipping."])
        else
          (Return marked,
           logged w1 [EvLog ERROR "Unexpected error during train_stages"])
    end.
Proof.
  intros marked logged. unfold join_round.
  rewrite bind_eq. cbn [log emit]. rewrite bind_eq. unfold try_except.
  fold (logged w [EvLog INFO "Joining round"]).
  destruct (train_stages md5_hexdigest cadence max_fails stage_data config
      (fo_first obs) r stage false
              (logged w [EvLog INFO "Joining round"])) as [[[]|e] w1]; [done|].
  destruct (is_dataset_generation_error e); [|subst logged; simpl; reflexivity].
  destruct (0 <? stage); [|subst logged; simpl; by rewrite <- app_assoc].
  rewrite !bind_eq. cbn [log emit]. rewrite !bind_eq. cbn [log emit].
  subst logged. cbn [w_node w_trainer w_trace]. rewrite <- app_assoc. simpl.
  by destruct (train_stages md5_hexdigest cadence max_fails stage_data config
      (fo_restart obs) r 0 false _) as [[[]|e'] w2].
Qed.

Lemma join_round_resets_backoff obs r stage st w st' :
  (join_round md5_hexdigest cadence max_fails stage_data config check_interval
      obs r stage st w).1 = Return st' ->
  check_backoff st' = check_interval
  /\ done_rounds st' = {[r]} ∪ done_rounds st.
Proof.
  rewrite join_round_eq.
  destruct (train_stages _ _ _ _ _ (fo_first obs) r stage false _) as [[[]|e] w1].
  - by intros [= <-].
  - destruct (is_dataset_generation_error e); [|by intros [= <-]].
    destruct (0 <? stage); [|by intros [= <-]].
    destruct (train_stages _ _ _ _ _ (fo_restart obs) r 0 false _) as [[[]|e'] w2];
      [by intros [= <-]|discriminate].
Qed.


(** How often [join_round] runs the stage sequence: once, and a second time
    exactly when the first run raised a dataset-generation error and the
    joined stage is above 0. *)
Lemma join_round_round_writes obs r stage st w :
  let joined := mkWorld (w_node w) (w_trainer w)
                        (w_trace w ++ [EvLog INFO "Joining round"]) in
  round_writes
    (events_of (join_round md5_hexdigest cadence max_fails stage_data config
                           check_interval obs r stage st) w)
  = match (train_stages md5_hexdigest cadence max_fails stage_data config
                        (fo_first obs) r stage false joined).1 with
    | Raise e =>
        if is_dataset_generation_error e && (0 <? stage) then [r; r] else [r]
    | Return _ => [r]
    end.
Proof.
  intros joined.
  assert (Hev : forall w' evs,
             w_trace w' = (w_trace w ++ [EvLog INFO "Joining round"]) ++ evs ->
             w_trace w' = w_trace w ++ EvLog INFO "Joining round" :: evs).
  { intros w' evs ->. by rewrite <- app_assoc. }
  destruct (train_stages_round_writes md5_hexdigest cadence max_fails stage_data config
              (fo_first obs) r stage false joined) as (evs1 & Ht1 & Hr1).
  unfold events_of.
  rewrite join_round_eq. fold joined.
  destruct (train_stages _ _ _ _ _ (fo_first obs) r stage false joined)
    as [[[]|e] w1]; cbn [fst snd] in *; apply Hev in Ht1.
  - rewrite Ht1, drop_app_length.
    change (round_writes (EvLog INFO "Joining round" :: evs1)) with (round_writes evs1).
    exact Hr1.
  - assert (Hone : forall extra,
               round_writes extra = [] ->
               round_writes (drop (length (w_trace w)) (w_trace w1 ++ extra)) = [r]).
    { intros extra Hx. rewrite Ht1, <- app_assoc, drop_app_length, round_writes_app, Hx.
      change (round_writes (EvLog INFO "Joining round" :: evs1)) with (round_writes evs1).
      by rewrite Hr1. }
    destruct (is_dataset_generation_error e); cbn [andb snd w_trace];
      [|by apply Hone].
    destruct (0 <? stage); cbn [snd w_trace]; [|by apply Hone].
    match goal with
    | |- context [train_stages _ _ _ _ _ (fo_restart obs) r 0 false ?w2] =>
        destruct (train_stages_round_writes md5_hexdigest cadence max_fails
                    stage_data config (fo_restart obs) r 0 false w2)
          as (evs2 & Ht2 & Hr2);
        destruct (train_stages _ _ _ _ _ (fo_restart obs) r 0 false w2)
          as [[[]|e'] w3]
    end; cbn [fst snd w_trace] in *;
      rewrite Ht2, Ht1, <- !app_assoc, drop_app_length, !round_writes_app, Hr2;
      change (round_writes (EvLog INFO "Joining round" :: evs1)) with (round_writes evs1);
      rewrite Hr1; reflexivity.
Qed.
End RestartFacts.

Section FollowerClaims.
Context {F : FloatOps} {E : Environment}.
Variable md5_hexdigest : string -> string.
Variable cadence : Z.
Variable max_fails : nat.
Variable stage_data : StageData.
Variable config : GRPOConfig.
Variables (check_interval log_timeout max_check_interval : Q).

End FollowerClaims.



(** C1 at the failing input.  The pointer shows round 0 at stage 2 of three
    stages; dataset construction fails in the first call of the stage
    sequence and again in the restart from stage 0.  The restart happens
    once (the round is written twice, the stage starts at 2 and then at 0),
    but its exception leaves [join_round] and the whole follower loop: the
    round is never added to [done_rounds], and the next observation, which
    shows round 1, is never looked at. *)
Theorem C1_restart_failure_escapes :
  let run := follower_train demo_digest CADENCE_OF_UPDATE_STEPS MAX_TRAIN_FAILS
               three_stage_data demo_config 5%Q 10%Q 300%Q 0%Q
               [dge_obs; next_round_obs] in
  (run follower_world).1 = Raise DatasetGenerationError
  /\ round_writes (events_of run follower_world) = [0; 0]
  /\ stage_writes (events_of run follower_world) = [2; 0]
  /\ (forall st,
        (join_round demo_digest CADENCE_OF_UPDATE_STEPS MAX_TRAIN_FAILS three_stage_data
                    demo_config 5%Q dge_obs 0 2 st follower_world).1
        = Raise DatasetGenerationError).
Proof. repeat split; vm_compute; reflexivity. Qed.

Lemma C10_train_stages_out_of_range_witness :
  Z.of_nat (length (stages demo_stage_data)) <= 2
  /\ (train_stages demo_digest CADENCE_OF_UPDATE_STEPS MAX_TRAIN_FAILS demo_stage_data
                   demo_config demo_call_env 0 2 false follower_world).1
     = Raise UnboundLocalError.
Proof.
  assert (H : Z.of_nat (length (stages demo_stage_data)) <= 2) by (simpl; lia).
  refine (conj H _).
  rewrite (proj1 (proj2 (C10_train_stages_out_of_range demo_digest
                           CADENCE_OF_UPDATE_STEPS MAX_TRAIN_FAILS demo_stage_data
                           demo_config demo_call_env 0 2 false follower_world H))).
  reflexivity.
Defined.


(** * Further properties *)

(** ** wait_for *)


(** X1. [wait_for] with a timeout that is zero or negative never enters its
    loop (the clock does not run backwards), so [return result] finds the
    name unbound: the call raises the unbound-local error instead of
    returning [None], and [result_fn] is not called. *)
Theorem wait_for_elapsed_timeout_raises {A} (interval timeout start_time : Q)
    (obs : wait_obs A) (rest : list (wait_obs A)) (w : world) :
  (timeout <= 0)%Q ->
  (start_time <= wo_now obs)%Q ->
  wait_for interval timeout start_time (obs :: rest) w = (Raise UnboundLocalError, w).
Proof.
  intros Ht Hclock. unfold wait_for. cbn [wait_loop].
  assert (Hf : Qltb (wo_now obs - start_time) timeout = false).
  { unfold Qltb. destruct (Qcompare_spec (wo_now obs - start_time) timeout); [done| |done].
    lra. }
  by rewrite Hf.
Qed.

Lemma wait_for_elapsed_timeout_raises_witness :
  (0 <= 0)%Q /\ (5 <= 5)%Q
  /\ wait_for 10 0 5 [mkWaitObs 5%Q (Return (Some 1%nat))] follower_world
     = (Raise UnboundLocalError, follower_world).
Proof.
  assert (H1 : (0 <= 0)%Q) by apply Qle_refl.
  assert (H2 : (5 <= 5)%Q) by apply Qle_refl.
  refine (conj H1 (conj H2 _)).
  exact (wait_for_elapsed_timeout_raises 10 0 5 (mkWaitObs 5%Q (Return (Some 1%nat)))
           [] follower_world H1 H2).
Defined.






(** ** Invariants through the whole module *)

Section Keeps.
Context {E : Environment}.
Variable I : world -> Prop.
Variable J : HivemindNode -> Prop.
Variable P : event -> Prop.
Hypothesis I_blind : forall w evs, I w -> I (mkWorld (w_node w) (w_trainer w) evs).
Hypothesis I_node : forall w, I w -> J (w_node w).

Lemma keeps_ret {A} (a : A) : keeps I P (ret a).
Proof. intros w HI. split; [done|]. exists []. by rewrite app_nil_r. Qed.

Lemma keeps_raise {A} (e : exn) : keeps I P (@raise A e).
Proof. intros w HI. split; [done|]. exists []. by rewrite app_nil_r. Qed.

Lemma keeps_lift {A} (o : outcome A) : keeps I P (lift o).
Proof. destruct o; [apply keeps_ret|apply keeps_raise]. Qed.

Lemma keeps_the_trainer : keeps I P the_trainer.
Proof.
  intros w HI. unfold the_trainer.
  destruct (w_trainer w); (split; [done|]); exists []; by rewrite app_nil_r.
Qed.

Lemma keeps_emit (e : event) : P e -> keeps I P (emit e).
Proof.
  intros He w HI. split; [by apply I_blind|]. exists [e]. by repeat constructor.
Qed.

(** A call that raises has changed nothing. *)
Lemma keeps_call (e : event) : P e -> keeps I P (call e).
Proof.
  intros He w HI. unfold call. destruct (fails (w_trace w) e).
  - split; [done|]. exists []. by rewrite app_nil_r.
  - by apply keeps_emit.
Qed.

Lemma keeps_check (e : event) : keeps I P (check e).
Proof.
  intros w HI. unfold check.
  destruct (fails (w_trace w) e); (split; [done|]); exists []; by rewrite app_nil_r.
Qed.

Lemma keeps_bind {A B} (m : M A) (f : A -> M B) :
  keeps I P m -> (forall a, keeps I P (f a)) -> keeps I P (bind m f).
Proof.
  intros Hm Hf w HI. rewrite bind_eq.
  destruct (Hm w HI) as (HI1 & e1 & Ht1 & HP1).
  destruct (m w) as [[a|e] w1]; cbn [fst snd] in *.
  - destruct (Hf a w1 HI1) as (HI2 & e2 & Ht2 & HP2).
    split; [done|]. exists (e1 ++ e2). split; [|by apply Forall_app].
    by rewrite Ht2, Ht1, app_assoc.
  - split; [done|]. by exists e1.
Qed.

Lemma keeps_try_except {A} (m : M A) (h : exn -> M A) :
  keeps I P m -> (forall e, keeps I P (h e)) -> keeps I P (try_except m h).
Proof.
  intros Hm Hh w HI. unfold try_except.
  destruct (Hm w HI) as (HI1 & e1 & Ht1 & HP1).
  destruct (m w) as [[a|e] w1]; cbn [fst snd] in *.
  - split; [done|]. by exists e1.
  - destruct (Hh e w1 HI1) as (HI2 & e2 & Ht2 & HP2).
    split; [done|]. exists (e1 ++ e2). split; [|by apply Forall_app].
    by rewrite Ht2, Ht1, app_assoc.
Qed.

(** Reading the node: what follows may rely on [J]. *)
Lemma keeps_get_node {B} (f : HivemindNode -> M B) :
  (forall nd, J nd -> keeps I P (f nd)) -> keeps I P (bind get_node f).
Proof. intros Hf w HI. exact (Hf (w_node w) (I_node w HI) w HI). Qed.

Lemma keeps_put_node (nd : HivemindNode) :
  (forall w, I w -> I (mkWorld nd (w_trainer w) (w_trace w))) ->
  keeps I P (put_node nd).
Proof. intros H w HI. split; [by apply H|]. exists []. by rewrite app_nil_r. Qed.

Lemma keeps_bind_trainer (t : option PublishingGRPOTrainer) :
  (forall w, I w -> I (mkWorld (w_node w) t (w_trace w))) ->
  keeps I P (bind_trainer t).
Proof. intros H w HI. split; [by apply H|]. exists []. by rewrite app_nil_r. Qed.
End Keeps.

Ltac keeps_step :=
  match goal with
  | H : keeps ?I ?P ?m |- keeps ?I ?P ?m => exact H
  | H : forall _, keeps _ _ _ |- keeps _ _ _ => simple apply H
  | |- keeps _ _ (ret _) => apply keeps_ret
  | |- keeps _ _ (raise _) => apply keeps_raise
  | |- keeps _ _ (lift _) => apply keeps_lift
  | |- keeps _ _ the_trainer => apply keeps_the_trainer
  | |- keeps _ _ (try_except _ _) => apply keeps_try_except; [|intros ?]
  end.

Section KeepsProgram.
Context {F : FloatOps} {E : Environment}.
Variable I : world -> Prop.
Variable J : HivemindNode -> Prop.
Variable P : event -> Prop.
Hypothesis I_blind : forall w evs, I w -> I (mkWorld (w_node w) (w_trainer w) evs).
Hypothesis I_node : forall w, I w -> J (w_node w).
(** The module updates the node only in its round, stage, outputs and
    rewards fields. *)
Hypothesis I_put : forall w nd r s o rw,
  I w -> J nd ->
  I (mkWorld (mkNode (key nd) (is_coordinator nd) r s (out_expiration nd) o rw)
             (w_trainer w) (w_trace w)).
(** The reward functions update its outputs and rewards fields only. *)
Hypothesis I_put_results : forall w nd o rw,
  I w -> J nd ->
  I (mkWorld (mkNode (key nd) (is_coordinator nd) (round_num nd) (stage_num nd)
                     (out_expiration nd) o rw)
             (w_trainer w) (w_trace w)).
Hypothesis I_some : forall w t, I w -> I (mkWorld (w_node w) (Some t) (w_trace w)).
Hypothesis I_none : forall w, I w -> I (mkWorld (w_node w) None (w_trace w)).
Hypothesis P_routine : forall e, is_routine e = true -> P e.
Hypothesis P_write : forall e, is_write e = true -> P e.
Hypothesis P_persistence : forall e, is_persistence e = true -> P e.
Hypothesis P_push : P EvPushToHub.
(** Leaderboard and pointer stores need to be allowed only where a
    coordinator can be at work. *)
Hypothesis P_leaderboard : forall nd, J nd -> is_coordinator nd = true ->
  forall r s v t, P (EvStore (leaderboard_key r s) None v t).
Hypothesis P_pointer : forall nd, J nd -> is_coordinator nd = true ->
  forall v t, P (EvStore ROUND_STAGE_NUMBER_KEY None v t).

Variable md5_hexdigest : string -> string.
Variable cadence : Z.
Variable max_fails : nat.
Variable stage_data : StageData.
Variable config : GRPOConfig.

Ltac keeps_tac :=
  repeat first
    [ keeps_step
    | progress cbv zeta
    | match goal with
      | |- keeps _ _ (bind get_node _) =>
          apply (keeps_get_node I J P I_node); intros ? ?
      | |- keeps _ _ (bind _ _) => apply keeps_bind; [|intros ?]
      | |- keeps _ _ (emit _) =>
          apply (keeps_emit I P I_blind);
          first [ apply P_routine; reflexivity | apply P_persistence; reflexivity
                | apply P_write; reflexivity ]
      | |- keeps _ _ (call _) =>
          apply (keeps_call I P I_blind);
          first [ apply P_routine; reflexivity | apply P_persistence; reflexivity ]
      | |- keeps _ _ (check _) => apply keeps_check
      | |- keeps _ _ (put_node _) =>
          apply keeps_put_node; intros; first [by apply I_put_results | by apply I_put]
      | |- keeps _ _ (emit EvPushToHub) => apply (keeps_emit I P I_blind); exact P_push
      | |- keeps _ _ (bind_trainer (Some _)) =>
          apply keeps_bind_trainer; intros; by apply I_some
      | |- keeps _ _ (bind_trainer None) =>
          apply keeps_bind_trainer; intros; by apply I_none
      | |- keeps _ _ (if ?b then _ else _) => destruct b eqn:?
      | |- keeps _ _ (match ?x with _ => _ end) => destruct x eqn:?
      end ].

Lemma keeps_publish_leaderboard nd curr_rewards dht_time :
  J nd -> is_coordinator nd = true ->
  keeps I P (publish_leaderboard curr_rewards dht_time).
Proof.
  intros HJ Hco. unfold publish_leaderboard, log. keeps_tac.
  apply (keeps_call I P I_blind). by apply (P_leaderboard nd).
Qed.

Lemma keeps_compute_loss inp : keeps I P (compute_loss md5_hexdigest cadence inp).
Proof.
  unfold compute_loss, super_compute_loss, publish, add_stage_rewards, log.
  keeps_tac. eapply keeps_publish_leaderboard; eauto.
Qed.

Lemma keeps_training_loop steps : keeps I P (training_loop md5_hexdigest cadence steps).
Proof.
  induction steps as [|inp rest IH]; cbn [training_loop]; [apply keeps_ret|].
  unfold training_step, set_global_step.
  pose proof (keeps_compute_loss inp). keeps_tac.
Qed.

Lemma keeps_trainer_train script : keeps I P (trainer_train md5_hexdigest cadence script).
Proof.
  unfold trainer_train, set_global_step.
  pose proof (keeps_training_loop (ts_steps script)). keeps_tac.
Qed.

Lemma keeps_train_attempts attempts remaining attempt :
  keeps I P (train_attempts md5_hexdigest cadence max_fails attempts remaining attempt).
Proof.
  revert attempt. induction remaining as [|remaining IH]; intros attempt;
    cbn [train_attempts]; [apply keeps_ret|].
  pose proof (keeps_trainer_train (attempts attempt)).
  pose proof (IH (S attempt)). unfold cleanup, log. keeps_tac.
Qed.

Lemma keeps_train_stage_and_save attempts ds :
  keeps I P (train_stage_and_save md5_hexdigest cadence max_fails config attempts ds).
Proof.
  unfold train_stage_and_save, log.
  pose proof (keeps_train_attempts attempts max_fails 0%nat). keeps_tac.
Qed.

Lemma keeps_stage_rest env i :
  keeps I P (stage_rest md5_hexdigest cadence max_fails config env i).
Proof.
  unfold stage_rest, create_publishing_trainer, log.
  pose proof (keeps_train_stage_and_save (se_attempts (ce_stage env i))).
  keeps_tac.
Qed.

Lemma keeps_stage_body env start_stage c i :
  (c = true -> forall v t, P (EvStore ROUND_STAGE_NUMBER_KEY None v t)) ->
  keeps I P (stage_body md5_hexdigest cadence max_fails config env start_stage c i).
Proof.
  intros Hc. unfold stage_body, set_stage_num, create_publishing_trainer, log.
  pose proof (keeps_train_stage_and_save (se_attempts (ce_stage env i))).
  keeps_tac. apply (keeps_call I P I_blind). by apply Hc.
Qed.

Lemma keeps_stage_loop env start_stage c rest i :
  (c = true -> forall v t, P (EvStore ROUND_STAGE_NUMBER_KEY None v t)) ->
  keeps I P (stage_loop md5_hexdigest cadence max_fails config env start_stage c rest i).
Proof.
  intros Hc. revert i. induction rest as [|st rest IH]; intros i; cbn [stage_loop];
    [apply keeps_ret|].
  pose proof (keeps_stage_body env start_stage c i Hc). pose proof (IH (S i)).
  keeps_tac.
Qed.

Lemma keeps_train_stages env r start_stage c :
  (c = true -> forall v t, P (EvStore ROUND_STAGE_NUMBER_KEY None v t)) ->
  keeps I P (train_stages md5_hexdigest cadence max_fails stage_data config
                          env r start_stage c).
Proof.
  intros Hc. unfold train_stages, set_round_num, cleanup, log.
  pose proof (keeps_stage_loop env start_stage c
                (slice_from (stages stage_data) start_stage) 0%nat Hc).
  keeps_tac.
Qed.

Lemma keeps_join_round check_interval obs r stage st :
  keeps I P (join_round md5_hexdigest cadence max_fails stage_data config
                        check_interval obs r stage st).
Proof.
  unfold join_round, log.
  pose proof (keeps_train_stages (fo_first obs) r stage false ltac:(discriminate)).
  pose proof (keeps_train_stages (fo_restart obs) r 0 false ltac:(discriminate)).
  keeps_tac.
Qed.

Lemma keeps_follower_body check_interval log_timeout max_check_interval obs st :
  keeps I P (follower_body md5_hexdigest cadence max_fails stage_data config
                           check_interval log_timeout max_check_interval obs st).
Proof.
  unfold follower_body, already_done, could_not_fetch, log.
  keeps_tac; by apply keeps_join_round.
Qed.

Lemma keeps_follower_loop check_interval log_timeout max_check_interval
    start_time obss st :
  keeps I P (follower_loop md5_hexdigest cadence max_fails stage_data config
                           check_interval log_timeout max_check_interval
                           start_time obss st).
Proof.
  revert st. induction obss as [|obs rest IH]; intros st; cbn [follower_loop];
    [apply keeps_ret|].
  pose proof (keeps_follower_body check_interval log_timeout max_check_interval obs st). unfold log. keeps_tac.
Qed.

Lemma keeps_coordinator_loop fuel start_time obs iter round :
  (forall v t, P (EvStore ROUND_STAGE_NUMBER_KEY None v t)) ->
  keeps I P (coordinator_loop md5_hexdigest cadence max_fails stage_data config
                              fuel start_time obs iter round).
Proof.
  intros Hp. revert iter round. induction fuel as [|fuel IH]; intros iter round;
    cbn [coordinator_loop]; unfold log.
  - keeps_tac.
  - pose proof (keeps_train_stages (co_call (obs iter)) round 0 true (fun _ => Hp)).
    keeps_tac. apply IH.
Qed.

Lemma keeps__train start_time coordinator_view follower_view :
  keeps I P (_train md5_hexdigest cadence max_fails stage_data config
                    start_time coordinator_view follower_view).
Proof.
  unfold _train, coordinator_train, follower_train.
  apply (keeps_get_node I J P I_node). intros nd HJ.
  destruct (is_coordinator nd) eqn:Hco.
  - apply keeps_bind; [|intros ?; apply keeps_ret].
    apply keeps_coordinator_loop. by apply (P_pointer nd).
  - apply keeps_bind; [|intros ?; apply keeps_ret].
    apply keeps_follower_loop.
Qed.

Lemma keeps_train start_time coordinator_view follower_view :
  keeps I P (train md5_hexdigest cadence max_fails stage_data config
                   start_time coordinator_view follower_view).
Proof.
  unfold train, log.
  pose proof (keeps__train start_time coordinator_view follower_view). keeps_tac.
Qed.
End KeepsProgram.

(** ** Roles *)

Ltac by_event :=
  let e := fresh "e" in
  intros e; destruct e; try discriminate;
  try match goal with k : dht_key |- _ => destruct k end;
  try discriminate; try done.

(** X4. On a node that is not the coordinator, [train] stores neither the
    round-and-stage pointer nor a leaderboard, whatever the DHT shows and
    however the training goes, and the node is still not the coordinator
    when [train] ends. *)
Theorem non_coordinator_never_coordinates {F : FloatOps} {E : Environment}
    md5_hexdigest cadence max_fails
    stage_data config start_time coordinator_view follower_view (w : world) :
  is_coordinator (w_node w) = false ->
  let run := train md5_hexdigest cadence max_fails stage_data config
                   start_time coordinator_view follower_view in
  is_coordinator (w_node (run w).2) = false
  /\ Forall (fun e => is_pointer_store e = false /\ is_leaderboard_store e = false)
            (events_of run w).
Proof.
  intros Hco run.
  destruct (keeps_train (fun w => is_coordinator (w_node w) = false)
              (fun nd => is_coordinator nd = false)
              (fun e => is_pointer_store e = false /\ is_leaderboard_store e = false))
    with (w := w) (md5_hexdigest := md5_hexdigest) (cadence := cadence)
         (max_fails := max_fails) (stage_data := stage_data) (config := config)
         (start_time := start_time) (coordinator_view := coordinator_view)
         (follower_view := follower_view)
    as (HI & evs & Ht & HP).
  all: try done.
  all: try (intros; simpl in *; congruence).
  all: try by_event.
  subst run. split; [done|]. by rewrite (events_of_eq _ _ _ Ht).
Qed.

Lemma non_coordinator_never_coordinates_witness :
  let run := train demo_digest CADENCE_OF_UPDATE_STEPS MAX_TRAIN_FAILS demo_stage_data
                   demo_config 0%Q demo_coordinator_obs [next_round_obs] in
  is_coordinator (w_node follower_world) = false
  /\ is_coordinator (w_node (run follower_world).2) = false
  /\ Forall (fun e => is_pointer_store e = false /\ is_leaderboard_store e = false)
            (events_of run follower_world).
Proof.
  intros run.
  assert (H : is_coordinator (w_node follower_world) = false) by reflexivity.
  refine (conj H _).
  exact (non_coordinator_never_coordinates demo_digest CADENCE_OF_UPDATE_STEPS
           MAX_TRAIN_FAILS demo_stage_data demo_config 0%Q demo_coordinator_obs
           [next_round_obs] follower_world H).
Defined.

(** X5. [follower_train] never stores the round-and-stage pointer, on any
    node: the pointer is written under the [is_coordinator] argument of
    [train_stages], which the follower always passes as [False], and not
    under the node's own role. *)
Theorem follower_train_never_stores_pointer {F : FloatOps} {E : Environment}
    md5_hexdigest cadence max_fails
    stage_data config check_interval log_timeout max_check_interval
    start_time obss (w : world) :
  Forall (fun e => is_pointer_store e = false)
         (events_of (follower_train md5_hexdigest cadence max_fails stage_data config
                       check_interval log_timeout max_check_interval start_time obss) w).
Proof.
  unfold follower_train.
  destruct (keeps_follower_loop (fun _ => True) (fun _ => True)
              (fun e => is_pointer_store e = false))
    with (w := w) (md5_hexdigest := md5_hexdigest) (cadence := cadence)
         (max_fails := max_fails) (stage_data := stage_data) (config := config)
         (check_interval := check_interval) (log_timeout := log_timeout)
         (max_check_interval := max_check_interval)
         (start_time := start_time) (obss := obss)
         (st := mkFollowerState ∅ start_time check_interval)
    as (HI & evs & Ht & HP).
  all: try done.
  all: try by_event.
  by rewrite (events_of_eq _ _ _ Ht).
Qed.

(** X6. [train] leaves the node's key, role and output expiration as it
    found them: the module only ever writes the node's round, stage, outputs
    and rewards. *)
Theorem train_preserves_node_identity {F : FloatOps} {E : Environment}
    md5_hexdigest cadence max_fails
    stage_data config start_time coordinator_view follower_view (w : world) :
  let nd' := w_node (train md5_hexdigest cadence max_fails stage_data config
                           start_time coordinator_view follower_view w).2 in
  key nd' = key (w_node w)
  /\ is_coordinator nd' = is_coordinator (w_node w)
  /\ out_expiration nd' = out_expiration (w_node w).
Proof.
  set (same := fun nd => key nd = key (w_node w)
                         /\ is_coordinator nd = is_coordinator (w_node w)
                         /\ out_expiration nd = out_expiration (w_node w)).
  destruct (keeps_train (fun w0 => same (w_node w0)) same (fun _ => True))
    with (w := w) (md5_hexdigest := md5_hexdigest) (cadence := cadence)
         (max_fails := max_fails) (stage_data := stage_data) (config := config)
         (start_time := start_time) (coordinator_view := coordinator_view)
         (follower_view := follower_view)
    as (HI & _).
  all: try done.
Qed.

(** ** Persistence comes after training *)

Section PersistenceFacts.
Context {F : FloatOps} {E : Environment}.
Variable md5_hexdigest : string -> string.
Variable cadence : Z.
Variable max_fails : nat.
Variable config : GRPOConfig.

(** X7. [train_stage_and_save] persists the results of a stage only once
    the retry loop has handed it a result.  While the attempts run, no
    metrics are logged or saved and neither the trainer state, the model nor
    the tokenizer is written; after them, [trainer.train()] and [cleanup]
    are not called again.  When the retry loop raises, the call raises the
    same exception there and then, and when the loop ends without a result
    the call returns after an error log: either way nothing of the stage is
    persisted.  This holds whatever call raises. *)
Theorem failed_training_persists_nothing attempts ds (w : world) :
  let loop := train_attempts md5_hexdigest cadence max_fails attempts max_fails 0%nat in
  let run := train_stage_and_save md5_hexdigest cadence max_fails config attempts ds in
  exists saved,
    events_of run w = events_of loop w ++ saved
    /\ Forall (fun ev => is_persistence ev = false) (events_of loop w)
    /\ Forall (fun ev => is_train ev = false /\ is_cleanup ev = false) saved
    /\ match (loop w).1 with
       | Raise e => run w = (Raise e, (loop w).2) /\ saved = []
       | Return None =>
           (run w).1 = Return tt
           /\ Forall (fun ev => is_persistence ev = false) (events_of run w)
       | Return (Some _) => True
       end.
Proof.
  intros loop run.
  destruct (keeps_train_attempts (fun _ => True) (fun _ => True)
              (fun ev => is_persistence ev = false))
    with (w := w) (md5_hexdigest := md5_hexdigest) (cadence := cadence)
         (max_fails := max_fails) (attempts := attempts)
         (remaining := max_fails) (attempt := 0%nat)
    as (_ & evs & Ht & HP).
  all: try done.
  all: try by_event.
  fold loop in Ht.
  assert (Hloop : events_of loop w = evs) by (by apply events_of_eq).
  set (after := fun train_result : option (gmap string metric_value) =>
         match train_result with
         | None =>
             log ERROR "train_result is None after training attempts, skipping metrics logging and saving."
         | Some metrics =>
             let metrics := <["train_samples"%string := train_samples ds]> metrics in
             call (EvLogMetrics metrics) ;;;
             call (EvSaveMetrics metrics) ;;;
             call EvSaveState ;;;
             log INFO "Saving model" ;;;
             emit EvUseCache ;;;
             call (EvSaveModel (output_dir config)) ;;;
             log INFO "Model saved" ;;;
             (if distributed_state config
              then call EvWaitForEveryone
              else log WARNING "distributed_state not found in config or is None. Skipping wait_for_everyone().") ;;;
             call (EvSaveTokenizer (output_dir config)) ;;;
             log INFO "Tokenizer saved"
         end).
  assert (Hafter : forall r, keeps (fun _ => True)
                               (fun ev => is_train ev = false /\ is_cleanup ev = false)
                               (after r)).
  { intros [m|]; unfold after, log; cbv zeta;
      repeat first [ apply keeps_bind; [|intros ?]
                   | apply keeps_call; [done|done]
                   | apply keeps_emit; [done|done]
                   | match goal with
                     | |- keeps _ _ (if ?b then _ else _) => destruct b
                     end ]. }
  assert (Hrun : run = bind loop after) by reflexivity.
  destruct (loop w) as [[r|e] w1] eqn:Hl; cbn [fst snd] in *.
  - destruct (Hafter r w1 I) as (_ & saved & Hs & HQ).
    exists saved.
    assert (Hev : events_of run w = evs ++ saved).
    { apply events_of_eq. rewrite Hrun, bind_eq, Hl, Hs, Ht. by rewrite app_assoc. }
    rewrite Hev, Hloop. repeat split; [done|done|].
    destruct r as [m|]; [done|]. split.
    + rewrite Hrun, bind_eq, Hl. reflexivity.
    + assert (saved = [EvLog ERROR "train_result is None after training attempts, skipping metrics logging and saving."]) as ->.
      { revert Hs. unfold after, log, emit. cbn [snd w_trace].
        intros Hs. by apply app_inv_head in Hs. }
      apply Forall_app. split; [done|by repeat constructor].
  - exists []. rewrite app_nil_r.
    assert (Hr : run w = (Raise e, w1)) by (by rewrite Hrun, bind_eq, Hl).
    repeat split; [|by rewrite Hloop|done|done].
    rewrite Hloop. apply events_of_eq. by rewrite Hr.
Qed.
End PersistenceFacts.

(** ** How a call ends *)

(** Runs the binds whose first computation is a primitive. *)
Ltac run_binds :=
  repeat first
    [ progress cbn [get_node put_node emit call fails no_failures bind_trainer
                    ret raise lift w_node w_trainer w_trace]
    | rewrite bind_eq ].

Section OutcomeFacts.
Context {F : FloatOps}.
Variable md5_hexdigest : string -> string.
Variable cadence : Z.
Variable max_fails : nat.
Variable stage_data : StageData.
Variable config : GRPOConfig.
Hypothesis cadence_nonzero : cadence <> 0.

Lemma train_attempts_outcome attempts remaining attempt (w : world)
    (tr : PublishingGRPOTrainer) :
  w_trainer w = Some tr ->
  void (train_attempts md5_hexdigest cadence max_fails attempts remaining attempt w).1
  = attempts_outcome max_fails attempts remaining attempt
  /\ is_Some (w_trainer (train_attempts md5_hexdigest cadence max_fails attempts
                                        remaining attempt w).2).
Proof.
  revert attempt w tr. induction remaining as [|remaining IH]; intros attempt w tr Htr;
    cbn [train_attempts attempts_outcome].
  - split; [done|]. unfold ret; cbn [snd]. by rewrite Htr.
  - unfold try_except. rewrite (trainer_train_eq _ _ cadence_nonzero _ _ _ Htr).
    cbv zeta. destruct (ts_ending (attempts attempt)) as [res|e].
    + split; [done|]. by eexists.
    + unfold cleanup, log. rewrite !bind_eq. cbn [emit w_node w_trainer w_trace].
      destruct (is_dht_ipc_error e); cbn [emit w_node w_trainer w_trace];
        (destruct (attempt =? max_fails - 1)%nat;
         [ rewrite bind_eq; cbn; split; [done|by eexists]
         | eapply IH; reflexivity ]).
Qed.

Lemma train_stage_and_save_outcome attempts ds (w : world) (tr : PublishingGRPOTrainer) :
  w_trainer w = Some tr ->
  (train_stage_and_save md5_hexdigest cadence max_fails config attempts ds w).1
  = attempts_outcome max_fails attempts max_fails 0
  /\ is_Some (w_trainer (train_stage_and_save md5_hexdigest cadence max_fails config
                                              attempts ds w).2).
Proof.
  intros Htr. destruct (train_attempts_outcome attempts max_fails 0%nat w tr Htr) as [Ho Hb].
  unfold train_stage_and_save. rewrite bind_eq.
  destruct (train_attempts _ _ _ _ _ _ w) as [[[m|]|e] w1]; cbn [fst snd void] in *;
    rewrite <- Ho.
  - monad_unfold. destruct (distributed_state config); cbn; done.
  - monad_unfold. cbn. done.
  - done.
Qed.

Lemma stage_body_outcome env start_stage c i (w : world) :
  (stage_body md5_hexdigest cadence max_fails config env start_stage c i w).1
  = stage_outcome max_fails (ce_stage env i)
  /\ ((stage_body md5_hexdigest cadence max_fails config env start_stage c i w).1
      = Return tt ->
      is_Some (w_trainer (stage_body md5_hexdigest cadence max_fails config env
                                     start_stage c i w).2)).
Proof.
  unfold stage_body, stage_outcome, set_stage_num, create_publishing_trainer, log.
  cbv zeta. run_binds.
  destruct c; run_binds;
    (destruct (se_datasets (ce_stage env i)) as [ds|e]; run_binds;
     [|split; [done|discriminate]]).
  all: match goal with
       | |- context [train_stage_and_save _ _ _ _ ?a ?d ?w0] =>
           destruct (train_stage_and_save_outcome a d w0 new_trainer eq_refl) as [Ho Hb];
           destruct (train_stage_and_save md5_hexdigest cadence max_fails config a d w0)
             as [[[]|e] w1]
       end. all: cbn [fst snd] in *. all: rewrite <- Ho. all: split; done.
Qed.

Lemma stage_loop_outcome env start_stage c rest i (w : world) :
  (stage_loop md5_hexdigest cadence max_fails config env start_stage c rest i w).1
  = stages_outcome max_fails env rest i
  /\ ((stage_loop md5_hexdigest cadence max_fails config env start_stage c rest i w).1
      = Return tt ->
      if rest is [] then
        (stage_loop md5_hexdigest cadence max_fails config env start_stage c rest i w).2 = w
      else
        is_Some (w_trainer (stage_loop md5_hexdigest cadence max_fails config env
                                       start_stage c rest i w).2)).
Proof.
  revert i w. induction rest as [|st rest IH]; intros i w; cbn [stage_loop stages_outcome].
  - done.
  - rewrite bind_eq.
    destruct (stage_body_outcome env start_stage c i w) as [Ho Hb].
    destruct (stage_body _ _ _ _ _ _ _ _ w) as [[[]|e] w1]; cbn [fst snd] in *;
      rewrite <- Ho; [|split; [done|discriminate]].
    destruct (IH (S i) w1) as [Ho' Hb']. split; [done|].
    intros Hret. specialize (Hb' Hret). destruct rest; [|done].
    rewrite Hb'. by apply Hb.
Qed.

(** The hub-push block returns whatever happens inside it and leaves the
    binding of [trainer] alone. *)
Lemma push_block_returns env (w : world) :
  exists evs,
    match push_to_hub_token config with
    | Some _ =>
        log INFO "Pushing model to Hugging Face Hub..." ;;;
        try_except
          (the_trainer ;;; emit EvPushToHub ;;; lift (ce_push env) ;;; emit (EvSleep 1))
          (fun _ => log INFO push_failed_msg)
    | None => ret tt
    end w
    = (Return tt, mkWorld (w_node w) (w_trainer w) (w_trace w ++ evs)).
Proof.
  destruct (push_to_hub_token config).
  - monad_unfold. cbn. destruct (w_trainer w) eqn:Htr; cbn.
    + destruct (ce_push env) as [[]|e]; cbn; rewrite <- ?app_assoc; by eexists.
    + rewrite <- ?app_assoc. by eexists.
  - exists []. destruct w. unfold ret. cbn. by rewrite app_nil_r.
Qed.

Lemma train_stages_outcome_eq env r start_stage c (w : world) :
  (train_stages md5_hexdigest cadence max_fails stage_data config env r start_stage c w).1
  = train_stages_outcome max_fails stage_data env start_stage.
Proof.
  unfold train_stages, train_stages_outcome, set_round_num, cleanup.
  run_binds.
  match goal with
  | |- context [stage_loop _ _ _ _ ?e ?s ?c0 ?l ?i ?w0] =>
      destruct (stage_loop_outcome e s c0 l i w0) as [Ho Hb];
      destruct (stage_loop md5_hexdigest cadence max_fails config e s c0 l i w0)
        as [[[]|e'] w1] eqn:Hloop
  end; cbn [fst snd] in *.
  - specialize (Hb eq_refl).
    rewrite bind_eq. destruct (push_block_returns env w1) as [evs ->].
    run_binds. unfold the_trainer. cbn [w_trainer].
    destruct (slice_from (stages stage_data) start_stage) as [|st rest].
    + subst w1. cbn [w_trainer]. done.
    + rewrite <- Ho. destruct Hb as [t ->]. by run_binds.
  - destruct (slice_from (stages stage_data) start_stage); [discriminate|].
    by rewrite <- Ho.
Qed.

Lemma stages_outcome_ext env env' rest i :
  (forall j, ce_stage env j = ce_stage env' j) ->
  stages_outcome max_fails env rest i = stages_outcome max_fails env' rest i.
Proof.
  intros Hext. revert i. induction rest as [|st rest IH]; intros i; cbn [stages_outcome];
    [done|].
  rewrite Hext. destruct (stage_outcome _ _); [apply IH|done].
Qed.

(** X8. Where none of the module's own calls raises (the pointer store,
    the construction of the trainer, the publisher's stores, the
    persistence of results, cleanup), and with a non-zero cadence, how a
    call of [train_stages] ends is decided by its stages: it raises the
    unbound-local error when no stage is left to run, otherwise the
    exception of the first stage whose datasets cannot be built or whose
    training fails on attempt [max_fails - 1], and it returns when every
    stage succeeds.  The node, the round number, the role flag and the
    result of the push to the hub make no difference: a failed push never
    fails the call. *)
Theorem train_stages_ends_as_its_stages env r start_stage c (w : world) :
  (train_stages (E := no_failures) md5_hexdigest cadence max_fails stage_data config
                env r start_stage c w).1
  = train_stages_outcome max_fails stage_data env start_stage
  /\ (forall push r' c' w',
        (train_stages (E := no_failures) md5_hexdigest cadence max_fails stage_data config
                      (mkCallEnv (ce_stage env) push) r' start_stage c' w').1
        = (train_stages (E := no_failures) md5_hexdigest cadence max_fails stage_data
                        config env r start_stage c w).1).
Proof.
  split; [apply train_stages_outcome_eq|].
  intros push r' c' w'. rewrite !train_stages_outcome_eq. unfold train_stages_outcome.
  destruct (slice_from (stages stage_data) start_stage); [done|].
  by apply stages_outcome_ext.
Qed.
End OutcomeFacts.

Lemma train_stages_ends_as_its_stages_witness :
  CADENCE_OF_UPDATE_STEPS <> 0
  /\ (train_stages demo_digest CADENCE_OF_UPDATE_STEPS MAX_TRAIN_FAILS demo_stage_data
                   demo_config demo_call_env 0 0 true demo_world).1
     = train_stages_outcome MAX_TRAIN_FAILS demo_stage_data demo_call_env 0.
Proof.
  assert (H : CADENCE_OF_UPDATE_STEPS <> 0) by discriminate.
  refine (conj H _).
  exact (proj1 (train_stages_ends_as_its_stages demo_digest CADENCE_OF_UPDATE_STEPS
                  MAX_TRAIN_FAILS demo_stage_data demo_config H demo_call_env 0 0 true
                  demo_world)).
Defined.

(** ** The coordinator loop, round by round *)

Section CoordinatorFacts.
Context {F : FloatOps}.
Variable md5_hexdigest : string -> string.
Variable cadence : Z.
Variable max_fails : nat.
Variable stage_data : StageData.
Variable config : GRPOConfig.
Hypothesis cadence_nonzero : cadence <> 0.

(** One iteration whose loop test passes. *)
Lemma coordinator_loop_step fuel start_time obs iter round (w : world) :
  round < max_rounds stage_data ->
  Qltb (co_now (obs iter) - start_time) (train_timeout stage_data) = true ->
  coordinator_loop md5_hexdigest cadence max_fails stage_data config
                   (S fuel) start_time obs iter round w
  = match train_stages md5_hexdigest cadence max_fails stage_data config
            (co_call (obs iter)) round 0 true
            (mkWorld (w_node w) (w_trainer w)
               (w_trace w ++ [EvLog INFO "Starting new round"; EvVisibleMaddrs])) with
    | (Return _, w') =>
        if round + 1 =? max_rounds stage_data
        then (Return Finished,
              mkWorld (w_node w') (w_trainer w')
                (w_trace w' ++ [EvLog INFO "Coordinator reached max_rounds. Training finished."]))
        else coordinator_loop md5_hexdigest cadence max_fails stage_data config
                              fuel start_time obs (S iter) (round + 1) w'
    | (Raise e, w') => (Raise e, w')
    end.
Proof.
  intros Hr Ht. cbn [coordinator_loop].
  apply Z.ltb_lt in Hr. rewrite Hr, Ht. cbn [andb]. unfold log. run_binds.
  rewrite <- app_assoc. cbn [app].
  destruct (train_stages _ _ _ _ _ _ _ _ _ _) as [[[]|e] w']; [|done].
  destruct (round + 1 =? max_rounds stage_data); [|done]. by run_binds.
Qed.

(** [n] rounds that succeed, none of them the last one. *)
Lemma coordinator_loop_rounds start_time obs (n fuel iter : nat) (round : Z) (w : world) :
  round + Z.of_nat n < max_rounds stage_data ->
  (forall j, (j < n)%nat ->
     round_succeeds max_fails stage_data start_time obs (iter + j)) ->
  exists evs w',
    coordinator_loop md5_hexdigest cadence max_fails stage_data config
                     (n + fuel) start_time obs iter round w
    = coordinator_loop md5_hexdigest cadence max_fails stage_data config
                       fuel start_time obs (iter + n) (round + Z.of_nat n) w'
    /\ w_trace w' = w_trace w ++ evs
    /\ round_writes evs = round_run round n.
Proof.
  revert iter round w. induction n as [|n IH]; intros iter round w Hlt Hok.
  - exists [], w. rewrite Nat.add_0_r, Z.add_0_r, app_nil_r. done.
  - destruct (Hok 0%nat ltac:(lia)) as [Ht Hout]. rewrite Nat.add_0_r in Ht, Hout.
    cbn [Nat.add]. rewrite coordinator_loop_step by (done || lia).
    match goal with
    | |- context [train_stages _ _ _ _ _ ?env ?r ?s ?c ?w0] =>
        pose proof (train_stages_outcome_eq md5_hexdigest cadence max_fails stage_data
                      config cadence_nonzero env r s c w0) as Ho;
        destruct (train_stages_round_writes md5_hexdigest cadence max_fails stage_data
                    config env r s c w0) as (evs1 & Ht1 & Hw1);
        destruct (train_stages md5_hexdigest cadence max_fails stage_data config
                    env r s c w0) as [[[]|e] w1]
    end; cbn [fst snd w_trace] in *; [|congruence].
    destruct (round + 1 =? max_rounds stage_data) eqn:Hlast; [lia|].
    destruct (IH (S iter) (round + 1) w1) as (evs2 & w2 & Heq & Ht2 & Hw2); [lia| |].
    { intros j Hj. replace (S iter + j)%nat with (iter + S j)%nat by lia.
      apply Hok. lia. }
    exists ([EvLog INFO "Starting new round"; EvVisibleMaddrs] ++ evs1 ++ evs2), w2.
    split; [|split].
    + rewrite Heq. f_equal; lia.
    + rewrite Ht2, Ht1. by rewrite <- !app_assoc.
    + rewrite !round_writes_app, Hw1, Hw2, round_run_S. done.
Qed.

(** X9. With a non-zero cadence and a positive [max_rounds], if every round
    starts before the time-out and all its stages succeed,
    [coordinator_train] returns after
    writing the round numbers 0, 1, ..., [max_rounds - 1], each once and in
    this order.  A stage succeeds when its datasets are built and one of
    its training attempts returns; the module's other calls (DHT, trainer
    construction, persistence, cleanup) are taken to return. *)
Theorem coordinator_completes_all_rounds start_time obs (w : world) :
  0 < max_rounds stage_data ->
  (forall i, (i < Z.to_nat (max_rounds stage_data))%nat ->
     round_succeeds max_fails stage_data start_time obs i) ->
  let run := coordinator_train md5_hexdigest cadence max_fails stage_data config
                               start_time obs in
  (run w).1 = Return Finished
  /\ round_writes (events_of run w) = round_run 0 (Z.to_nat (max_rounds stage_data)).
Proof.
  intros Hpos Hok run. subst run. unfold coordinator_train.
  destruct (Z.to_nat (max_rounds stage_data)) as [|n] eqn:Hn; [lia|].
  destruct (coordinator_loop_rounds start_time obs n 1 0 0 w)
    as (evs & w1 & Heq & Ht & Hw); [lia|intros j Hj; apply Hok; lia|].
  replace (S n) with (n + 1)%nat by lia. cbn [Nat.add] in Heq. rewrite Z.add_0_l in Heq.
  destruct (Hok n ltac:(lia)) as [Hin Hout].
  assert (Hrun : exists evs' w',
             coordinator_loop md5_hexdigest cadence max_fails stage_data config
                              (n + 1) start_time obs 0 0 w = (Return Finished, w')
             /\ w_trace w' = w_trace w ++ evs'
             /\ round_writes evs' = round_run 0 (n + 1)).
  { rewrite Heq, coordinator_loop_step by (done || lia).
    match goal with
    | |- context [train_stages _ _ _ _ _ ?env ?r ?s ?c ?w0] =>
        pose proof (train_stages_outcome_eq md5_hexdigest cadence max_fails stage_data
                      config cadence_nonzero env r s c w0) as Ho;
        destruct (train_stages_round_writes md5_hexdigest cadence max_fails stage_data
                    config env r s c w0) as (evs1 & Ht1 & Hw1);
        destruct (train_stages md5_hexdigest cadence max_fails stage_data config
                    env r s c w0) as [[[]|e] w2]
    end; cbn [fst snd w_trace] in *; [|congruence].
    destruct (Z.of_nat n + 1 =? max_rounds stage_data) eqn:Hlast; [|lia].
    eexists _, _. split; [reflexivity|]. cbn [w_trace]. split.
    - rewrite Ht1, Ht, <- !app_assoc. reflexivity.
    - rewrite !round_writes_app, Hw, Hw1. cbn -[round_run Z.add Z.of_nat].
      unfold round_run. rewrite Nat.add_1_r, seq_S, fmap_app. done. }
  destruct Hrun as (evs' & w' & Hrun & Ht' & Hw').
  rewrite (events_of_eq _ _ evs') by (by rewrite Hrun). by rewrite Hrun.
Qed.

(** X10. The coordinator has no handler of its own: with a non-zero
    cadence, when round [k] is the first whose stage sequence raises (it
    started in time, as the rounds before it, which succeeded), [train] on a
    coordinator node raises
    that same exception, the rounds written are 0, ..., [k] and no later
    round is started, and the last thing done is to log the error.  The
    module's other calls (DHT, trainer construction, persistence, cleanup)
    are taken to return. *)
Theorem coordinator_failure_ends_training start_time obs follower_view
    (k : nat) (e : exn) (w : world) :
  is_coordinator (w_node w) = true ->
  Z.of_nat k < max_rounds stage_data ->
  (forall i, (i < k)%nat -> round_succeeds max_fails stage_data start_time obs i) ->
  Qltb (co_now (obs k) - start_time) (train_timeout stage_data) = true ->
  train_stages_outcome max_fails stage_data (co_call (obs k)) 0 = Raise e ->
  let run := train md5_hexdigest cadence max_fails stage_data config
                   start_time obs follower_view in
  (run w).1 = Raise e
  /\ round_writes (events_of run w) = round_run 0 (S k)
  /\ last (events_of run w) = Some (EvLog ERROR "Encountered error during training!").
Proof.
  intros Hco Hk Hok Hin Hout run. subst run.
  destruct (coordinator_loop_rounds start_time obs k
              (Z.to_nat (max_rounds stage_data) - k) 0 0 w)
    as (evs & w1 & Heq & Ht & Hw); [lia|done|].
  replace (k + (Z.to_nat (max_rounds stage_data) - k))%nat
    with (Z.to_nat (max_rounds stage_data)) in Heq by lia.
  cbn [Nat.add] in Heq. rewrite Z.add_0_l in Heq.
  assert (Hrun : exists evs' w',
             train md5_hexdigest cadence max_fails stage_data config
                   start_time obs follower_view w = (Raise e, w')
             /\ w_trace w' = w_trace w ++ evs'
             /\ round_writes evs' = round_run 0 (S k)
             /\ last evs' = Some (EvLog ERROR "Encountered error during training!")).
  { unfold train, try_except, _train, coordinator_train. rewrite bind_eq.
    cbn [get_node]. rewrite Hco, bind_eq, Heq.
    destruct (Z.to_nat (max_rounds stage_data) - k)%nat as [|fuel] eqn:Hfuel; [lia|].
    rewrite coordinator_loop_step by (done || lia).
    match goal with
    | |- context [train_stages _ _ _ _ _ ?env ?r ?s ?c ?w0] =>
        pose proof (train_stages_outcome_eq md5_hexdigest cadence max_fails stage_data
                      config cadence_nonzero env r s c w0) as Ho;
        destruct (train_stages_round_writes md5_hexdigest cadence max_fails stage_data
                    config env r s c w0) as (evs1 & Ht1 & Hw1);
        destruct (train_stages md5_hexdigest cadence max_fails stage_data config
                    env r s c w0) as [[[]|e'] w2]
    end; cbn [fst snd w_trace] in *; [congruence|].
    assert (e' = e) as -> by congruence.
    unfold log. run_binds. eexists _, _. split; [reflexivity|]. cbn [w_trace]. split; [|split].
    - rewrite Ht1, Ht, <- !app_assoc. reflexivity.
    - rewrite !round_writes_app, Hw, Hw1. cbn -[round_run Z.add Z.of_nat].
      unfold round_run. rewrite seq_S, fmap_app. done.
    - rewrite !app_assoc. by rewrite last_snoc. }
  destruct Hrun as (evs' & w' & Hrun & Ht' & Hw' & Hl').
  rewrite (events_of_eq _ _ evs') by (by rewrite Hrun). by rewrite Hrun.
Qed.

(** X11. The coordinator reads the clock only in the loop test: with a
    non-zero cadence, if [k] rounds have succeeded, more rounds remain and
    the time-out has passed
    when round [k] is due, [coordinator_train] returns after logging the
    time-out, with the rounds 0, ..., [k - 1] written and no other.  The
    module's other calls (DHT, trainer construction, persistence, cleanup)
    are taken to return. *)
Theorem coordinator_times_out_between_rounds start_time obs (k : nat) (w : world) :
  Z.of_nat k < max_rounds stage_data ->
  (forall i, (i < k)%nat -> round_succeeds max_fails stage_data start_time obs i) ->
  Qltb (co_now (obs k) - start_time) (train_timeout stage_data) = false ->
  let run := coordinator_train md5_hexdigest cadence max_fails stage_data config
                               start_time obs in
  (run w).1 = Return TimedOut
  /\ round_writes (events_of run w) = round_run 0 k
  /\ last (events_of run w) = Some (EvLog INFO "Training timed out for coordinator!").
Proof.
  intros Hk Hok Hlate run. subst run. unfold coordinator_train.
  destruct (coordinator_loop_rounds start_time obs k
              (Z.to_nat (max_rounds stage_data) - k) 0 0 w)
    as (evs & w1 & Heq & Ht & Hw); [lia|done|].
  replace (k + (Z.to_nat (max_rounds stage_data) - k))%nat
    with (Z.to_nat (max_rounds stage_data)) in Heq by lia.
  cbn [Nat.add] in Heq. rewrite Z.add_0_l in Heq.
  assert (Hrun : exists evs' w',
             coordinator_loop md5_hexdigest cadence max_fails stage_data config
               (Z.to_nat (max_rounds stage_data)) start_time obs 0 0 w
             = (Return TimedOut, w')
             /\ w_trace w' = w_trace w ++ evs'
             /\ round_writes evs' = round_run 0 k
             /\ last evs' = Some (EvLog INFO "Training timed out for coordinator!")).
  { rewrite Heq.
    destruct (Z.to_nat (max_rounds stage_data) - k)%nat as [|fuel];
      cbn [coordinator_loop]; rewrite Hlate, andb_false_r; unfold log; run_binds;
      (eexists _, _; split; [reflexivity|]; cbn [w_trace]; split; [|split];
       [ rewrite Ht, <- !app_assoc; reflexivity
       | rewrite !round_writes_app, Hw; cbn -[round_run]; by rewrite app_nil_r
       | by rewrite last_snoc ]). }
  destruct Hrun as (evs' & w' & Hrun & Ht' & Hw' & Hl').
  rewrite (events_of_eq _ _ evs') by (by rewrite Hrun). by rewrite Hrun.
Qed.
End CoordinatorFacts.

Lemma coordinator_completes_all_rounds_witness :
  let run := coordinator_train demo_digest CADENCE_OF_UPDATE_STEPS MAX_TRAIN_FAILS
               demo_stage_data demo_config 0%Q demo_coordinator_obs in
  CADENCE_OF_UPDATE_STEPS <> 0
  /\ 0 < max_rounds demo_stage_data
  /\ (forall i, (i < Z.to_nat (max_rounds demo_stage_data))%nat ->
        round_succeeds MAX_TRAIN_FAILS demo_stage_data 0%Q demo_coordinator_obs i)
  /\ (run demo_world).1 = Return Finished
  /\ round_writes (events_of run demo_world) = [0; 1].
Proof.
  intros run.
  assert (H1 : CADENCE_OF_UPDATE_STEPS <> 0) by discriminate.
  assert (H2 : 0 < max_rounds demo_stage_data) by reflexivity.
  assert (H3 : forall i, (i < Z.to_nat (max_rounds demo_stage_data))%nat ->
            round_succeeds MAX_TRAIN_FAILS demo_stage_data 0%Q demo_coordinator_obs i)
    by (intros i _; split; reflexivity).
  refine (conj H1 (conj H2 (conj H3 _))).
  exact (coordinator_completes_all_rounds demo_digest CADENCE_OF_UPDATE_STEPS
           MAX_TRAIN_FAILS demo_stage_data demo_config H1 0%Q demo_coordinator_obs
           demo_world H2 H3).
Defined.

Lemma coordinator_failure_ends_training_witness :
  let run := train demo_digest CADENCE_OF_UPDATE_STEPS MAX_TRAIN_FAILS
               demo_stage_data demo_config 0%Q failing_round_obs [] in
  CADENCE_OF_UPDATE_STEPS <> 0
  /\ is_coordinator (w_node demo_world) = true
  /\ Z.of_nat 1 < max_rounds demo_stage_data
  /\ (forall i, (i < 1)%nat ->
        round_succeeds MAX_TRAIN_FAILS demo_stage_data 0%Q failing_round_obs i)
  /\ Qltb (co_now (failing_round_obs 1) - 0) (train_timeout demo_stage_data) = true
  /\ train_stages_outcome MAX_TRAIN_FAILS demo_stage_data (co_call (failing_round_obs 1)) 0
     = Raise DatasetGenerationError
  /\ (run demo_world).1 = Raise DatasetGenerationError
  /\ round_writes (events_of run demo_world) = [0; 1]
  /\ last (events_of run demo_world)
     = Some (EvLog ERROR "Encountered error during training!").
Proof.
  intros run.
  assert (H1 : CADENCE_OF_UPDATE_STEPS <> 0) by discriminate.
  assert (H2 : is_coordinator (w_node demo_world) = true) by reflexivity.
  assert (H3 : Z.of_nat 1 < max_rounds demo_stage_data) by reflexivity.
  assert (H4 : forall i, (i < 1)%nat ->
            round_succeeds MAX_TRAIN_FAILS demo_stage_data 0%Q failing_round_obs i).
  { intros i Hi. assert (i = 0%nat) as -> by lia. split; reflexivity. }
  assert (H5 : Qltb (co_now (failing_round_obs 1) - 0) (train_timeout demo_stage_data)
               = true) by reflexivity.
  assert (H6 : train_stages_outcome MAX_TRAIN_FAILS demo_stage_data
                 (co_call (failing_round_obs 1)) 0 = Raise DatasetGenerationError)
    by reflexivity.
  refine (conj H1 (conj H2 (conj H3 (conj H4 (conj H5 (conj H6 _)))))).
  exact (coordinator_failure_ends_training demo_digest CADENCE_OF_UPDATE_STEPS
           MAX_TRAIN_FAILS demo_stage_data demo_config H1 0%Q failing_round_obs []
           1%nat DatasetGenerationError demo_world H2 H3 H4 H5 H6).
Defined.

Lemma coordinator_times_out_between_rounds_witness :
  let run := coordinator_train demo_digest CADENCE_OF_UPDATE_STEPS MAX_TRAIN_FAILS
               demo_stage_data demo_config 0%Q late_round_obs in
  CADENCE_OF_UPDATE_STEPS <> 0
  /\ Z.of_nat 1 < max_rounds demo_stage_data
  /\ (forall i, (i < 1)%nat ->
        round_succeeds MAX_TRAIN_FAILS demo_stage_data 0%Q late_round_obs i)
  /\ Qltb (co_now (late_round_obs 1) - 0) (train_timeout demo_stage_data) = false
  /\ (run demo_world).1 = Return TimedOut
  /\ round_writes (events_of run demo_world) = [0]
  /\ last (events_of run demo_world)
     = Some (EvLog INFO "Training timed out for coordinator!").
Proof.
  intros run.
  assert (H1 : CADENCE_OF_UPDATE_STEPS <> 0) by discriminate.
  assert (H3 : Z.of_nat 1 < max_rounds demo_stage_data) by reflexivity.
  assert (H4 : forall i, (i < 1)%nat ->
            round_succeeds MAX_TRAIN_FAILS demo_stage_data 0%Q late_round_obs i).
  { intros i Hi. assert (i = 0%nat) as -> by lia. split; reflexivity. }
  assert (H5 : Qltb (co_now (late_round_obs 1) - 0) (train_timeout demo_stage_data)
               = false) by reflexivity.
  refine (conj H1 (conj H3 (conj H4 (conj H5 _)))).
  exact (coordinator_times_out_between_rounds demo_digest CADENCE_OF_UPDATE_STEPS
           MAX_TRAIN_FAILS demo_stage_data demo_config H1 0%Q late_round_obs
           1%nat demo_world H3 H4 H5).
Defined.

(** X12. The coordinator loop runs at most [max_rounds] iterations: whatever
    the clock and the training do, [coordinator_train] has returned, timed
    out or raised by then, so the [max_rounds] iterations it is given always
    suffice. *)
Theorem coordinator_train_always_exits {F : FloatOps} {E : Environment}
    md5_hexdigest cadence max_fails stage_data config
    start_time obs (w : world) :
  (coordinator_train md5_hexdigest cadence max_fails stage_data config start_time obs w).1
  <> Return StillRunning.
Proof.
  unfold coordinator_train.
  assert (H : forall fuel iter round w0,
             max_rounds stage_data - round <= Z.of_nat fuel ->
             (coordinator_loop md5_hexdigest cadence max_fails stage_data config
                               fuel start_time obs iter round w0).1
             <> Return StillRunning); [|apply H; lia].
  induction fuel as [|fuel IH]; intros iter round w0 Hfuel; cbn [coordinator_loop];
    destruct (round <? max_rounds stage_data) eqn:Hr; cbn [andb];
    try destruct (Qltb _ _); unfold log;
    repeat first [progress cbn [emit ret fst] | rewrite bind_eq];
    try discriminate; try lia.
  unfold call at 1. destruct (fails _ EvVisibleMaddrs); [discriminate|].
  cbn [emit]. rewrite bind_eq.
  destruct (train_stages _ _ _ _ _ _ _ _ _ _) as [[[]|e] w1]; [|discriminate].
  destruct (round + 1 =? max_rounds stage_data); [run_binds; discriminate|].
  apply IH. lia.
Qed.

(** ** The follower loop, pass by pass *)

Section FollowerReturns.
Context {F : FloatOps}.
Variable md5_hexdigest : string -> string.
Variable cadence : Z.
Variable max_fails : nat.
Variable stage_data : StageData.
Variable config : GRPOConfig.
Variables (check_interval log_timeout max_check_interval : Q).
Hypothesis cadence_nonzero : cadence <> 0.

Lemma join_round_returns obs r stage st (w : world) :
  (0 < stage -> train_stages_outcome max_fails stage_data (fo_restart obs) 0 = Return tt) ->
  exists w',
    join_round md5_hexdigest cadence max_fails stage_data config check_interval
               obs r stage st w
    = (Return (mkFollowerState ({[r]} ∪ done_rounds st) (fetch_log_time st)
                               check_interval), w').
Proof.
  intros Hre. rewrite join_round_eq. cbv zeta.
  destruct (train_stages _ _ _ _ _ (fo_first obs) r stage false _) as [[[]|e] w1];
    [by eexists|].
  destruct (is_dataset_generation_error e); [|by eexists].
  destruct (0 <? stage) eqn:Hs; [|by eexists].
  match goal with
  | |- context [train_stages _ _ _ _ _ ?env ?r0 ?s ?c ?w0] =>
      pose proof (train_stages_outcome_eq md5_hexdigest cadence max_fails stage_data
                    config cadence_nonzero env r0 s c w0) as Ho;
      destruct (train_stages md5_hexdigest cadence max_fails stage_data config
                  env r0 s c w0) as [[[]|e'] w2]
  end; cbn [fst] in Ho; [by eexists|].
  rewrite Hre in Ho by lia. discriminate.
Qed.

(** X14. A follower that reads, before the time-out, a round number of at
    least [max_rounds - 1] from the pointer exits after that pass, whether
    it has just trained the round, failed to train it or had already done
    it (non-zero cadence; a restart, if one is made, succeeds), and looks at
    no later observation; the last thing it does is to log the exit.  The
    module's other calls (DHT, trainer construction, persistence, cleanup)
    are taken to return. *)
Theorem follower_exits_after_final_round start_time obs rest st (r s : Z) (w : world) :
  Qltb (fo_now_guard obs - start_time) (train_timeout stage_data) = true ->
  fo_fetched obs = Return (Some r, Some s) ->
  max_rounds stage_data - 1 <= r ->
  restart_cannot_fail max_fails stage_data obs ->
  let run := follower_loop md5_hexdigest cadence max_fails stage_data config
               check_interval log_timeout max_check_interval start_time (obs :: rest) st in
  (run w).1 = Return FollowerFinished
  /\ last (w_trace (run w).2)
     = Some (EvLog INFO "Follower has attempted/finished the final round. Exiting training process.").
Proof.
  intros Hg Hf Hr Hre run. subst run. cbn [follower_loop]. rewrite Hg, bind_eq.
  unfold follower_body. cbv zeta. run_binds. rewrite Hf, bind_eq.
  apply Z.leb_le in Hr.
  destruct (bool_decide (r ∈ done_rounds st)).
  - unfold already_done, log. destruct (Qltb log_timeout _). all: run_binds. all: rewrite Hr. all: run_binds.
      all: cbn [ret fst snd w_trace]. all: by rewrite last_snoc.
  - edestruct (join_round_returns obs r s st) as [w' ->].
    { intros Hs. by apply (Hre r s). }
    rewrite Hr. unfold log. run_binds. cbn [ret fst snd w_trace]. by rewrite last_snoc.
Qed.
End FollowerReturns.

(** ** How an exception leaves the follower loop *)

Section FollowerRaises.
Context {F : FloatOps} {E : Environment}.
Variable md5_hexdigest : string -> string.
Variable cadence : Z.
Variable max_fails : nat.
Variable stage_data : StageData.
Variable config : GRPOConfig.
Variables (check_interval log_timeout max_check_interval : Q).

End FollowerRaises.


Section FollowerPolls.
Context {F : FloatOps}.
Variable md5_hexdigest : string -> string.
Variable cadence : Z.
Variable max_fails : nat.
Variable stage_data : StageData.
Variable config : GRPOConfig.
Variables (check_interval log_timeout max_check_interval : Q).



End FollowerPolls.

(** *** No round is trained again once it is marked done *)

Lemma events_of_ret {A} (a : A) (w : world) : events_of (ret a) w = [].
Proof. unfold events_of, ret. cbn. by rewrite drop_all. Qed.

Lemma events_of_bind {A B} (m : M A) (f : A -> M B) (w : world) :
  (exists evs, w_trace (m w).2 = w_trace w ++ evs) ->
  (forall a w1, exists evs, w_trace (f a w1).2 = w_trace w1 ++ evs) ->
  events_of (bind m f) w
  = events_of m w ++ match m w with
                     | (Return a, w1) => events_of (f a) w1
                     | (Raise _, _) => []
                     end.
Proof.
  intros [evs Ht] Hf. unfold events_of. rewrite bind_eq.
  destruct (m w) as [[a|e] w1]; cbn [fst snd] in *.
  - destruct (Hf a w1) as [evs2 Ht2].
    rewrite Ht2, Ht, (drop_app_length (w_trace w ++ evs)).
    by rewrite <- app_assoc, !drop_app_length.
  - by rewrite app_nil_r.
Qed.

Section FollowerRounds.
Context {F : FloatOps} {E : Environment}.
Variable md5_hexdigest : string -> string.
Variable cadence : Z.
Variable max_fails : nat.
Variable stage_data : StageData.
Variable config : GRPOConfig.
Variables (check_interval log_timeout max_check_interval : Q).

Lemma join_round_grows obs r stage st (w : world) :
  exists evs,
    w_trace (join_round md5_hexdigest cadence max_fails stage_data config
                        check_interval obs r stage st w).2 = w_trace w ++ evs.
Proof.
  destruct (keeps_join_round (fun _ => True) (fun _ => True) (fun _ => True))
    with (w := w) (md5_hexdigest := md5_hexdigest) (cadence := cadence)
         (max_fails := max_fails) (stage_data := stage_data) (config := config)
         (check_interval := check_interval) (obs := obs) (r := r) (stage := stage)
         (st := st)
    as (_ & evs & Ht & _); try done.
  by exists evs.
Qed.

Lemma follower_body_grows obs st (w : world) :
  exists evs,
    w_trace (follower_body md5_hexdigest cadence max_fails stage_data config
               check_interval log_timeout max_check_interval obs st w).2
    = w_trace w ++ evs.
Proof.
  destruct (keeps_follower_body (fun _ => True) (fun _ => True) (fun _ => True))
    with (w := w) (md5_hexdigest := md5_hexdigest) (cadence := cadence)
         (max_fails := max_fails) (stage_data := stage_data) (config := config)
         (check_interval := check_interval) (log_timeout := log_timeout)
         (max_check_interval := max_check_interval) (obs := obs) (st := st)
    as (_ & evs & Ht & _); try done.
  by exists evs.
Qed.

Lemma follower_loop_grows start_time obss st (w : world) :
  exists evs,
    w_trace (follower_loop md5_hexdigest cadence max_fails stage_data config
               check_interval log_timeout max_check_interval start_time obss st w).2
    = w_trace w ++ evs.
Proof.
  destruct (keeps_follower_loop (fun _ => True) (fun _ => True) (fun _ => True))
    with (w := w) (md5_hexdigest := md5_hexdigest) (cadence := cadence)
         (max_fails := max_fails) (stage_data := stage_data) (config := config)
         (check_interval := check_interval) (log_timeout := log_timeout)
         (max_check_interval := max_check_interval) (start_time := start_time)
         (obss := obss) (st := st)
    as (_ & evs & Ht & _); try done.
  by exists evs.
Qed.

(** One pass of the loop body either starts no round and leaves
    [done_rounds] alone, or starts a round that is not yet done, once or
    twice, and marks it. *)
Lemma follower_body_rounds obs st (w : world) :
  let body := follower_body md5_hexdigest cadence max_fails stage_data config
                check_interval log_timeout max_check_interval obs st in
  (round_writes (events_of body w) = []
   /\ forall st' w1, body w = (Return (Continue st'), w1) ->
        done_rounds st' = done_rounds st)
  \/ (exists r,
        (r ∉ done_rounds st)
        /\ (round_writes (events_of body w) = [r]
            \/ round_writes (events_of body w) = [r; r])
        /\ forall st' w1, body w = (Return (Continue st'), w1) ->
             done_rounds st' = {[r]} ∪ done_rounds st).
Proof.
  intros body. subst body.
  destruct (fails (w_trace w) EvVisibleMaddrs) as [x|] eqn:Hcall.
  { assert (Hb : follower_body md5_hexdigest cadence max_fails stage_data config
                   check_interval log_timeout max_check_interval obs st w
                 = (Raise x, w)).
    { unfold follower_body. rewrite bind_eq. unfold call. by rewrite Hcall. }
    left. rewrite (events_of_eq _ _ []) by (rewrite Hb; cbn; by rewrite app_nil_r).
    split; [done|]. intros st' w1. rewrite Hb. discriminate. }
  set (w0 := mkWorld (w_node w) (w_trainer w) (w_trace w ++ [EvVisibleMaddrs])).
  destruct (fo_fetched obs) as [[[r|] [s|]]|e] eqn:Hf.
  2-5: left;
       assert (Hb : follower_body md5_hexdigest cadence max_fails stage_data config
                      check_interval log_timeout max_check_interval obs st w
                    = could_not_fetch check_interval log_timeout (fo_now obs) st w0)
         by (unfold follower_body; rewrite bind_eq; unfold call;
             rewrite Hcall, Hf; reflexivity);
       rewrite Hb; unfold could_not_fetch, log; subst w0;
       destruct (Qltb log_timeout (fo_now obs - fetch_log_time st)) eqn:Hlt; run_binds;
       (split; [|by intros st' w1 [= <- _]]);
       (erewrite events_of_eq;
         [|rewrite Hb; unfold could_not_fetch, log; rewrite ?Hlt; run_binds;
           cbn [ret snd w_trace]; rewrite <- !app_assoc; reflexivity]); done.
  assert (Hbody : follower_body md5_hexdigest cadence max_fails stage_data config
                    check_interval log_timeout max_check_interval obs st w
                  = (st' <- (if bool_decide (r ∈ done_rounds st)
                             then already_done log_timeout max_check_interval (fo_now obs) st
                             else join_round md5_hexdigest cadence max_fails stage_data
                                    config check_interval obs r s st) ;;
                     if max_rounds stage_data - 1 <=? r
                     then log INFO "Follower has attempted/finished the final round. Exiting training process." ;;;
                          ret Exit
                     else ret (Continue st')) w0).
  { unfold follower_body. rewrite bind_eq. unfold call. by rewrite Hcall, Hf. }
  destruct (bool_decide (r ∈ done_rounds st)) eqn:Hin.
  - left. rewrite Hbody. unfold already_done, log. subst w0.
    destruct (Qltb log_timeout (fo_now obs - fetch_log_time st)) eqn:Hlt;
      destruct (max_rounds stage_data - 1 <=? r) eqn:Hlast; run_binds;
      (split; [|intros st' w1 [= <- _]; done || discriminate]);
      (erewrite events_of_eq;
        [|rewrite Hbody; unfold already_done, log; rewrite ?Hlt; run_binds;
          cbn [ret snd w_trace]; rewrite <- !app_assoc; reflexivity]); done.
  - right. exists r. apply bool_decide_eq_false in Hin. split; [done|].
    pose proof (join_round_round_writes md5_hexdigest cadence max_fails stage_data config
                  check_interval obs r s st w0) as Hjw. cbv zeta in Hjw.
    destruct (join_round_grows obs r s st w0) as [evj Htj].
    rewrite (events_of_eq _ _ evj Htj) in Hjw.
    assert (Hw : round_writes evj = [r] \/ round_writes evj = [r; r]).
    { rewrite Hjw. destruct (train_stages _ _ _ _ _ _ _ _ _ _).1 as [[]|e]; auto.
      destruct (_ && _); auto. }
    clear Hjw.
    pose proof (join_round_resets_backoff md5_hexdigest cadence max_fails stage_data config
                  check_interval obs r s st w0) as Hjd.
    rewrite Hbody, bind_eq.
    destruct (join_round _ _ _ _ _ _ _ _ _ _ w0) as [[st1|e] w1] eqn:Hj;
      cbn [fst snd] in *.
    + destruct (Hjd st1 eq_refl) as [_ Hd1]. unfold log.
      destruct (_ <=? _) eqn:Hlast; run_binds;
        (split; [|intros st' w2 [= <- _]; done || discriminate]).
      * rewrite (events_of_eq _ _ (EvVisibleMaddrs :: evj ++ [EvLog INFO "Follower has attempted/finished the final round. Exiting training process."])).
        2:{ rewrite Hbody, bind_eq, Hj. unfold log. run_binds. cbn [ret snd w_trace].
            rewrite Htj. subst w0. cbn [w_trace]. by rewrite <- !app_assoc. }
        change (round_writes (EvVisibleMaddrs :: ?l)) with (round_writes l).
        rewrite round_writes_app. cbn. by rewrite app_nil_r.
      * rewrite (events_of_eq _ _ (EvVisibleMaddrs :: evj)).
        2:{ rewrite Hbody, bind_eq, Hj. cbn [ret snd w_trace].
            rewrite Htj. subst w0. cbn [w_trace]. by rewrite <- !app_assoc. }
        done.
    + split; [|discriminate].
      rewrite (events_of_eq _ _ (EvVisibleMaddrs :: evj)).
      2:{ rewrite Hbody, bind_eq, Hj.
          cbn [snd]. rewrite Htj. subst w0. cbn [w_trace]. by rewrite <- !app_assoc. }
      done.
Qed.
Lemma follower_loop_rounds start_time obss st (w : world) (r : Z) :
  let evs := events_of (follower_loop md5_hexdigest cadence max_fails stage_data config
                          check_interval log_timeout max_check_interval
                          start_time obss st) w in
  (count_occ Z.eq_dec (round_writes evs) r <= 2)%nat
  /\ (r ∈ done_rounds st -> count_occ Z.eq_dec (round_writes evs) r = 0%nat).
Proof.
  cbv zeta. revert st w. induction obss as [|obs rest IH]; intros st w;
    cbn [follower_loop].
  - rewrite events_of_ret. cbn. split; [lia|done].
  - destruct (Qltb _ _).
    2:{ erewrite events_of_eq; [|unfold log; run_binds; reflexivity]. cbn.
        split; [lia|done]. }
    rewrite events_of_bind.
    2:{ apply follower_body_grows. }
    2:{ intros [st'|] w1; [apply follower_loop_grows|]. exists []. cbn.
        by rewrite app_nil_r. }
    rewrite round_writes_app, count_occ_app.
    pose proof (follower_body_rounds obs st w) as Hbody. cbv zeta in Hbody.
    set (body := follower_body md5_hexdigest cadence max_fails stage_data config
                   check_interval log_timeout max_check_interval obs st) in *.
    set (tail := match body w with
                 | (Return (Continue st'), w1) =>
                     events_of (follower_loop md5_hexdigest cadence max_fails stage_data
                                  config check_interval log_timeout max_check_interval
                                  start_time rest st') w1
                 | _ => []
                 end).
    assert (Htail : match body w with
                    | (Return a, w1) =>
                        events_of match a with
                                  | Continue st' =>
                                      follower_loop md5_hexdigest cadence max_fails
                                        stage_data config check_interval log_timeout
                                        max_check_interval start_time rest st'
                                  | Exit => ret FollowerFinished
                                  end w1
                    | (Raise _, _) => []
                    end = tail).
    { subst tail. destruct (body w) as [[[st'|]|e] w1]; try done. apply events_of_ret. }
    rewrite Htail. clear Htail.
    assert (Hrest : forall d,
              (forall st' w1, body w = (Return (Continue st'), w1) -> done_rounds st' = d) ->
              (count_occ Z.eq_dec (round_writes tail) r <= 2)%nat
              /\ (r ∈ d -> count_occ Z.eq_dec (round_writes tail) r = 0%nat)).
    { intros d Hd. subst tail. destruct (body w) as [[[st'|]|e] w1].
      - rewrite <- (Hd st' w1 eq_refl). apply IH.
      - cbn. split; [lia|done].
      - cbn. split; [lia|done]. }
    destruct Hbody as [[Hnil Hd] | (r0 & Hnot & Hw & Hd)].
    + rewrite Hnil. cbn [count_occ Nat.add]. by apply Hrest.
    + destruct (Hrest _ Hd) as [Hle Hzero].
      destruct (decide (r = r0)) as [->|Hne].
      * rewrite Hzero by (apply elem_of_union; left; by apply elem_of_singleton).
        split; [|done].
        destruct Hw as [-> | ->]; cbn; repeat destruct (Z.eq_dec _ _); lia.
      * assert (Hb0 : count_occ Z.eq_dec
                        (round_writes (events_of body w)) r = 0%nat).
        { destruct Hw as [-> | ->]; cbn; repeat destruct (Z.eq_dec _ _); congruence. }
        rewrite Hb0. cbn [Nat.add]. split; [done|].
        intros Hin. apply Hzero. apply elem_of_union. by right.
Qed.

(** X16. Through a whole run of [follower_train], any round number is
    written at most twice, that is, the stage sequence of a round is started
    once on joining and at most once more by the restart: a round marked
    done is never trained again, however often the pointer shows it. *)
Theorem follower_trains_a_round_at_most_twice start_time obss (w : world) (r : Z) :
  (count_occ Z.eq_dec
     (round_writes (events_of (follower_train md5_hexdigest cadence max_fails stage_data
                                 config check_interval log_timeout max_check_interval
                                 start_time obss) w)) r <= 2)%nat.
Proof. unfold follower_train. apply follower_loop_rounds. Qed.
End FollowerRounds.

Lemma follower_exits_after_final_round_witness :
  let st := mkFollowerState ∅ 0%Q 5%Q in
  let run := follower_loop demo_digest CADENCE_OF_UPDATE_STEPS MAX_TRAIN_FAILS
               three_stage_data demo_config 5%Q 10%Q 300%Q 0%Q
               [final_round_obs; seen_obs] st in
  CADENCE_OF_UPDATE_STEPS <> 0
  /\ Qltb (fo_now_guard final_round_obs - 0) (train_timeout three_stage_data) = true
  /\ fo_fetched final_round_obs = Return (Some 9, Some 0)
  /\ max_rounds three_stage_data - 1 <= 9
  /\ restart_cannot_fail MAX_TRAIN_FAILS three_stage_data final_round_obs
  /\ (run follower_world).1 = Return FollowerFinished
  /\ last (w_trace (run follower_world).2)
     = Some (EvLog INFO "Follower has attempted/finished the final round. Exiting training process.").
Proof.
  intros st run.
  assert (H1 : CADENCE_OF_UPDATE_STEPS <> 0) by discriminate.
  assert (H2 : Qltb (fo_now_guard final_round_obs - 0) (train_timeout three_stage_data)
               = true) by reflexivity.
  assert (H3 : fo_fetched final_round_obs = Return (Some 9, Some 0)) by reflexivity.
  assert (H4 : max_rounds three_stage_data - 1 <= 9) by (cbn; lia).
  assert (H5 : restart_cannot_fail MAX_TRAIN_FAILS three_stage_data final_round_obs).
  { intros r s [= <- <-] Hs. lia. }
  refine (conj H1 (conj H2 (conj H3 (conj H4 (conj H5 _))))).
  exact (follower_exits_after_final_round demo_digest CADENCE_OF_UPDATE_STEPS
           MAX_TRAIN_FAILS three_stage_data demo_config 5%Q 10%Q 300%Q H1 0%Q
           final_round_obs [seen_obs] st 9 0 follower_world H2 H3 H4 H5).
Defined.



(** ** The published pointer *)

Lemma neither_pointer_nor_write (evs : list event) :
  Forall (fun e => is_pointer_store e = false /\ is_write e = false) evs ->
  filter is_pointer_store evs = [] /\ writes evs = [].
Proof.
  unfold writes. induction 1 as [|e evs [Hp Hw] _ [IH1 IH2]]; [done|].
  rewrite !filter_cons, Hp, Hw. done.
Qed.

Lemma pointer_stores_S env nd s (i k : nat) :
  pointer_stores env nd s i (S k)
  = EvStore ROUND_STAGE_NUMBER_KEY None (VRoundStage (round_num nd) (s + Z.of_nat i))
            (se_dht_time (ce_stage env i) + out_expiration nd)%Q
    :: pointer_stores env nd s (S i) k.
Proof.
  unfold pointer_stores. cbn [seq fmap list_fmap]. rewrite Nat.add_0_r. f_equal.
  rewrite <- seq_shift, <- list_fmap_compose. apply list_fmap_ext.
  intros _ j _. cbn. by replace (i + S j)%nat with (S (i + j))%nat by lia.
Qed.

Section PointerFacts.
Context {F : FloatOps}.
Variable md5_hexdigest : string -> string.
Variable cadence : Z.
Variable max_fails : nat.
Variable stage_data : StageData.
Variable config : GRPOConfig.

Lemma stage_body_eq env start_stage c (i : nat) :
  stage_body md5_hexdigest cadence max_fails config env start_stage c i
  = (set_stage_num (start_stage + Z.of_nat i) ;;;
     nd <- get_node ;;
     (if c
      then emit (EvStore ROUND_STAGE_NUMBER_KEY None
                         (VRoundStage (round_num nd) (start_stage + Z.of_nat i))
                         (se_dht_time (ce_stage env i) + out_expiration nd)%Q)
      else ret tt) ;;;
     stage_rest md5_hexdigest cadence max_fails config env i).
Proof. reflexivity. Qed.

(** Training a stage leaves the round number and the expiration alone,
    stores no pointer and writes no round or stage number. *)
Lemma stage_rest_silent env i (w : world) :
  exists evs,
    w_trace (stage_rest md5_hexdigest cadence max_fails config env i w).2 = w_trace w ++ evs
    /\ round_num (w_node (stage_rest md5_hexdigest cadence max_fails config env i w).2)
       = round_num (w_node w)
    /\ out_expiration (w_node (stage_rest md5_hexdigest cadence max_fails config env i w).2)
       = out_expiration (w_node w)
    /\ filter is_pointer_store evs = [] /\ writes evs = [].
Proof.
  set (same := fun nd => round_num nd = round_num (w_node w)
                         /\ out_expiration nd = out_expiration (w_node w)).
  destruct (keeps_stage_rest (fun w0 => same (w_node w0)) same
              (fun e => is_pointer_store e = false /\ is_write e = false))
    with (w := w) (md5_hexdigest := md5_hexdigest) (cadence := cadence)
         (max_fails := max_fails) (config := config) (env := env) (i := i)
    as ([Hr Hx] & evs & Ht & HP).
  all: try done.
  all: try by_event.
  exists evs. by destruct (neither_pointer_nor_write evs HP).
Qed.

Lemma stage_body_pointer env start_stage c (i : nat) (w : world) :
  exists evs,
    w_trace (stage_body md5_hexdigest cadence max_fails config env start_stage c i w).2
    = w_trace w ++ evs
    /\ round_num (w_node (stage_body md5_hexdigest cadence max_fails config env
                                     start_stage c i w).2) = round_num (w_node w)
    /\ out_expiration (w_node (stage_body md5_hexdigest cadence max_fails config env
                                          start_stage c i w).2)
       = out_expiration (w_node w)
    /\ writes evs = stage_run start_stage i 1
    /\ filter is_pointer_store evs
       = if c then pointer_stores env (w_node w) start_stage i 1 else [].
Proof.
  rewrite stage_body_eq. unfold set_stage_num. run_binds.
  destruct c; run_binds;
    match goal with
    | |- context [stage_rest _ _ _ _ ?e ?j ?w0] =>
        destruct (stage_rest_silent e j w0) as (evs & Ht & Hr & Hx & Hp & Hw);
        destruct (stage_rest md5_hexdigest cadence max_fails config e j w0) as [o w1]
    end; cbn [fst snd w_node w_trace round_num out_expiration] in *;
    destruct o; cbn [snd].
  all: refine (ex_intro _ _ (conj _ (conj Hr (conj Hx (conj _ _)))));
    [ rewrite Ht, <- !app_assoc; reflexivity | .. ].
  all: unfold pointer_stores, stage_run; cbn [seq fmap list_fmap app];
    rewrite ?Nat.add_0_r; unfold writes in *;
    rewrite ?filter_cons; cbn [is_write is_pointer_store]; by rewrite ?Hp, ?Hw.
Qed.

Lemma stage_loop_pointer env start_stage c (rest : list string) (i : nat) (w : world) :
  exists evs k,
    w_trace (stage_loop md5_hexdigest cadence max_fails config env start_stage c rest i w).2
    = w_trace w ++ evs
    /\ (k <= length rest)%nat
    /\ writes evs = stage_run start_stage i k
    /\ filter is_pointer_store evs
       = if c then pointer_stores env (w_node w) start_stage i k else [].
Proof.
  revert i w. induction rest as [|st rest IH]; intros i w; cbn [stage_loop].
  - exists [], 0%nat. unfold ret. cbn. rewrite app_nil_r. by destruct c.
  - rewrite bind_eq.
    destruct (stage_body_pointer env start_stage c i w) as (evs1 & Ht1 & Hr1 & Hx1 & Hw1 & Hp1).
    destruct (stage_body _ _ _ _ _ _ _ _ w) as [[[]|e] w1]; cbn [fst snd length] in *.
    + destruct (IH (S i) w1) as (evs2 & k & Ht2 & Hk & Hw2 & Hp2).
      exists (evs1 ++ evs2), (S k). split; [by rewrite Ht2, Ht1, app_assoc|].
      split; [lia|]. rewrite writes_app, filter_app, Hw1, Hw2, Hp1, Hp2, !stage_run_S.
      split; [done|]. destruct c; [|done].
      rewrite !pointer_stores_S. unfold pointer_stores. cbn [seq fmap list_fmap app].
      by rewrite Hr1, Hx1.
    + exists evs1, 1%nat. split; [done|]. split; [lia|]. done.
Qed.

Lemma push_block_quiet env (w : world) :
  exists evs,
    match push_to_hub_token config with
    | Some _ =>
        log INFO "Pushing model to Hugging Face Hub..." ;;;
        try_except
          (the_trainer ;;; emit EvPushToHub ;;; lift (ce_push env) ;;; emit (EvSleep 1))
          (fun _ => log INFO push_failed_msg)
    | None => ret tt
    end w
    = (Return tt, mkWorld (w_node w) (w_trainer w) (w_trace w ++ evs))
    /\ filter is_pointer_store evs = [] /\ writes evs = [].
Proof.
  destruct (push_to_hub_token config).
  - monad_unfold. cbn. destruct (w_trainer w) eqn:Htr; cbn.
    + destruct (ce_push env) as [[]|e]; cbn; rewrite <- ?app_assoc;
        eexists; (split; [reflexivity|done]).
    + rewrite <- ?app_assoc. eexists; (split; [reflexivity|done]).
  - exists []. destruct w. unfold ret. cbn. by rewrite app_nil_r.
Qed.

(** X17. In a call [train_stages(round_num, start_stage, is_coordinator)]
    that enters [k] stages, the pointer stores are, with
    [is_coordinator=True], exactly one per stage entered, in order, each
    carrying [(round_num, stage)] for the stage just written and expiring
    [out_expiration] after the DHT time of its loop pass; with
    [is_coordinator=False] there is none.  The module's calls (the pointer
    store among them) are taken to return. *)
Theorem pointer_follows_stages env r start_stage c (w : world) :
  let evs := events_of (train_stages md5_hexdigest cadence max_fails stage_data config
                                     env r start_stage c) w in
  exists k,
    (k <= length (slice_from (stages stage_data) start_stage))%nat
    /\ stage_writes evs = (fun j : nat => start_stage + Z.of_nat j) <$> seq 0 k
    /\ filter is_pointer_store evs
       = if c then pointer_stores env (with_round (w_node w) r) start_stage 0 k else [].
Proof.
  cbv zeta.
  assert (Hrun : exists evs k,
            w_trace (train_stages md5_hexdigest cadence max_fails stage_data config
                                  env r start_stage c w).2 = w_trace w ++ evs
            /\ (k <= length (slice_from (stages stage_data) start_stage))%nat
            /\ writes evs = EvSetRound r :: stage_run start_stage 0 k
            /\ filter is_pointer_store evs
               = if c then pointer_stores env (with_round (w_node w) r) start_stage 0 k
                 else []).
  { unfold train_stages, set_round_num, cleanup. run_binds.
    match goal with
    | |- context [stage_loop _ _ _ _ ?e ?s ?c0 ?l ?i ?w0] =>
        destruct (stage_loop_pointer e s c0 l i w0) as (evs1 & k & Ht1 & Hk & Hw1 & Hp1);
        destruct (stage_loop md5_hexdigest cadence max_fails config e s c0 l i w0)
          as [[[]|e'] w1]
    end; cbn [fst snd w_node w_trace] in *.
    - destruct (push_block_quiet env w1) as (evs2 & Hpush & Hq1 & Hq2).
      rewrite bind_eq, Hpush. run_binds. unfold the_trainer. cbn [w_trainer].
      destruct (w_trainer w1); run_binds; cbn [emit snd w_trace];
        (eexists _, k; split; [rewrite Ht1, <- !app_assoc; reflexivity|]);
        (split; [done|]);
        rewrite ?writes_app, ?filter_app, Hw1, Hp1, Hq1, Hq2; unfold writes;
        cbn; rewrite ?app_nil_r; done.
    - eexists _, k. split; [rewrite Ht1, <- !app_assoc; reflexivity|].
      split; [done|]. rewrite ?writes_app, ?filter_app, Hw1, Hp1. unfold writes. by cbn. }
  destruct Hrun as (evs & k & Ht & Hk & Hw & Hp).
  rewrite (events_of_eq _ _ evs Ht). exists k. split; [done|]. split; [|done].
  rewrite <- stage_writes_writes, Hw. cbn. by rewrite stage_writes_stage_run.
Qed.
End PointerFacts.

(** ** What the publisher has published *)

Lemma stored_outputs_app (a b : list event) :
  stored_outputs (a ++ b) = stored_outputs a ++ stored_outputs b.
Proof. apply omap_app. Qed.

Lemma cached_outputs_app (a b : list event) :
  cached_outputs (a ++ b) = cached_outputs a ++ cached_outputs b.
Proof. apply omap_app. Qed.

Lemma reward_values_app (a b : list event) :
  reward_values (a ++ b) = reward_values a ++ reward_values b.
Proof. apply omap_app. Qed.

Lemma default_last_app {A} (d : A) (a b : list A) :
  default d (last (a ++ b)) = default (default d (last a)) (last b).
Proof. rewrite last_app. by destruct (last b). Qed.

Section PublishedFacts.
Context {F : FloatOps}.
Variable md5_hexdigest : string -> string.
Variable cadence : Z.
Hypothesis cadence_nonzero : cadence <> 0.

Lemma step_events_mirrored nd tr inp :
  stored_outputs (step_events md5_hexdigest cadence nd tr inp)
  = cached_outputs (step_events md5_hexdigest cadence nd tr inp).
Proof.
  unfold step_events, publisher_events, leaderboard_events.
  destruct (fires cadence (global_step tr));
    [destruct (question_of (si_outputs inp)) as [[outs q]|];
     [destruct (si_rewards inp) as [[l|]|]|]|];
    destruct (is_coordinator nd); try destruct (truthy (si_curr_rewards inp)); done.
Qed.

Lemma run_events_mirrored nd tr steps :
  stored_outputs (concat (run_events md5_hexdigest cadence nd tr steps))
  = cached_outputs (concat (run_events md5_hexdigest cadence nd tr steps)).
Proof.
  revert nd tr. induction steps as [|inp rest IH]; intros nd tr; [done|].
  cbn [run_events concat]. by rewrite stored_outputs_app, cached_outputs_app,
    step_events_mirrored, IH.
Qed.

(** X18. Through a call of [trainer.train()] (bound trainer, non-zero
    cadence), the outputs stored in the DHT and the outputs put in the
    node's own cache are the same, in the same order: same round, stage,
    question hash and value.  The publisher's calls are taken to return. *)
Theorem published_outputs_are_cached (script : train_script) (w : world)
    (tr : PublishingGRPOTrainer) :
  w_trainer w = Some tr ->
  stored_outputs (events_of (trainer_train md5_hexdigest cadence script) w)
  = cached_outputs (events_of (trainer_train md5_hexdigest cadence script) w).
Proof.
  intros Htr.
  pose proof (trainer_train_eq md5_hexdigest cadence cadence_nonzero script w tr Htr) as Heq.
  cbv zeta in Heq.
  erewrite events_of_eq; [|by rewrite Heq].
  change (stored_outputs (EvTrain :: ?l)) with (stored_outputs l).
  change (cached_outputs (EvTrain :: ?l)) with (cached_outputs l).
  apply run_events_mirrored.
Qed.

Lemma step_events_total nd tr inp :
  default (stage_rewards tr)
          (last (reward_values (step_events md5_hexdigest cadence nd tr inp)))
  = total_after cadence tr inp.
Proof.
  unfold step_events, publisher_events, leaderboard_events, total_after.
  destruct (fires cadence (global_step tr));
    [destruct (question_of (si_outputs inp)) as [[outs q]|];
     [destruct (si_rewards inp) as [[l|]|]|]|];
    destruct (is_coordinator nd); try destruct (truthy (si_curr_rewards inp)); done.
Qed.

Lemma run_events_total nd tr steps :
  default (stage_rewards tr)
          (last (reward_values (concat (run_events md5_hexdigest cadence nd tr steps))))
  = stage_rewards (run_trainer cadence tr steps).
Proof.
  revert nd tr. induction steps as [|inp rest IH]; intros nd tr; [done|].
  cbn [run_events concat run_trainer].
  rewrite reward_values_app, default_last_app, step_events_total.
  apply (IH (rewarded nd inp) (next_trainer cadence tr inp)).
Qed.
End PublishedFacts.

Lemma published_outputs_are_cached_witness :
  let run := trainer_train demo_digest CADENCE_OF_UPDATE_STEPS (demo_script 6) in
  CADENCE_OF_UPDATE_STEPS <> 0
  /\ w_trainer fresh_world = Some new_trainer
  /\ stored_outputs (events_of run fresh_world) = cached_outputs (events_of run fresh_world).
Proof.
  intros run.
  assert (H1 : CADENCE_OF_UPDATE_STEPS <> 0) by discriminate.
  assert (H2 : w_trainer fresh_world = Some new_trainer) by reflexivity.
  refine (conj H1 (conj H2 _)).
  exact (published_outputs_are_cached demo_digest CADENCE_OF_UPDATE_STEPS H1
           (demo_script 6) fresh_world new_trainer H2).
Defined.

(** ** Runs in which every call returns *)

Lemma returns_as_refl {A} (m : M A) : returns_as m m.
Proof. by intros w a w' H. Qed.

Lemma returns_as_bind {A B} (m m0 : M A) (f f0 : A -> M B) :
  returns_as m m0 -> (forall a, returns_as (f a) (f0 a)) ->
  returns_as (bind m f) (bind m0 f0).
Proof.
  intros Hm Hf w b w2. rewrite !bind_eq.
  destruct (m w) as [[a|e] w1] eqn:H1; [|discriminate].
  rewrite (Hm w a w1 H1). apply Hf.
Qed.

Lemma returns_as_call {E : Environment} (e : event) :
  returns_as (call e) (call (E := no_failures) e).
Proof. intros w a w'. unfold call. cbn [fails no_failures]. by destruct (fails _ e). Qed.

Lemma returns_as_check {E : Environment} (e : event) :
  returns_as (check e) (check (E := no_failures) e).
Proof. intros w a w'. unfold check. cbn [fails no_failures]. by destruct (fails _ e). Qed.

Ltac returns_as_tac :=
  repeat first
    [ match goal with
      | H : returns_as ?m _ |- returns_as ?m _ => exact H
      | |- returns_as (call _) _ => apply returns_as_call
      | |- returns_as (check _) _ => apply returns_as_check
      | |- returns_as (bind _ _) _ => apply returns_as_bind; [|intros ?]
      | |- returns_as (if ?b then _ else _) _ => destruct b
      | |- returns_as (match ?x with _ => _ end) _ => destruct x
      end
    | progress cbv zeta
    | apply returns_as_refl ].

Section ReturningRuns.
Context {F : FloatOps} {E : Environment}.
Variable md5_hexdigest : string -> string.
Variable cadence : Z.
Hypothesis cadence_nonzero : cadence <> 0.

(** Nothing in the training callback catches an exception: when a call of
    it returns, every call it made returned. *)
Lemma compute_loss_returns_as inp :
  returns_as (compute_loss md5_hexdigest cadence inp)
             (compute_loss (E := no_failures) md5_hexdigest cadence inp).
Proof.
  unfold compute_loss, publish, publish_leaderboard, super_compute_loss,
    add_stage_rewards, log.
  returns_as_tac.
Qed.

Lemma training_loop_returns_as steps :
  returns_as (training_loop md5_hexdigest cadence steps)
             (training_loop (E := no_failures) md5_hexdigest cadence steps).
Proof.
  induction steps as [|inp rest IH]; cbn [training_loop]; [apply returns_as_refl|].
  unfold training_step, set_global_step.
  pose proof (compute_loss_returns_as inp). returns_as_tac.
Qed.

(** X19. When a run of training steps returns (bound trainer, non-zero
    cadence), so that no call of the publisher raised, the total last
    stored under the rewards key is the trainer's current [stage_rewards];
    if nothing was stored, [stage_rewards] is what it was before the steps:
    in such a run the total changes only in a step that publishes it. *)
Theorem returned_total_is_published (steps : list step_input) (w : world)
    (tr : PublishingGRPOTrainer) :
  w_trainer w = Some tr ->
  (training_loop md5_hexdigest cadence steps w).1 = Return tt ->
  exists tr',
    w_trainer (training_loop md5_hexdigest cadence steps w).2 = Some tr'
    /\ default (stage_rewards tr)
               (last (reward_values
                        (events_of (training_loop md5_hexdigest cadence steps) w)))
       = stage_rewards tr'.
Proof.
  intros Htr Hret.
  pose proof (training_loop_eq md5_hexdigest cadence cadence_nonzero
                steps w tr Htr) as Heq.
  destruct (training_loop md5_hexdigest cadence steps w) as [[[]|e] w'] eqn:Hrun;
    [|discriminate].
  pose proof (training_loop_returns_as _ _ _ _ Hrun) as Hrun0. rewrite Hrun0 in Heq.
  injection Heq as Heq. cbn [snd]. unfold events_of. rewrite Hrun. cbn [snd].
  rewrite Heq. cbn [w_trainer w_trace]. exists (run_trainer cadence tr steps).
  split; [done|]. rewrite drop_app_length. apply run_events_total.
Qed.
End ReturningRuns.

Lemma returned_total_is_published_witness :
  let steps := [demo_step (Some (RewardList [1 # 2; 3 # 1]%Q)); demo_step None] in
  let run := training_loop (E := no_failures) demo_digest CADENCE_OF_UPDATE_STEPS steps in
  CADENCE_OF_UPDATE_STEPS <> 0
  /\ w_trainer fresh_world = Some new_trainer
  /\ (run fresh_world).1 = Return tt
  /\ exists tr',
       w_trainer (run fresh_world).2 = Some tr'
       /\ default (stage_rewards new_trainer)
                  (last (reward_values (events_of run fresh_world)))
          = stage_rewards tr'.
Proof.
  intros steps run.
  assert (H1 : CADENCE_OF_UPDATE_STEPS <> 0) by discriminate.
  assert (H2 : w_trainer fresh_world = Some new_trainer) by reflexivity.
  assert (H3 : (run fresh_world).1 = Return tt) by reflexivity.
  refine (conj H1 (conj H2 (conj H3 _))).
  exact (returned_total_is_published (E := no_failures) demo_digest
           CADENCE_OF_UPDATE_STEPS H1 steps fresh_world new_trainer H2 H3).
Defined.
